(** * my-salary: work-hour and salary tracker (src/app.py)

    A shallow embedding of the time/pay computation, the work-entry store
    and the monthly report of [src/app.py], together with the properties
    its specification states about them.

    Modelling conventions.
    - SQLite [TEXT] values are [string]s (byte strings, compared bytewise as
      the BINARY collation does), [NULL] is [None].
    - Python [float]s and SQLite [REAL]s are idealised as exact rationals
      [Q]; [round(x, 2)] is rounding to the nearest hundredth, ties to even,
      returned in lowest terms.  The floats that are not finite
      appear only in the section on the rates that are not finite.
    - A raised exception is a value [Raise e]; an exception no handler
      catches ends the request with [Unhandled e] and no write.
    - The session and bearer-token guards are external collaborators; each
      handler is modelled from the point where its guard has passed.
    - The wall clock is an input: [date.today()] and [datetime.now()] are
      the fields of an [env]. *)

From Stdlib Require Import ZArith QArith Qround Ascii String List Lia.
From stdpp Require Import base option list sorting gmap strings.

Local Open Scope string_scope.
Local Open Scope Z_scope.

(** ** Exceptions and results *)

Inductive exn : Set := ValueError | TypeError | OverflowError.

Inductive result (A : Type) : Type :=
| Ok (a : A)
| Raise (e : exn).
Arguments Ok {A} a.
Arguments Raise {A} e.

Module Res.
Definition bind {A B} (m : result A) (k : A -> result B) : result B :=
  match m with
  | Ok a => k a
  | Raise e => Raise e
  end.

(** [try: m except ValueError: h] *)
Definition catch_ValueError {A} (m : result A) (h : result A) : result A :=
  match m with
  | Raise ValueError => h
  | _ => m
  end.
End Res.

#[global] Instance result_ret : MRet result := fun A a => Ok a.
#[global] Instance result_bind : MBind result := fun A B k m => Res.bind m k.

(** ** Characters and strings *)

Definition ord (c : ascii) : Z := Z.of_N (N_of_ascii c).

Definition chr (n : Z) : ascii := ascii_of_N (Z.to_N n).

(** [\d] of the regular expressions behind [strptime] (ASCII digits). *)
Definition digit_val (c : ascii) : option Z :=
  let n := ord c in
  if (48 <=? n) && (n <=? 57) then Some (n - 48) else None.

Definition digit_chr (d : Z) : ascii := chr (48 + d).

(** The characters [str.strip()] removes. *)
Definition is_space (c : ascii) : bool :=
  let n := ord c in
  ((9 <=? n) && (n <=? 13)) || ((28 <=? n) && (n <=? 32)).

Fixpoint lstrip (s : string) : string :=
  match s with
  | String c r => if is_space c then lstrip r else s
  | EmptyString => EmptyString
  end.

Fixpoint rstrip (s : string) : string :=
  match s with
  | String c r =>
      match rstrip r with
      | EmptyString => if is_space c then EmptyString else String c EmptyString
      | r' => String c r'
      end
  | EmptyString => EmptyString
  end.

Definition strip (s : string) : string := rstrip (lstrip s).

(** Truthiness of a Python [str]. *)
Definition str_truthy (s : string) : bool :=
  match s with EmptyString => false | _ => true end.

(** [s or None] *)
Definition or_None (s : string) : option string :=
  if str_truthy s then Some s else None.

(** [%02d] and [%04d] for the numbers [strftime] and [isoformat] print. *)
Definition pad2 (n : Z) : string :=
  String (digit_chr (n / 10 mod 10)) (String (digit_chr (n mod 10)) EmptyString).

Definition pad4 (n : Z) : string :=
  String (digit_chr (n / 1000 mod 10))
    (String (digit_chr (n / 100 mod 10)) (pad2 n)).

(** ** The directives of [datetime.strptime]

    A directive is the regular expression [_strptime] compiles it to: its
    alternatives are tried from left to right, and a later alternative is
    taken when the rest of the format fails after an earlier one.  A
    matcher returns its matches in that order. *)

Definition matcher (A : Type) : Type := string -> list (A * string).

Definition m_ret {A} (a : A) : matcher A := fun s => [(a, s)].

Definition m_bind {A B} (m : matcher A) (k : A -> matcher B) : matcher B :=
  fun s => concat (map (fun '(a, r) => k a r) (m s)).

Definition m_alt {A} (m1 m2 : matcher A) : matcher A :=
  fun s => (m1 s ++ m2 s)%list.

Definition m_lit (c : ascii) : matcher unit :=
  fun s =>
    match s with
    | String c' r => if Ascii.eqb c c' then [(tt, r)] else []
    | EmptyString => []
    end.

(** One digit satisfying [p]. *)
Definition m_digit (p : Z -> bool) : matcher Z :=
  fun s =>
    match s with
    | String c r =>
        match digit_val c with
        | Some d => if p d then [(d, r)] else []
        | None => []
        end
    | EmptyString => []
    end.

(** Two digits, the first satisfying [p1] and the second [p2]. *)
Definition m_digit2 (p1 p2 : Z -> bool) : matcher Z :=
  m_bind (m_digit p1) (fun a => m_bind (m_digit p2) (fun b => m_ret (10 * a + b))).

Definition any_digit (d : Z) : bool := true.
Definition digit_in (lo hi : Z) (d : Z) : bool := (lo <=? d) && (d <=? hi).

(** [%H]: [2[0-3]|[0-1]\d|\d] *)
Definition re_H : matcher Z :=
  m_alt (m_digit2 (digit_in 2 2) (digit_in 0 3))
    (m_alt (m_digit2 (digit_in 0 1) any_digit) (m_digit any_digit)).

(** [%M]: [[0-5]\d|\d] *)
Definition re_M : matcher Z :=
  m_alt (m_digit2 (digit_in 0 5) any_digit) (m_digit any_digit).

(** [%Y]: [\d\d\d\d] *)
Definition re_Y : matcher Z :=
  m_bind (m_digit2 any_digit any_digit) (fun hi =>
  m_bind (m_digit2 any_digit any_digit) (fun lo => m_ret (100 * hi + lo))).

(** [%m]: [1[0-2]|0[1-9]|[1-9]] *)
Definition re_m : matcher Z :=
  m_alt (m_digit2 (digit_in 1 1) (digit_in 0 2))
    (m_alt (m_digit2 (digit_in 0 0) (digit_in 1 9)) (m_digit (digit_in 1 9))).

(** [%d]: [3[0-1]|[1-2]\d|0[1-9]|[1-9]| [1-9]] *)
Definition re_d : matcher Z :=
  m_alt (m_digit2 (digit_in 3 3) (digit_in 0 1))
    (m_alt (m_digit2 (digit_in 1 2) any_digit)
       (m_alt (m_digit2 (digit_in 0 0) (digit_in 1 9))
          (m_alt (m_digit (digit_in 1 9))
             (m_bind (m_lit " ") (fun _ => m_digit (digit_in 1 9)))))).

(** The first match of the whole format; [strptime] raises [ValueError]
    when there is none, or when it leaves part of the input unread. *)
Definition m_run {A} (m : matcher A) (s : string) : result A :=
  match m s with
  | (a, EmptyString) :: _ => Ok a
  | _ => Raise ValueError
  end.

(** ** Rounding *)

(** Nearest integer, ties to even. *)
Definition round_half_even (q : Q) : Z :=
  let f := Qfloor q in
  match (q - inject_Z f ?= 1 # 2)%Q with
  | Lt => f
  | Gt => f + 1
  | Eq => if Z.even f then f else f + 1
  end.

(** [round(x, 2)] *)
Definition round2 (x : Q) : Q := Qred (round_half_even (x * 100) # 100).

(** ** Wall-clock times *)

(** What [datetime.strptime(s, "%H:%M")] keeps of [s]: the date part is
    the fixed 1900-01-01, here day [0]. *)
Record datetime : Set := { dt_day : Z; dt_hour : Z; dt_minute : Z }.

Definition strptime_HM (s : string) : result datetime :=
  '(h, m) ← m_run (m_bind re_H (fun h =>
              m_bind (m_lit ":") (fun _ =>
              m_bind re_M (fun m => m_ret (h, m))))) s;
  mret {| dt_day := 0; dt_hour := h; dt_minute := m |}.

(** [datetime.now().strftime("%H:%M")] *)
Definition strftime_HM (t : datetime) : string :=
  pad2 (dt_hour t) ++ ":" ++ pad2 (dt_minute t).

Definition dt_seconds (t : datetime) : Z :=
  dt_day t * 86400 + dt_hour t * 3600 + dt_minute t * 60.

(** [a < b] on datetimes *)
Definition dt_ltb (a b : datetime) : bool := dt_seconds a <? dt_seconds b.

(** [t + timedelta(days=n)] *)
Definition dt_add_days (t : datetime) (n : Z) : datetime :=
  {| dt_day := dt_day t + n; dt_hour := dt_hour t; dt_minute := dt_minute t |}.

(** [(a - b).total_seconds()] *)
Definition dt_sub_seconds (a b : datetime) : Z := dt_seconds a - dt_seconds b.

Definition compute_total_hours (check_in_str check_out_str : string) : result Q :=
  start_dt ← strptime_HM check_in_str;
  end_dt ← strptime_HM check_out_str;
  let end_dt := if dt_ltb end_dt start_dt then dt_add_days end_dt 1 else end_dt in
  let delta := dt_sub_seconds end_dt start_dt in
  let hours := (inject_Z delta / 3600)%Q in
  mret (round2 hours).

(** ** Calendar dates *)

Record date : Set := { year : Z; month : Z; day : Z }.

Definition is_leap (y : Z) : bool :=
  (y mod 4 =? 0) && (negb (y mod 100 =? 0) || (y mod 400 =? 0)).

Definition days_in_month (y m : Z) : Z :=
  if m =? 2 then (if is_leap y then 29 else 28)
  else if (m =? 4) || (m =? 6) || (m =? 9) || (m =? 11) then 30
  else 31.

Definition MINYEAR : Z := 1.
Definition MAXYEAR : Z := 9999.

Definition valid_date (d : date) : bool :=
  (MINYEAR <=? year d) && (year d <=? MAXYEAR)
  && (1 <=? month d) && (month d <=? 12)
  && (1 <=? day d) && (day d <=? days_in_month (year d) (month d)).

(** [date(y, m, d)]: [ValueError] unless the fields name a day of the
    calendar. *)
Definition make_date (y m d : Z) : result date :=
  let r := {| year := y; month := m; day := d |} in
  if valid_date r then Ok r else Raise ValueError.

(** [d.replace(day=k)] *)
Definition date_replace_day (d : date) (k : Z) : result date :=
  make_date (year d) (month d) k.

Definition date_succ (d : date) : date :=
  if day d <? days_in_month (year d) (month d)
  then {| year := year d; month := month d; day := day d + 1 |}
  else if month d <? 12
  then {| year := year d; month := month d + 1; day := 1 |}
  else {| year := year d + 1; month := 1; day := 1 |}.

Definition date_pred (d : date) : date :=
  if 1 <? day d
  then {| year := year d; month := month d; day := day d - 1 |}
  else if 1 <? month d
  then {| year := year d; month := month d - 1;
          day := days_in_month (year d) (month d - 1) |}
  else {| year := year d - 1; month := 12; day := 31 |}.

(** The day [n] days after [d] ([-n] days before it when [n < 0]). *)
Definition date_shift (d : date) (n : Z) : date :=
  if 0 <=? n then Nat.iter (Z.to_nat n) date_succ d
  else Nat.iter (Z.to_nat (- n)) date_pred d.

(** [d + timedelta(days=n)]: [OverflowError] outside years 1..9999. *)
Definition date_add_days (d : date) (n : Z) : result date :=
  let r := date_shift d n in
  if (MINYEAR <=? year r) && (year r <=? MAXYEAR) then Ok r
  else Raise OverflowError.

(** [d.isoformat()] *)
Definition isoformat (d : date) : string :=
  pad4 (year d) ++ "-" ++ pad2 (month d) ++ "-" ++ pad2 (day d).

(** [datetime.strptime(s, "%Y-%m-%d").date()] *)
Definition strptime_Ymd (s : string) : result date :=
  '(y, m, d) ← m_run (m_bind re_Y (fun y =>
                 m_bind (m_lit "-") (fun _ =>
                 m_bind re_m (fun m =>
                 m_bind (m_lit "-") (fun _ =>
                 m_bind re_d (fun d => m_ret (y, m, d))))))) s;
  make_date y m d.

(** ** Python values

    The values the handlers pass through [or] and [float(...)]. *)

Inductive pyval : Type :=
| PNone
| PInt (z : Z)
| PFloat (q : Q)
| PStr (s : string).

Definition truthy (v : pyval) : bool :=
  match v with
  | PNone => false
  | PInt z => negb (z =? 0)
  | PFloat q => negb (Qnum q =? 0)
  | PStr s => str_truthy s
  end.

(** [a or b] *)
Definition py_or (a b : pyval) : pyval := if truthy a then a else b.

Definition of_text (o : option string) : pyval := from_option PStr PNone o.
Definition of_real (o : option Q) : pyval := from_option PFloat PNone o.

(** The two conversions between [float] and [str] the handlers use:
    [float(s)], which has no value where Python raises [ValueError], and
    [str(x)]. *)
Class FloatText : Type := {
  float_of_string : string -> option Q;
  str_of_float : Q -> string
}.

(** [float(v)] *)
Definition py_float `{FloatText} (v : pyval) : result Q :=
  match v with
  | PNone => Raise TypeError
  | PInt z => Ok (inject_Z z)
  | PFloat q => Ok q
  | PStr s =>
      match float_of_string s with
      | Some q => Ok q
      | None => Raise ValueError
      end
  end.

(** [x or 0] for a [REAL] column read in a sum. *)
Definition real_or_0 (o : option Q) : Q :=
  match py_or (of_real o) (PInt 0) with
  | PFloat q => q
  | _ => 0%Q
  end.

(** ** The database *)

Module Entry.
(** A row of [work_entries]. *)
Record t : Type := {
  id : Z;
  work_date : string;
  check_in : option string;
  check_out : option string;
  total_hours : option Q;
  hourly_rate : option Q;
  daily_salary : option Q
}.
End Entry.
Abbreviation work_entry := Entry.t.

(** [settings] is the key/value table; [work_entries] holds the rows in
    rowid order; [sqlite_sequence] is the largest rowid [AUTOINCREMENT]
    has handed out. *)
Record db : Type := {
  settings : gmap string string;
  work_entries : list work_entry;
  sqlite_sequence : Z
}.

Definition empty_db : db :=
  {| settings := ∅; work_entries := []; sqlite_sequence := 0 |}.

Definition get_setting (key : string) (d : db) : option string :=
  settings d !! key.

(** [INSERT ... ON CONFLICT(key) DO UPDATE SET value=excluded.value] *)
Definition set_setting (key value : string) (d : db) : db :=
  {| settings := <[key := value]> (settings d);
     work_entries := work_entries d;
     sqlite_sequence := sqlite_sequence d |}.

Definition ensure_default_settings (d : db) : db :=
  match get_setting "default_hourly_rate" d with
  | None => set_setting "default_hourly_rate" "5.0" d
  | Some _ => d
  end.

(** [ORDER BY id DESC LIMIT 1] over the rows [l]. *)
Fixpoint latest (l : list work_entry) : option work_entry :=
  match l with
  | [] => None
  | e :: r =>
      match latest r with
      | Some e' => if Entry.id e <? Entry.id e' then Some e' else Some e
      | None => Some e
      end
  end.

Definition is_open_on (day_str : string) (e : work_entry) : bool :=
  String.eqb (Entry.work_date e) day_str
  && match Entry.check_out e with None => true | Some _ => false end.

Definition get_today_entry (today : date) (d : db) : option work_entry :=
  latest (List.filter (fun e => String.eqb (Entry.work_date e) (isoformat today))
            (work_entries d)).

Definition open_entry_for_date (target_date : date) (d : db) : option work_entry :=
  latest (List.filter (is_open_on (isoformat target_date)) (work_entries d)).

(** [INSERT INTO work_entries (...) VALUES (...)]: the new row takes the
    next rowid; [mk] builds it from that rowid. *)
Definition insert_entry (mk : Z -> work_entry) (d : db) : db :=
  let rowid := sqlite_sequence d + 1 in
  {| settings := settings d;
     work_entries := (work_entries d ++ [mk rowid])%list;
     sqlite_sequence := rowid |}.

(** [UPDATE work_entries SET ... WHERE id = ?] *)
Definition update_entry (rid : Z) (set : work_entry -> work_entry) (d : db) : db :=
  {| settings := settings d;
     work_entries :=
       List.map (fun e => if Entry.id e =? rid then set e else e) (work_entries d);
     sqlite_sequence := sqlite_sequence d |}.

(** [DELETE FROM work_entries WHERE id = ?] *)
Definition delete_entry (rid : Z) (d : db) : db :=
  {| settings := settings d;
     work_entries := List.filter (fun e => negb (Entry.id e =? rid)) (work_entries d);
     sqlite_sequence := sqlite_sequence d |}.

(** [SELECT * FROM work_entries WHERE id = ?] *)
Definition select_by_id (rid : Z) (d : db) : option work_entry :=
  List.find (fun e => Entry.id e =? rid) (work_entries d).

(** Rowids are the primary key: they increase along the table and none
    exceeds [sqlite_sequence]. *)
Fixpoint ids_increasing (lo : Z) (l : list work_entry) : bool :=
  match l with
  | [] => true
  | e :: r => (lo <? Entry.id e) && ids_increasing (Entry.id e) r
  end.

Definition wf_db (d : db) : bool :=
  ids_increasing 0 (work_entries d)
  && (forallb (fun e => Entry.id e <=? sqlite_sequence d) (work_entries d)
      && (0 <=? sqlite_sequence d)).

(** ** Requests and responses *)

(** The wall clock of a request. *)
Record env : Set := { today : date; now : datetime }.

Inductive method : Set := GET | POST.

(** [request.form.get(key, default)] *)
Definition form_get (form : gmap string string) (key dflt : string) : string :=
  default dflt (form !! key).

Module Report.
(** What the report hands to its template, or to [jsonify]. *)
Record t : Type := {
  rows : list work_entry;
  start_date : date;
  end_date : date;
  total_hours : Q;
  total_salary : Q
}.
End Report.

Inductive view : Type :=
| ReportView (r : Report.t)
| RecordView (e : work_entry)
| DefaultRateView (default_rate : Q).

Inductive payload : Type :=
| PError (key : string)
| PCheckedIn (check_in : string)
| PCheckedOut (check_out : string) (hours salary : Q)
| PReport (r : Report.t).

(** [Redirect] is [flash(message, category)] followed by
    [redirect(url_for(endpoint))]; [Unhandled] is an exception that leaves
    the handler. *)
Inductive response : Type :=
| Redirect (endpoint message category : string)
| Template (name : string) (v : view)
| Abort (status : Z)
| Json (status : Z) (p : payload)
| Unhandled (e : exn).

(** A handler body either raises before its single write, or returns the
    new database and the response. *)
Definition respond (d : db) (body : result (db * response)) : db * response :=
  match body with
  | Ok r => r
  | Raise e => (d, Unhandled e)
  end.

(** ** The handlers *)

Section Handlers.
Context `{FloatText}.

(** [float(get_setting("default_hourly_rate") or 0)] *)
Definition default_rate (d : db) : result Q :=
  py_float (py_or (of_text (get_setting "default_hourly_rate" d)) (PInt 0)).

Definition update_default_rate (form : gmap string string) (d : db) : db * response :=
  respond d (
    Res.catch_ValueError
      (new_rate ← py_float (PStr (strip (form_get form "hourly_rate" "0")));
       mret (set_setting "default_hourly_rate" (str_of_float new_rate) d,
             Redirect "home" "Default hourly rate updated" "success"))
      (Ok (d, Redirect "home" "Invalid rate" "error"))).

Definition check_in (e : env) (d : db) : db * response :=
  let today := today e in
  match open_entry_for_date today d with
  | Some _ => (d, Redirect "home" "Already checked in today." "warning")
  | None =>
      let now_time := strftime_HM (now e) in
      respond d (
        default_rate ← default_rate d;
        mret (insert_entry (fun rowid =>
                {| Entry.id := rowid;
                   Entry.work_date := isoformat today;
                   Entry.check_in := Some now_time;
                   Entry.check_out := None;
                   Entry.total_hours := None;
                   Entry.hourly_rate := Some default_rate;
                   Entry.daily_salary := None |}) d,
              Redirect "home" ("Checked in at " ++ now_time) "success"))
  end.

(** [open_entry["check_in"]] handed to [compute_total_hours]:
    [strptime] raises [TypeError] on [None]. *)
Definition hours_since (stored_check_in : option string) (now_time : string) : result Q :=
  match stored_check_in with
  | Some s => compute_total_hours s now_time
  | None => Raise TypeError
  end.

(** [SET check_out = ?, total_hours = ?, daily_salary = ?] *)
Definition set_checked_out (now_time : string) (total_hours daily_salary : Q)
    (e : work_entry) : work_entry :=
  {| Entry.id := Entry.id e;
     Entry.work_date := Entry.work_date e;
     Entry.check_in := Entry.check_in e;
     Entry.check_out := Some now_time;
     Entry.total_hours := Some total_hours;
     Entry.hourly_rate := Entry.hourly_rate e;
     Entry.daily_salary := Some daily_salary |}.

Definition check_out (e : env) (d : db) : db * response :=
  let today := today e in
  match open_entry_for_date today d with
  | None => (d, Redirect "home" "No open check-in for today." "warning")
  | Some open_entry =>
      let now_time := strftime_HM (now e) in
      respond d (
        total_hours ← hours_since (Entry.check_in open_entry) now_time;
        hourly_rate ← py_float (py_or (of_real (Entry.hourly_rate open_entry))
                         (py_or (of_text (get_setting "default_hourly_rate" d)) (PInt 0)));
        let daily_salary := round2 (total_hours * hourly_rate) in
        mret (update_entry (Entry.id open_entry)
                (set_checked_out now_time total_hours daily_salary) d,
              Redirect "home" ("Checked out at " ++ now_time) "success"))
  end.

(** The fields both record forms post, after [.strip()]; an unparseable
    rate is replaced by the default rate. *)
Definition form_rate (form : gmap string string) (d : db) : result Q :=
  Res.catch_ValueError
    (py_float (PStr (strip (form_get form "hourly_rate" "0"))))
    (default_rate d).

Definition add_record (m : method) (form : gmap string string) (d : db) : db * response :=
  match m with
  | POST =>
      let work_date := strip (form_get form "work_date" "") in
      let check_in := strip (form_get form "check_in" "") in
      let check_out := strip (form_get form "check_out" "") in
      respond d (
        hourly_rate ← form_rate form d;
        '(total_hours, daily_salary) ←
          (if str_truthy check_in && str_truthy check_out then
             total_hours ← compute_total_hours check_in check_out;
             mret (Some total_hours, Some (round2 (total_hours * hourly_rate)))
           else mret (None, None));
        mret (insert_entry (fun rowid =>
                {| Entry.id := rowid;
                   Entry.work_date := work_date;
                   Entry.check_in := or_None check_in;
                   Entry.check_out := or_None check_out;
                   Entry.total_hours := total_hours;
                   Entry.hourly_rate := Some hourly_rate;
                   Entry.daily_salary := daily_salary |}) d,
              Redirect "report" "Record added" "success"))
  | GET =>
      respond d (
        default_rate ← default_rate d;
        mret (d, Template "add_record.html" (DefaultRateView default_rate)))
  end.

Definition edit_record (record_id : Z) (m : method) (form : gmap string string)
    (d : db) : db * response :=
  match select_by_id record_id d with
  | None => (d, Abort 404)
  | Some row =>
      match m with
      | POST =>
          let work_date := strip (form_get form "work_date" "") in
          let check_in := strip (form_get form "check_in" "") in
          let check_out := strip (form_get form "check_out" "") in
          respond d (
            hourly_rate ← form_rate form d;
            '(total_hours, daily_salary) ←
              (if str_truthy check_in && str_truthy check_out then
                 total_hours ← compute_total_hours check_in check_out;
                 mret (Some total_hours, Some (round2 (total_hours * hourly_rate)))
               else mret (None, None));
            mret (update_entry record_id (fun e =>
                    {| Entry.id := Entry.id e;
                       Entry.work_date := work_date;
                       Entry.check_in := or_None check_in;
                       Entry.check_out := or_None check_out;
                       Entry.total_hours := total_hours;
                       Entry.hourly_rate := Some hourly_rate;
                       Entry.daily_salary := daily_salary |}) d,
                  Redirect "report" "Record updated" "success"))
      | GET => (d, Template "edit_record.html" (RecordView row))
      end
  end.

Definition delete_record (record_id : Z) (d : db) : db * response :=
  (delete_entry record_id d, Redirect "report" "Record deleted" "success").

(** *** The JSON API *)

Definition api_check_in (e : env) (d : db) : db * response :=
  let today := today e in
  match open_entry_for_date today d with
  | Some _ => (d, Json 400 (PError "already_checked_in"))
  | None =>
      let now_time := strftime_HM (now e) in
      respond d (
        default_rate ← default_rate d;
        mret (insert_entry (fun rowid =>
                {| Entry.id := rowid;
                   Entry.work_date := isoformat today;
                   Entry.check_in := Some now_time;
                   Entry.check_out := None;
                   Entry.total_hours := None;
                   Entry.hourly_rate := Some default_rate;
                   Entry.daily_salary := None |}) d,
              Json 200 (PCheckedIn now_time)))
  end.

Definition api_check_out (e : env) (d : db) : db * response :=
  let today := today e in
  match open_entry_for_date today d with
  | None => (d, Json 400 (PError "no_open_entry"))
  | Some open_entry =>
      let now_time := strftime_HM (now e) in
      respond d (
        total_hours ← hours_since (Entry.check_in open_entry) now_time;
        hourly_rate ← py_float (py_or (of_real (Entry.hourly_rate open_entry))
                         (py_or (of_text (get_setting "default_hourly_rate" d)) (PInt 0)));
        let daily_salary := round2 (total_hours * hourly_rate) in
        mret (update_entry (Entry.id open_entry)
                (set_checked_out now_time total_hours daily_salary) d,
              Json 200 (PCheckedOut now_time total_hours daily_salary)))
  end.

End Handlers.

(** ** The monthly report

    [report], [api_report] and the two exports resolve the month, select
    the rows and add the totals with the same statements. *)

(** The first day of the reported month: the requested one, or the
    current one when none is requested or the request does not parse. *)
Definition report_start (month : option string) (today : date) : result date :=
  match month with
  | Some m =>
      if str_truthy m then
        Res.catch_ValueError (strptime_Ymd (m ++ "-01")) (date_replace_day today 1)
      else date_replace_day today 1
  | None => date_replace_day today 1
  end.

Definition report_end (start_date : date) : result date :=
  d28 ← date_replace_day start_date 28;
  d32 ← date_add_days d28 4;
  next_month ← date_replace_day d32 1;
  date_add_days next_month (-1).

(** [ORDER BY work_date ASC] *)
Definition work_date_le (a b : work_entry) : Prop :=
  String.leb (Entry.work_date a) (Entry.work_date b) = true.

#[global] Instance work_date_le_dec a b : Decision (work_date_le a b).
Proof. unfold work_date_le. apply _. Defined.

(** [work_date BETWEEN lo AND hi] *)
Definition between (lo hi : string) (e : work_entry) : bool :=
  String.leb lo (Entry.work_date e) && String.leb (Entry.work_date e) hi.

Definition select_between (lo hi : string) (d : db) : list work_entry :=
  merge_sort work_date_le (List.filter (between lo hi) (work_entries d)).

(** [sum(... for r in rows)] *)
Definition py_sum (l : list Q) : Q := fold_left Qplus l 0%Q.

Definition monthly (month : option string) (e : env) (d : db) : result Report.t :=
  start_date ← report_start month (today e);
  end_date ← report_end start_date;
  let rows := select_between (isoformat start_date) (isoformat end_date) d in
  let total_hours :=
    round2 (py_sum (List.map (fun r => real_or_0 (Entry.total_hours r)) rows)) in
  let total_salary :=
    round2 (py_sum (List.map (fun r => real_or_0 (Entry.daily_salary r)) rows)) in
  mret {| Report.rows := rows;
          Report.start_date := start_date;
          Report.end_date := end_date;
          Report.total_hours := total_hours;
          Report.total_salary := total_salary |}.

Definition report (month : option string) (e : env) (d : db) : db * response :=
  respond d (
    r ← monthly month e d;
    mret (d, Template "monthly_report.html" (ReportView r))).

Definition api_report (month : option string) (e : env) (d : db) : db * response :=
  respond d (
    r ← monthly month e d;
    mret (d, Json 200 (PReport r))).

(** ** Decimal literals

    One [FloatText]: [float] on plain decimal literals ([-12.50], [7],
    [.5]) and [str] printing the decimal expansion (cut after 17
    fractional digits); it serves the concrete runs below. *)

Fixpoint digits_val (acc : Z) (s : string) : option (Z * string) :=
  match s with
  | String c r =>
      match digit_val c with
      | Some d =>
          match digits_val (10 * acc + d) r with
          | Some res => Some res
          | None => Some (10 * acc + d, r)
          end
      | None => None
      end
  | EmptyString => None
  end.

Definition unsigned_decimal (s : string) : option Q :=
  match digits_val 0 s with
  | Some (n, EmptyString) => Some (inject_Z n)
  | Some (n, String "." EmptyString) => Some (inject_Z n)
  | Some (n, String "." f) =>
      match digits_val 0 f with
      | Some (k, EmptyString) =>
          Some (Qred (n * 10 ^ Z.of_nat (String.length f) + k
                      # Pos.of_nat (Nat.pow 10 (String.length f))))
      | _ => None
      end
  | Some _ => None
  | None =>
      match s with
      | String "." f =>
          match digits_val 0 f with
          | Some (k, EmptyString) =>
              Some (Qred (k # Pos.of_nat (Nat.pow 10 (String.length f))))
          | _ => None
          end
      | _ => None
      end
  end.

Definition decimal_of_string (s : string) : option Q :=
  match s with
  | String "-" r => Qopp <$> unsigned_decimal r
  | String "+" r => unsigned_decimal r
  | _ => unsigned_decimal s
  end.

Fixpoint nat_digits (fuel : nat) (n : Z) (acc : string) : string :=
  match fuel with
  | O => acc
  | S fuel' =>
      let acc' := String (digit_chr (n mod 10)) acc in
      if n <? 10 then acc' else nat_digits fuel' (n / 10) acc'
  end.

Fixpoint frac_digits (fuel : nat) (num den : Z) : string :=
  match fuel with
  | O => EmptyString
  | S fuel' =>
      let n10 := 10 * num in
      let r := n10 mod den in
      String (digit_chr (n10 / den))
        (if r =? 0 then EmptyString else frac_digits fuel' r den)
  end.

Definition string_of_decimal (q : Q) : string :=
  let n := Z.abs (Qnum q) in
  let d := Z.pos (Qden q) in
  (if Qnum q <? 0 then "-" else "")
  ++ nat_digits (S (Z.to_nat (Z.log2 (n / d)))) (n / d) ""
  ++ "." ++ frac_digits 17 (n mod d) d.

Definition decimal_text : FloatText :=
  {| float_of_string := decimal_of_string; str_of_float := string_of_decimal |}.

(** ** Vocabulary of the specification *)

(** A time of day in hours. *)
Definition clock_hours (t : datetime) : Q :=
  (inject_Z (dt_hour t) + inject_Z (dt_minute t) / 60)%Q.

(** [b] is strictly earlier on the clock than [a]. *)
Definition earlier (b a : datetime) : bool :=
  (dt_hour b <? dt_hour a)
  || ((dt_hour b =? dt_hour a) && (dt_minute b <? dt_minute a)).

(** [h] is [x] rounded to two decimal places: a whole number of
    hundredths, at most half a hundredth away from [x]. *)
Definition rounded_to_hundredths (x h : Q) : Prop :=
  (exists n : Z, h == n # 100)%Q
  /\ (x - (1 # 200) <= h)%Q /\ (h <= x + (1 # 200))%Q.

(** An open entry for [day]: a row of that date whose check-out is null. *)
Definition open_on (day : date) (row : work_entry) : Prop :=
  Entry.work_date row = isoformat day /\ Entry.check_out row = None.

(** The row a check-in inserts. *)
Definition checked_in_row (rowid : Z) (e : env) (rate : Q) : work_entry :=
  {| Entry.id := rowid;
     Entry.work_date := isoformat (today e);
     Entry.check_in := Some (strftime_HM (now e));
     Entry.check_out := None;
     Entry.total_hours := None;
     Entry.hourly_rate := Some rate;
     Entry.daily_salary := None |}.

(** The rate a check-out applies to the open entry [row]. *)
Definition check_out_rate `{FloatText} (row : work_entry) (d : db) : result Q :=
  py_float (py_or (of_real (Entry.hourly_rate row))
              (py_or (of_text (get_setting "default_hourly_rate" d)) (PInt 0))).

(** The requests that write to the database. *)
Inductive operation : Type :=
| OpSetRate (form : gmap string string)
| OpCheckIn (e : env)
| OpApiCheckIn (e : env)
| OpCheckOut (e : env)
| OpApiCheckOut (e : env)
| OpAddRecord (form : gmap string string)
| OpEditRecord (record_id : Z) (form : gmap string string)
| OpDeleteRecord (record_id : Z).

Definition run `{FloatText} (op : operation) (d : db) : db * response :=
  match op with
  | OpSetRate form => update_default_rate form d
  | OpCheckIn e => check_in e d
  | OpApiCheckIn e => api_check_in e d
  | OpCheckOut e => check_out e d
  | OpApiCheckOut e => api_check_out e d
  | OpAddRecord form => add_record POST form d
  | OpEditRecord record_id form => edit_record record_id POST form d
  | OpDeleteRecord record_id => delete_record record_id d
  end.

(** Hours and salary of [row] are those of its own times and rate,
    whenever it has both a check-in and a check-out. *)
Definition derived_from_own (row : work_entry) : Prop :=
  forall ci co,
    Entry.check_in row = Some ci -> Entry.check_out row = Some co ->
    exists h r,
      compute_total_hours ci co = Ok h
      /\ Entry.hourly_rate row = Some r
      /\ Entry.total_hours row = Some h
      /\ Entry.daily_salary row = Some (round2 (h * r)).

(** The open entry a check-out at [e] would target, if any, stores a
    rate that is neither null nor zero. *)
Definition open_rate_nonzero (e : env) (d : db) : bool :=
  match open_entry_for_date (today e) d with
  | Some row =>
      match Entry.hourly_rate row with
      | Some r => negb (Qnum r =? 0)
      | None => false
      end
  | None => true
  end.

Definition stored_rate_applies (op : operation) (d : db) : bool :=
  match op with
  | OpCheckOut e | OpApiCheckOut e => open_rate_nonzero e d
  | _ => true
  end.

(** [row] holds, under the id [rowid], exactly what the record form
    [form] says: its date and times as posted, the posted rate (the
    default rate when that does not parse), and hours and salary computed
    from them when both times are present, null otherwise. *)
Definition holds_form `{FloatText} (form : gmap string string) (d : db)
    (rowid : Z) (row : work_entry) : Prop :=
  Entry.id row = rowid
  /\ Entry.work_date row = strip (form_get form "work_date" "")
  /\ Entry.check_in row = or_None (strip (form_get form "check_in" ""))
  /\ Entry.check_out row = or_None (strip (form_get form "check_out" ""))
  /\ exists r,
      form_rate form d = Ok r
      /\ Entry.hourly_rate row = Some r
      /\ match Entry.check_in row, Entry.check_out row with
         | Some ci, Some co =>
             exists h, compute_total_hours ci co = Ok h
                       /\ Entry.total_hours row = Some h
                       /\ Entry.daily_salary row = Some (round2 (h * r))
         | _, _ => Entry.total_hours row = None /\ Entry.daily_salary row = None
         end.

(** The first day of the month after [(y, m)]. *)
Definition next_month_first (y m : Z) : date :=
  if m <? 12 then {| year := y; month := m + 1; day := 1 |}
  else {| year := y + 1; month := 1; day := 1 |}.

(** The last day of a month as the specification words the rule: the
    first day plus 28 days, then plus 4 days, cut back to day 1, minus
    one day. *)
Definition spec_last_day (first : date) : result date :=
  d29 ← date_add_days first 28;
  d33 ← date_add_days d29 4;
  next_month ← date_replace_day d33 1;
  date_add_days next_month (-1).

(** The sum of a nullable column over [l], null counting as 0. *)
Definition sum_or_0 (col : work_entry -> option Q) (l : list work_entry) : Q :=
  fold_right (fun row acc => (default 0 (col row) + acc)%Q) 0%Q l.

(** Lexicographic combination of two comparisons. *)
Definition lex (c1 c2 : comparison) : comparison :=
  match c1 with Eq => c2 | _ => c1 end.

(** Dates in calendar order: by year, then month, then day. *)
Definition date_compare (a b : date) : comparison :=
  lex (year a ?= year b) (lex (month a ?= month b) (day a ?= day b)).

(** A reading of the clock: a time of day. *)
Definition time_of_day (t : datetime) : Prop :=
  dt_day t = 0 /\ 0 <= dt_hour t < 24 /\ 0 <= dt_minute t < 60.

(** A response that reports success: a notice of category [success], a
    rendered page, or a JSON body with status 200. *)
Definition is_success (r : response) : bool :=
  match r with
  | Redirect _ _ category => String.eqb category "success"
  | Template _ _ => true
  | Json status _ => status =? 200
  | Abort _ | Unhandled _ => false
  end.

(** [d'] differs from [d] in one row only, the open entry a check-out at
    [e] targets, and there only in check-out, hours and salary. *)
Definition checked_out_frame (e : env) (d d' : db) : Prop :=
  exists l1 row l2 h s,
    open_entry_for_date (today e) d = Some row
    /\ work_entries d = (l1 ++ row :: l2)%list
    /\ work_entries d'
       = (l1 ++ {| Entry.id := Entry.id row;
                   Entry.work_date := Entry.work_date row;
                   Entry.check_in := Entry.check_in row;
                   Entry.check_out := Some (strftime_HM (now e));
                   Entry.total_hours := Some h;
                   Entry.hourly_rate := Entry.hourly_rate row;
                   Entry.daily_salary := Some s |} :: l2)%list
    /\ settings d' = settings d
    /\ sqlite_sequence d' = sqlite_sequence d.

(** ** Rates that are not finite

    [float] also reads the texts [nan], [inf] and [infinity], in either
    case and with a sign, and gives the values that are no rationals.
    The handlers above stand for the runs in which every rate read is a
    finite number.  What [add_record] and [edit_record] store when one is
    not is embedded here, up to the three [REAL] values they bind.  As
    every float is idealised, a decimal literal too large for a double,
    which [float] reads as an infinity, is read as the number it writes,
    and a product of finite numbers is finite. *)

Inductive xfloat : Type :=
| Finite (q : Q)
| Infinite (negative : bool)
| NaN.

(** [c.lower()] on ASCII *)
Definition lower (c : ascii) : ascii :=
  let n := ord c in
  if (65 <=? n) && (n <=? 90) then chr (n + 32) else c.

Fixpoint str_lower (s : string) : string :=
  match s with
  | EmptyString => EmptyString
  | String c r => String (lower c) (str_lower r)
  end.

(** The value [float(s)] gives when [s], blanks around it apart, is one
    of the literals that denote no finite number. *)
Definition nonfinite_literal (s : string) : option xfloat :=
  let s := strip s in
  let '(negative, body) :=
    match s with
    | String "-" r => (true, r)
    | String "+" r => (false, r)
    | _ => (false, s)
    end in
  let body := str_lower body in
  if String.eqb body "nan" then Some NaN
  else if String.eqb body "inf" || String.eqb body "infinity"
       then Some (Infinite negative)
  else None.

(** [float(s)], those values included. *)
Definition float_x `{FloatText} (s : string) : result xfloat :=
  match nonfinite_literal s with
  | Some x => Ok x
  | None => q ← py_float (PStr s); mret (Finite q)
  end.

(** [float(get_setting("default_hourly_rate") or 0)] *)
Definition default_rate_x `{FloatText} (d : db) : result xfloat :=
  match py_or (of_text (get_setting "default_hourly_rate" d)) (PInt 0) with
  | PStr s => float_x s
  | v => q ← py_float v; mret (Finite q)
  end.

Definition form_rate_x `{FloatText} (form : gmap string string) (d : db)
    : result xfloat :=
  Res.catch_ValueError
    (float_x (strip (form_get form "hourly_rate" "0")))
    (default_rate_x d).

(** [h * r] for hours [h], which are finite: zero times an infinity is
    no number. *)
Definition x_mul (h : Q) (r : xfloat) : xfloat :=
  match r with
  | Finite q => Finite (h * q)
  | Infinite negative =>
      if Qnum h =? 0 then NaN else Infinite (xorb negative (Qnum h <? 0))
  | NaN => NaN
  end.

(** [round(x, 2)]: an infinity and NaN are returned as they are. *)
Definition x_round2 (x : xfloat) : xfloat :=
  match x with
  | Finite q => Finite (round2 q)
  | _ => x
  end.

(** What SQLite stores for a float bound to a [REAL] column: [NULL] for
    NaN. *)
Definition stored_real (x : xfloat) : option xfloat :=
  match x with
  | NaN => None
  | _ => Some x
  end.

(** The values of [total_hours], [hourly_rate] and [daily_salary] as
    stored. *)
Record stored_reals : Type := {
  sr_total_hours : option Q;
  sr_hourly_rate : option xfloat;
  sr_daily_salary : option xfloat
}.

(** What [add_record] and [edit_record] store in those three columns for
    the form they are posted. *)
Definition record_reals `{FloatText} (form : gmap string string) (d : db)
    : result stored_reals :=
  let check_in := strip (form_get form "check_in" "") in
  let check_out := strip (form_get form "check_out" "") in
  hourly_rate ← form_rate_x form d;
  '(total_hours, daily_salary) ←
    (if str_truthy check_in && str_truthy check_out then
       total_hours ← compute_total_hours check_in check_out;
       mret (Some total_hours,
             stored_real (x_round2 (x_mul total_hours hourly_rate)))
     else mret (None, None));
  mret {| sr_total_hours := total_hours;
          sr_hourly_rate := stored_real hourly_rate;
          sr_daily_salary := daily_salary |}.

(** The same three columns of a row of the model. *)
Definition reals_of (row : work_entry) : stored_reals :=
  {| sr_total_hours := Entry.total_hours row;
     sr_hourly_rate := Finite <$> Entry.hourly_rate row;
     sr_daily_salary := Finite <$> Entry.daily_salary row |}.

(** The rate the form [form] is stored with is a finite number. *)
Definition finite_rate `{FloatText} (form : gmap string string) (d : db) : bool :=
  match form_rate_x form d with
  | Ok (Infinite _) | Ok NaN => false
  | _ => true
  end.

(** Every rate the operation reads from a form is a finite number. *)
Definition finite_rates `{FloatText} (op : operation) (d : db) : bool :=
  match op with
  | OpAddRecord form | OpEditRecord _ form => finite_rate form d
  | _ => true
  end.

(** ** Concrete runs *)

Module Sample.
Definition march1 : date := {| year := 2024; month := 3; day := 1 |}.
Definition morning : env :=
  {| today := march1; now := {| dt_day := 0; dt_hour := 9; dt_minute := 5 |} |}.
Definition evening : env :=
  {| today := march1; now := {| dt_day := 0; dt_hour := 17; dt_minute := 35 |} |}.

(** The database after start-up. *)
Definition fresh : db := ensure_default_settings empty_db.

Definition record_form (work_date check_in check_out rate : string) : gmap string string :=
  {[ "work_date" := work_date; "check_in" := check_in;
     "check_out" := check_out; "hourly_rate" := rate ]}.

Definition rate_form (rate : string) : gmap string string :=
  {[ "hourly_rate" := rate ]}.

(** After the morning check-in. *)
Definition checked_in : db := (check_in (H:=decimal_text) morning fresh).1.

(** A day that starts with the default rate at zero: the rate is set to
    0, the morning check-in stores it, and the rate is then set to 5. *)
Definition zero_rate_morning : db :=
  let d0 := (update_default_rate (H:=decimal_text) (rate_form "0") fresh).1 in
  let d1 := (check_in (H:=decimal_text) morning d0).1 in
  (update_default_rate (H:=decimal_text) (rate_form "5") d1).1.

(** March 2024 with three records of 8, 7.5 and 8 hours at the rate 5. *)
Definition march : db :=
  let d1 := (add_record (H:=decimal_text) POST
               (record_form "2024-03-01" "09:00" "17:00" "5.0") fresh).1 in
  let d2 := (add_record (H:=decimal_text) POST
               (record_form "2024-03-02" "09:00" "16:30" "5.0") d1).1 in
  (add_record (H:=decimal_text) POST
     (record_form "2024-03-03" "09:00" "17:00" "5.0") d2).1.
End Sample.

(** * The rest of the application

    The dashboard, the day's status for the API, the two exports, the
    start-up and the two ways of signing in. *)

(** ** The dashboard and the day's status *)

(** What [home] hands to its template, the name of the application and
    the name in the session apart. *)
Record home_page : Type := {
  hp_default_rate : Q;
  hp_today_entry : option work_entry;
  hp_forgotten_open : option work_entry;
  hp_today : date
}.

Definition home `{FloatText} (e : env) (d : db) : result home_page :=
  default_rate ← default_rate d;
  let today := today e in
  let today_entry := get_today_entry today d in
  yesterday ← date_add_days today (-1);
  let forgotten_open := open_entry_for_date yesterday d in
  mret {| hp_default_rate := default_rate;
          hp_today_entry := today_entry;
          hp_forgotten_open := forgotten_open;
          hp_today := today |}.

(** The body of [api_today]: [today], [entry] and [default_rate]. *)
Record today_status : Type := {
  ts_today : string;
  ts_entry : option work_entry;
  ts_default_rate : Q
}.

Definition api_today `{FloatText} (e : env) (d : db) : result today_status :=
  let row := get_today_entry (today e) d in
  default_rate ← default_rate d;
  mret {| ts_today := isoformat (today e);
          ts_entry := row;
          ts_default_rate := default_rate |}.

(** ** The exports *)

(** [a + b] on the numbers a sum meets. *)
Definition py_add (a b : pyval) : pyval :=
  match a, b with
  | PInt x, PInt y => PInt (x + y)
  | PInt x, PFloat y => PFloat (inject_Z x + y)
  | PFloat x, PInt y => PFloat (x + inject_Z y)
  | PFloat x, PFloat y => PFloat (x + y)
  | _, _ => PNone
  end.

(** [sum(l)]: from the integer [0], left to right. *)
Definition py_sum_vals (l : list pyval) : pyval := fold_left py_add l (PInt 0).

(** [round(v, 2)]: an integer is returned as it is. *)
Definition py_round2 (v : pyval) : pyval :=
  match v with
  | PFloat q => PFloat (round2 q)
  | _ => v
  end.

(** The number a cell holds. *)
Definition cell_number (v : pyval) : option Q :=
  match v with
  | PInt z => Some (inject_Z z)
  | PFloat q => Some q
  | _ => None
  end.

Definition export_header : list pyval :=
  [PStr "Date"; PStr "Check In"; PStr "Check Out"; PStr "Hours"; PStr "Rate";
   PStr "Daily Salary"].

(** The line of a row: a null time as the empty string, a null number
    as [0]. *)
Definition export_line (r : work_entry) : list pyval :=
  [PStr (Entry.work_date r);
   py_or (of_text (Entry.check_in r)) (PStr "");
   py_or (of_text (Entry.check_out r)) (PStr "");
   py_or (of_real (Entry.total_hours r)) (PInt 0);
   py_or (of_real (Entry.hourly_rate r)) (PInt 0);
   py_or (of_real (Entry.daily_salary r)) (PInt 0)].

Definition export_totals (rows : list work_entry) : list pyval :=
  [PStr "Totals"; PStr ""; PStr "";
   py_round2 (py_sum_vals
     (List.map (fun r => py_or (of_real (Entry.total_hours r)) (PInt 0)) rows));
   PStr "";
   py_round2 (py_sum_vals
     (List.map (fun r => py_or (of_real (Entry.daily_salary r)) (PInt 0)) rows))].

(** [d.strftime(fmt)] for the formats [%Y_%m] and [%Y-%m]: the year in
    four digits, [sep], the month in two. *)
Definition strftime_Ym (sep : string) (d : date) : string :=
  pad4 (year d) ++ sep ++ pad2 (month d).

(** What an export sends: the name of the file, the title of the
    document if it has one, and the table. *)
Record export : Type := {
  ex_filename : string;
  ex_title : option string;
  ex_table : list (list pyval)
}.

Definition export_excel (month : option string) (e : env) (d : db) : result export :=
  start_date ←
    match month with
    | Some m =>
        if str_truthy m then
          Res.catch_ValueError (strptime_Ymd (m ++ "-01")) (date_replace_day (today e) 1)
        else date_replace_day (today e) 1
    | None => date_replace_day (today e) 1
    end;
  d28 ← date_replace_day start_date 28;
  d32 ← date_add_days d28 4;
  next_month ← date_replace_day d32 1;
  end_date ← date_add_days next_month (-1);
  let rows := select_between (isoformat start_date) (isoformat end_date) d in
  let ws := [export_header] in
  let ws := (ws ++ List.map export_line rows)%list in
  let ws := (ws ++ [[]])%list in
  let ws := (ws ++ [export_totals rows])%list in
  mret {| ex_filename := "salary_report_" ++ strftime_Ym "_" start_date ++ ".xlsx";
          ex_title := None;
          ex_table := ws |}.

Definition export_pdf (month : option string) (e : env) (d : db) : result export :=
  start_date ←
    match month with
    | Some m =>
        if str_truthy m then
          Res.catch_ValueError (strptime_Ymd (m ++ "-01")) (date_replace_day (today e) 1)
        else date_replace_day (today e) 1
    | None => date_replace_day (today e) 1
    end;
  d28 ← date_replace_day start_date 28;
  d32 ← date_add_days d28 4;
  next_month ← date_replace_day d32 1;
  end_date ← date_add_days next_month (-1);
  let rows := select_between (isoformat start_date) (isoformat end_date) d in
  let data := [export_header] in
  let data := (data ++ List.map export_line rows)%list in
  let data := (data ++ [export_totals rows])%list in
  mret {| ex_filename := "salary_report_" ++ strftime_Ym "_" start_date ++ ".pdf";
          ex_title := Some ("Monthly Report - " ++ strftime_Ym "-" start_date);
          ex_table := data |}.

(** ** Vocabulary of the further properties *)

(** The running value of a sum of cells and of the same sum of numbers. *)
Definition sum_agrees (v : pyval) (q : Q) : Prop :=
  (v = PInt 0 /\ q = 0%Q) \/ v = PFloat q.


(** The database after a check-in at [e] at the rate [r]. *)
Definition after_check_in (e : env) (r : Q) (d : db) : db :=
  {| settings := settings d;
     work_entries :=
       (work_entries d ++ [checked_in_row (sqlite_sequence d + 1) e r])%list;
     sqlite_sequence := sqlite_sequence d + 1 |}.

(** The hours between two readings of the clock, the second on the
    next day when it is the earlier one. *)
Definition elapsed (t t' : datetime) : Q :=
  round2 (clock_hours t' + (if earlier t' t then 24 else 0) - clock_hours t).

(** The row of a check-in at [e] closed by a check-out at [e']. *)
Definition worked_row (rowid : Z) (e e' : env) (r : Q) : work_entry :=
  {| Entry.id := rowid;
     Entry.work_date := isoformat (today e);
     Entry.check_in := Some (strftime_HM (now e));
     Entry.check_out := Some (strftime_HM (now e'));
     Entry.total_hours := Some (elapsed (now e) (now e'));
     Entry.hourly_rate := Some r;
     Entry.daily_salary := Some (round2 (elapsed (now e) (now e') * r)) |}.

(** The database after that check-in and that check-out. *)
Definition after_work (e e' : env) (r : Q) (d : db) : db :=
  {| settings := settings d;
     work_entries :=
       (work_entries d ++ [worked_row (sqlite_sequence d + 1) e e' r])%list;
     sqlite_sequence := sqlite_sequence d + 1 |}.

(** The database after a list of operations, first to last. *)
Fixpoint run_all `{FloatText} (ops : list operation) (d : db) : db :=
  match ops with
  | [] => d
  | op :: ops => run_all ops (run op d).1
  end.

(** The id [rid] was handed out and no row carries it any more. *)
Definition retired (rid : Z) (d : db) : Prop :=
  rid <= sqlite_sequence d
  /\ forall row, In row (work_entries d) -> Entry.id row <> rid.

(** ** Accounts and the web session *)

Module User.
(** A row of [user]. *)
Record t : Type := {
  id : Z;
  username : string;
  password_hash : string
}.
End User.

(** [bcrypt] of passlib: [bcrypt.hash(secret)], as a function of the
    salt it draws, and [bcrypt.verify(secret, hash)]. *)
Class Bcrypt : Type := {
  bcrypt_hash : string -> string -> string;
  bcrypt_verify : string -> string -> bool
}.

(** The table [user] with the sequence of its ids. *)
Record accounts : Type := {
  users : list User.t;
  user_sequence : Z
}.

Definition no_accounts : accounts := {| users := []; user_sequence := 0 |}.

(** [INIT_USERNAME] and [INIT_PASSWORD] of the environment, or their
    defaults. *)
Record config : Type := {
  DEFAULT_USERNAME : string;
  DEFAULT_PASSWORD : string
}.

Definition ensure_default_user `{Bcrypt} (c : config) (salt : string)
    (a : accounts) : accounts :=
  if Z.of_nat (List.length (users a)) =? 0 then
    {| users :=
         (users a
          ++ [{| User.id := user_sequence a + 1;
                 User.username := DEFAULT_USERNAME c;
                 User.password_hash := bcrypt_hash (DEFAULT_PASSWORD c) salt |}])%list;
       user_sequence := user_sequence a + 1 |}
  else a.

(** [SELECT * FROM user WHERE username = ?], [fetchone()] *)
Definition user_by_name (username : string) (a : accounts) : option User.t :=
  List.find (fun u => String.eqb (User.username u) username) (users a).

(** The session cookie. *)
Definition session : Type := gmap string pyval.

(** [session.get(key)] *)
Definition session_get (s : session) (key : string) : pyval :=
  default PNone (s !! key).

Definition is_logged_in (s : session) : bool := truthy (session_get s "user_id").

(** What a guarded view answers: its own response, the redirect to the
    login page with [next], or the 401 of the API. *)
Inductive guarded (A : Type) : Type :=
| Served (a : A)
| ToLogin (next : string)
| Unauthorized.
Arguments Served {A} a.
Arguments ToLogin {A} next.
Arguments Unauthorized {A}.

Definition login_required {A : Type} (view_func : db -> db * A) (path : string)
    (s : session) (d : db) : db * guarded A :=
  if negb (is_logged_in s) then (d, ToLogin path)
  else let '(d', r) := view_func d in (d', Served r).

(** What [login] answers: a redirect to [next_url], or the login page
    with the message it flashed, if any. *)
Inductive login_response : Type :=
| LoginRedirect (next_url : string)
| LoginPage (flashed : option (string * string)).

(** [next] is [request.args.get("next")]; [url_for("home")] is [/]. *)
Definition login `{Bcrypt} (m : method) (form : gmap string string)
    (next : option string) (a : accounts) (s : session) : session * login_response :=
  match m with
  | POST =>
      let username := strip (form_get form "username" "") in
      let password := form_get form "password" "" in
      match user_by_name username a with
      | Some row =>
          if bcrypt_verify password (User.password_hash row) then
            let s := <["user_id" := PInt (User.id row)]> s in
            let s := <["username" := PStr (User.username row)]> s in
            let next_url :=
              match py_or (of_text next) (PStr "/") with
              | PStr url => url
              | _ => "/"
              end in
            (s, LoginRedirect next_url)
          else (s, LoginPage (Some ("Invalid credentials", "error")))
      | None => (s, LoginPage (Some ("Invalid credentials", "error")))
      end
  | GET => (s, LoginPage None)
  end.

(** [session.clear()], then the redirect to the login page. *)
Definition logout (s : session) : session * login_response :=
  (∅, LoginRedirect "/login").

(** ** The tokens of the API *)

(** [s.replace(old, new)]: the occurrences of [old] are taken from the
    left and do not overlap; [skip] counts the characters of an
    occurrence still to pass. *)
Fixpoint replace_from (old new : string) (skip : nat) (s : string) : string :=
  match s with
  | EmptyString =>
      match old, skip with
      | EmptyString, O => new
      | _, _ => EmptyString
      end
  | String c r =>
      match skip with
      | S n => replace_from old new n r
      | O =>
          if String.prefix old s then
            match old with
            | EmptyString => new ++ String c (replace_from old new 0 r)
            | String _ old' => new ++ replace_from old new (String.length old') r
            end
          else String c (replace_from old new 0 r)
      end
  end.

Definition str_replace (s old new : string) : string := replace_from old new 0 s.

(** [request.headers.get("Authorization", "").replace("Bearer ", "").strip()] *)
Definition bearer_token (authorization : option string) : string :=
  strip (str_replace (default "" authorization) "Bearer " "").

Definition require_token (authorization : option string) (TOKENS : gset string) : bool :=
  let token := bearer_token authorization in
  if negb (str_truthy token) || negb (bool_decide (token ∈ TOKENS)) then false
  else true.

(** [binascii.hexlify]: two lower-case digits for each byte. *)
Definition hex_chr (n : Z) : ascii :=
  if n <? 10 then chr (48 + n) else chr (87 + n).

Fixpoint hexlify (bs : list Z) : string :=
  match bs with
  | [] => EmptyString
  | b :: r => String (hex_chr (b / 16 mod 16)) (String (hex_chr (b mod 16)) (hexlify r))
  end.

(** What the three endpoints about the token answer. *)
Inductive token_response : Type :=
| TokenIssued (token username : string)
| InvalidCredentials
| LoggedOut.

(** [data] is the JSON object of the body, each value as [str] renders
    it, and the empty object where there is none; [entropy] is the bytes
    [secrets.token_hex(16)] draws. *)
Definition api_login `{Bcrypt} (data : gmap string string) (entropy : list Z)
    (a : accounts) (TOKENS : gset string) : gset string * token_response :=
  let username := strip (default "" (data !! "username")) in
  let password := default "" (data !! "password") in
  match user_by_name username a with
  | Some row =>
      if bcrypt_verify password (User.password_hash row) then
        let token := hexlify entropy in
        ({[ token ]} ∪ TOKENS, TokenIssued token username)
      else (TOKENS, InvalidCredentials)
  | None => (TOKENS, InvalidCredentials)
  end.

Definition api_logout (authorization : option string) (TOKENS : gset string)
    : gset string * token_response :=
  let token := bearer_token authorization in
  ((if bool_decide (token ∈ TOKENS) then TOKENS ∖ {[ token ]} else TOKENS), LoggedOut).

(** [api_me]: the name in the session cookie, or the initial one. *)
Definition api_me (c : config) (authorization : option string) (TOKENS : gset string)
    (s : session) : guarded pyval :=
  if negb (require_token authorization TOKENS) then Unauthorized
  else Served (default (PStr (DEFAULT_USERNAME c)) (s !! "username")).

(** The first lines of the other endpoints of the API: the body [view]
    runs only for a token of [TOKENS]. *)
Definition token_required {A : Type} (view : db -> db * A)
    (authorization : option string) (TOKENS : gset string) (d : db) : db * guarded A :=
  if negb (require_token authorization TOKENS) then (d, Unauthorized)
  else let '(d', r) := view d in (d', Served r).

(** ** Start-up *)

(** What [create_app] does to the tables, once they exist:
    [ensure_default_user], then [ensure_default_settings]. *)
Definition create_app `{Bcrypt} (c : config) (salt : string)
    (st : accounts * db) : accounts * db :=
  (ensure_default_user c salt st.1, ensure_default_settings st.2).

(** Every character of [s] passes [p]. *)
Fixpoint all_chars (p : ascii -> bool) (s : string) : bool :=
  match s with
  | EmptyString => true
  | String c r => p c && all_chars p r
  end.

(** ** A concrete start

    A stand-in for [bcrypt] in the concrete runs: the hash is the salt,
    a [$] and the password, and it is verified by comparing what follows
    the first [$]. *)
Fixpoint after_dollar (s : string) : string :=
  match s with
  | EmptyString => EmptyString
  | String c r => if Ascii.eqb c "$" then r else after_dollar r
  end.

Definition plain_bcrypt : Bcrypt :=
  {| bcrypt_hash := fun secret salt => salt ++ "$" ++ secret;
     bcrypt_verify := fun secret hash => String.eqb (after_dollar hash) secret |}.

Module Start.
(** The initial values where the environment sets none. *)
Definition defaults : config :=
  {| DEFAULT_USERNAME := "Mohammad"; DEFAULT_PASSWORD := "408809937" |}.

(** An initial username with a blank in front. *)
Definition padded : config :=
  {| DEFAULT_USERNAME := " admin"; DEFAULT_PASSWORD := "secret" |}.

(** The accounts after the first start. *)
Definition first (c : config) : accounts :=
  ensure_default_user (H:=plain_bcrypt) c "salt" no_accounts.

Definition credentials (username password : string) : gmap string string :=
  {[ "username" := username; "password" := password ]}.

(** Sixteen bytes for a token. *)
Definition entropy : list Z :=
  [0; 17; 34; 51; 68; 85; 102; 119; 136; 153; 170; 187; 204; 221; 238; 255].
End Start.
(** * Properties *)

(** ** Strings and digits *)

(** Decide the integer comparisons of the goal by [lia]. *)
Ltac zbool :=
  repeat match goal with
  | |- context [Z.leb ?a ?b] => destruct (Z.leb_spec a b); try lia
  | |- context [Z.ltb ?a ?b] => destruct (Z.ltb_spec a b); try lia
  | |- context [Z.eqb ?a ?b] => destruct (Z.eqb_spec a b); try lia
  end.

Lemma bind_Ok {A B} (a : A) (k : A -> result B) : (Ok a ≫= k) = k a.
Proof. reflexivity. Qed.

Lemma string_app_nil (t : string) : "" ++ t = t.
Proof. reflexivity. Qed.

Lemma string_app_cons c (s t : string) : String c s ++ t = String c (s ++ t).
Proof. reflexivity. Qed.

Lemma string_length_app (s t : string) :
  String.length (s ++ t) = (String.length s + String.length t)%nat.
Proof.
  induction s as [|c s IH]; [done|].
  rewrite string_app_cons. simpl. by rewrite IH.
Qed.

Lemma string_app_assoc (s t u : string) : (s ++ t) ++ u = s ++ (t ++ u).
Proof.
  induction s as [|c s IH]; [done|].
  rewrite !string_app_cons. by rewrite IH.
Qed.

Lemma append_suffix_eq (s s' t t' : string) :
  s ++ t = s' ++ t' -> String.length t = String.length t' -> s = s' /\ t = t'.
Proof.
  revert s'. induction s as [|c s IH]; intros [|c' s'];
    rewrite ?string_app_nil, ?string_app_cons.
  - done.
  - intros -> E. simpl in E. rewrite string_length_app in E. lia.
  - intros <- E. simpl in E. rewrite string_length_app in E. lia.
  - intros [= <- E] Hl. destruct (IH _ E Hl) as [-> ->]. done.
Qed.

Lemma ord_digit_chr d : 0 <= d <= 9 -> ord (digit_chr d) = 48 + d.
Proof.
  intros Hd. unfold ord, digit_chr, chr.
  rewrite N_ascii_embedding by lia. lia.
Qed.

Lemma digit_val_range c d : digit_val c = Some d -> 0 <= d <= 9.
Proof.
  unfold digit_val. destruct (_ && _) eqn:E; [|done].
  intros [= <-]. lia.
Qed.

Lemma digit_val_chr d : 0 <= d <= 9 -> digit_val (digit_chr d) = Some d.
Proof.
  intros Hd. unfold digit_val. rewrite ord_digit_chr by done.
  destruct (Z.leb_spec 48 (48 + d)); [|lia].
  destruct (Z.leb_spec (48 + d) 57); [|lia]. simpl. f_equal. lia.
Qed.

Lemma digit_bounds n k : 0 <= n / k mod 10 <= 9.
Proof. pose proof (Z.mod_pos_bound (n / k) 10). lia. Qed.

Lemma digit_bounds_0 n : 0 <= n mod 10 <= 9.
Proof. pose proof (Z.mod_pos_bound n 10). lia. Qed.

Lemma two_digits n : 0 <= n <= 99 -> 10 * (n / 10 mod 10) + n mod 10 = n.
Proof. intros Hn. Z.to_euclidean_division_equations. lia. Qed.

Lemma four_digits y :
  0 <= y <= 9999 ->
  100 * (10 * (y / 1000 mod 10) + y / 100 mod 10) + (10 * (y / 10 mod 10) + y mod 10)
  = y.
Proof.
  intros Hy.
  replace (y / 1000) with (y / 10 / 10 / 10) by (rewrite !Z.div_div by lia; done).
  replace (y / 100) with (y / 10 / 10) by (rewrite !Z.div_div by lia; done).
  Z.to_euclidean_division_equations. lia.
Qed.

(** ** Matchers *)

Lemma in_m_bind {A B} (m : matcher A) (k : A -> matcher B) s b r :
  In (b, r) (m_bind m k s) <-> exists a r', In (a, r') (m s) /\ In (b, r) (k a r').
Proof.
  unfold m_bind. rewrite in_concat. split.
  - intros (l & Hl & Hb). apply in_map_iff in Hl as ([a r'] & <- & Ha). eauto.
  - intros (a & r' & Ha & Hb). exists (k a r'). split; [|done].
    apply in_map_iff. by exists (a, r').
Qed.

Lemma in_m_alt {A} (m1 m2 : matcher A) s x :
  In x (m_alt m1 m2 s) <-> In x (m1 s) \/ In x (m2 s).
Proof. unfold m_alt. apply in_app_iff. Qed.

Lemma in_m_digit p s d r :
  In (d, r) (m_digit p s) -> 0 <= d <= 9 /\ p d = true.
Proof.
  destruct s as [|c s]; simpl; [done|].
  destruct (digit_val c) as [d'|] eqn:E; [|done].
  destruct (p d') eqn:Ep; [|done].
  intros [[= <- <-]|[]]. split; [by eapply digit_val_range|done].
Qed.

Lemma in_m_digit2 p1 p2 s n r :
  In (n, r) (m_digit2 p1 p2 s) ->
  exists a b, n = 10 * a + b /\ 0 <= a <= 9 /\ 0 <= b <= 9 /\ p1 a = true /\ p2 b = true.
Proof.
  unfold m_digit2. rewrite in_m_bind. intros (a & r1 & Ha & Hb).
  apply in_m_bind in Hb as (b & r2 & Hb & Hr).
  apply in_m_digit in Ha as [? ?], Hb as [? ?].
  destruct Hr as [[= <- <-]|[]]. by exists a, b.
Qed.

Lemma m_run_Ok {A} (m : matcher A) s a :
  m_run m s = Ok a -> In (a, EmptyString) (m s).
Proof.
  unfold m_run. destruct (m s) as [|[a' [|? ?]] l]; try done.
  intros [= ->]. by left.
Qed.

Lemma in_m_digit_inv p s d r :
  In (d, r) (m_digit p s) ->
  exists c, s = String c r /\ digit_val c = Some d /\ p d = true.
Proof.
  destruct s as [|c s]; simpl; [done|].
  destruct (digit_val c) as [d'|] eqn:E; [|done].
  destruct (p d') eqn:Ep; [|done].
  intros [[= <- <-]|[]]. by exists c.
Qed.

Lemma in_m_digit2_inv p1 p2 s n r :
  In (n, r) (m_digit2 p1 p2 s) ->
  exists c1 c2 a b,
    s = String c1 (String c2 r) /\ n = 10 * a + b
    /\ digit_val c1 = Some a /\ digit_val c2 = Some b
    /\ p1 a = true /\ p2 b = true.
Proof.
  unfold m_digit2. rewrite in_m_bind. intros (a & r1 & Ha & Hb).
  apply in_m_bind in Hb as (b & r2 & Hb & Hr).
  apply in_m_digit_inv in Ha as (c1 & -> & ? & ?).
  apply in_m_digit_inv in Hb as (c2 & -> & ? & ?).
  destruct Hr as [[= <- <-]|[]]. by exists c1, c2, a, b.
Qed.

Lemma in_m_lit_inv c s r : In (tt, r) (m_lit c s) -> s = String c r.
Proof.
  destruct s as [|c' s]; simpl; [done|].
  destruct (Ascii.eqb_spec c c') as [<-|]; [|done].
  by intros [[= <-]|[]].
Qed.

Lemma m_digit_chr p d r :
  0 <= d <= 9 ->
  m_digit p (String (digit_chr d) r) = if p d then [(d, r)] else [].
Proof. intros Hd. unfold m_digit. by rewrite digit_val_chr. Qed.

Lemma m_digit2_chr p1 p2 a b r :
  0 <= a <= 9 -> 0 <= b <= 9 ->
  m_digit2 p1 p2 (String (digit_chr a) (String (digit_chr b) r))
  = if p1 a && p2 b then [(10 * a + b, r)] else [].
Proof.
  intros Ha Hb. unfold m_digit2, m_bind.
  rewrite m_digit_chr by done. destruct (p1 a); [|done]. cbn [map concat andb].
  rewrite m_digit_chr by done. by destruct (p2 b).
Qed.

Lemma m_digit2_any a b r :
  0 <= a <= 9 -> 0 <= b <= 9 ->
  m_digit2 any_digit any_digit (String (digit_chr a) (String (digit_chr b) r))
  = [(10 * a + b, r)].
Proof.
  intros Ha Hb. unfold m_digit2, m_bind.
  rewrite m_digit_chr by done. cbn [any_digit map concat].
  rewrite m_digit_chr by done. reflexivity.
Qed.

(** ** Times of day *)

Lemma re_H_range s h r : In (h, r) (re_H s) -> 0 <= h < 24.
Proof.
  unfold re_H. rewrite !in_m_alt. unfold digit_in, any_digit.
  intros [Hh|[Hh|Hh]].
  - apply in_m_digit2 in Hh as (a & b & -> & ? & ? & ? & ?). lia.
  - apply in_m_digit2 in Hh as (a & b & -> & ? & ? & ? & ?). lia.
  - apply in_m_digit in Hh as [? _]. lia.
Qed.

Lemma re_M_range s m r : In (m, r) (re_M s) -> 0 <= m < 60.
Proof.
  unfold re_M. rewrite !in_m_alt. unfold digit_in, any_digit.
  intros [Hm|Hm].
  - apply in_m_digit2 in Hm as (a & b & -> & ? & ? & ? & ?). lia.
  - apply in_m_digit in Hm as [? _]. lia.
Qed.

(** Whatever [strptime(s, "%H:%M")] accepts is a time of day. *)
Lemma strptime_HM_range s t :
  strptime_HM s = Ok t ->
  dt_day t = 0 /\ 0 <= dt_hour t < 24 /\ 0 <= dt_minute t < 60.
Proof.
  unfold strptime_HM.
  destruct (m_run _ s) as [[h m]|] eqn:E; [|done].
  intros [= <-]. simpl. apply m_run_Ok in E.
  apply in_m_bind in E as (h' & r1 & Hh & E).
  apply in_m_bind in E as ([] & r2 & _ & E).
  apply in_m_bind in E as (m' & r3 & Hm & E).
  destruct E as [[= <- <- _]|[]].
  apply re_H_range in Hh. apply re_M_range in Hm. done.
Qed.

Lemma re_H_pad2 h r :
  0 <= h < 24 -> exists l, re_H (pad2 h ++ r) = (h, r) :: l.
Proof.
  intros Hh. unfold pad2. rewrite !string_app_cons, string_app_nil.
  unfold re_H, m_alt.
  rewrite !m_digit2_chr by (apply digit_bounds || apply digit_bounds_0).
  rewrite two_digits by lia. unfold digit_in, any_digit.
  destruct (Z.leb_spec 2 (h / 10 mod 10)).
  - destruct (Z.leb_spec (h / 10 mod 10) 2);
      [|Z.to_euclidean_division_equations; lia].
    destruct (Z.leb_spec 0 (h mod 10)); [|Z.to_euclidean_division_equations; lia].
    destruct (Z.leb_spec (h mod 10) 3); [|Z.to_euclidean_division_equations; lia].
    simpl. eauto.
  - destruct (Z.leb_spec 0 (h / 10 mod 10));
      [|Z.to_euclidean_division_equations; lia].
    destruct (Z.leb_spec (h / 10 mod 10) 1); [|lia].
    simpl. eauto.
Qed.

Lemma re_M_pad2 m r :
  0 <= m < 60 -> exists l, re_M (pad2 m ++ r) = (m, r) :: l.
Proof.
  intros Hm. unfold pad2. rewrite !string_app_cons, string_app_nil.
  unfold re_M, m_alt.
  rewrite !m_digit2_chr by (apply digit_bounds || apply digit_bounds_0).
  rewrite two_digits by lia. unfold digit_in, any_digit.
  destruct (Z.leb_spec 0 (m / 10 mod 10)); [|Z.to_euclidean_division_equations; lia].
  destruct (Z.leb_spec (m / 10 mod 10) 5); [|Z.to_euclidean_division_equations; lia].
  simpl. eauto.
Qed.

(** A time of day printed by [strftime] is read back by [strptime]. *)
Lemma strptime_strftime_HM t :
  dt_day t = 0 -> 0 <= dt_hour t < 24 -> 0 <= dt_minute t < 60 ->
  strptime_HM (strftime_HM t) = Ok t.
Proof.
  destruct t as [dd h m]. simpl. intros -> Hh Hm.
  unfold strptime_HM, strftime_HM, m_run. simpl dt_hour. simpl dt_minute.
  unfold m_bind at 1.
  destruct (re_H_pad2 h (":" ++ pad2 m) Hh) as [l ->]. cbn [map concat].
  unfold m_bind at 1. rewrite string_app_cons, string_app_nil.
  cbn [m_lit]. rewrite Ascii.eqb_refl. cbn [map concat app].
  unfold m_bind at 1.
  replace (pad2 m) with (pad2 m ++ "") by (unfold pad2; by rewrite !string_app_cons).
  destruct (re_M_pad2 m "" Hm) as [l' ->]. cbn [map concat app m_ret].
  reflexivity.
Qed.

(** ** Rounding and elapsed hours *)

Lemma round_half_even_proper (x y : Q) :
  (x == y)%Q -> round_half_even x = round_half_even y.
Proof.
  intros E. unfold round_half_even.
  rewrite (Qfloor_comp x y E).
  assert (E' : (x - inject_Z (Qfloor y) == y - inject_Z (Qfloor y))%Q)
    by (rewrite E; reflexivity).
  by rewrite (Qcompare_comp _ _ E' (1 # 2) (1 # 2) (Qeq_refl _)).
Qed.

Lemma round2_proper (x y : Q) : (x == y)%Q -> round2 x = round2 y.
Proof.
  intros E. unfold round2.
  f_equal. f_equal. apply round_half_even_proper. by rewrite E.
Qed.

Lemma dt_ltb_earlier a b :
  dt_day a = 0 -> dt_day b = 0 ->
  0 <= dt_minute a < 60 -> 0 <= dt_minute b < 60 ->
  dt_ltb b a = earlier b a.
Proof.
  intros Ha Hb Hma Hmb. unfold dt_ltb, earlier, dt_seconds. rewrite Ha, Hb.
  destruct (dt_hour b <? dt_hour a) eqn:E1; simpl.
  - apply Z.ltb_lt. apply Z.ltb_lt in E1. lia.
  - apply Z.ltb_ge in E1.
    destruct (dt_hour b =? dt_hour a) eqn:E2; simpl.
    + apply Z.eqb_eq in E2. rewrite E2.
      destruct (dt_minute b <? dt_minute a) eqn:E3.
      * apply Z.ltb_lt. apply Z.ltb_lt in E3. lia.
      * apply Z.ltb_ge. apply Z.ltb_ge in E3. lia.
    + apply Z.eqb_neq in E2. apply Z.ltb_ge. lia.
Qed.

(** Elapsed hours between two times [strptime] accepts. *)
Lemma compute_total_hours_parsed (s1 s2 : string) (t1 t2 : datetime) :
  strptime_HM s1 = Ok t1 ->
  strptime_HM s2 = Ok t2 ->
  compute_total_hours s1 s2
  = Ok (round2 (clock_hours t2 + (if earlier t2 t1 then 24 else 0) - clock_hours t1)).
Proof.
  intros H1 H2.
  destruct (strptime_HM_range _ _ H1) as (D1 & Hh1 & Hm1).
  destruct (strptime_HM_range _ _ H2) as (D2 & Hh2 & Hm2).
  unfold compute_total_hours. rewrite H1, H2. simpl.
  unfold mret, result_ret. f_equal. apply round2_proper.
  rewrite (dt_ltb_earlier t1 t2 D1 D2 Hm1 Hm2).
  unfold clock_hours, dt_sub_seconds, dt_seconds, dt_add_days.
  destruct t1 as [d1 h1 m1], t2 as [d2 h2 m2]. simpl in *. subst d1 d2.
  destruct (earlier _ _); simpl;
    unfold Qeq, Qdiv, Qminus, Qplus, Qmult, Qopp, Qinv, inject_Z; simpl; lia.
Qed.

(** A whole number of minutes, in hundredths of an hour, is never half
    way between two integers: the rounding of elapsed hours meets no
    tie. *)
Lemma elapsed_hours_no_tie (minutes : Z) :
  let x := (inject_Z (60 * minutes) / 3600 * 100)%Q in
  (x - inject_Z (Qfloor x) ?= 1 # 2)%Q <> Eq.
Proof.
  intros x E. apply Qeq_alt in E. subst x.
  unfold Qeq, Qdiv, Qminus, Qplus, Qmult, Qopp, Qinv, inject_Z, Qfloor in E.
  simpl in E. lia.
Qed.

(** Rounding a whole number of minutes, as hours, to two decimals. *)
Lemma round_minutes (k : Z) :
  0 <= k ->
  round_half_even (inject_Z (60 * k) / 3600 * 100) = (10 * k + 3) / 6.
Proof.
  intros Hk. unfold round_half_even.
  pose proof (elapsed_hours_no_tie k) as Hn. cbv zeta in Hn.
  set (x := (inject_Z (60 * k) / 3600 * 100)%Q) in *.
  assert (Ef : Qfloor x = (5 * k) / 3).
  { subst x. unfold Qfloor, Qdiv, Qmult, Qinv, inject_Z. simpl Qnum. simpl Qden.
    Z.to_euclidean_division_equations; lia. }
  destruct (x - inject_Z (Qfloor x) ?= 1 # 2)%Q eqn:E; [done| |].
  - rewrite <- Qlt_alt in E. rewrite Ef in *. subst x.
    unfold Qlt, Qdiv, Qminus, Qplus, Qmult, Qopp, Qinv, inject_Z in E.
    simpl in E. Z.to_euclidean_division_equations; lia.
  - rewrite <- Qgt_alt in E. rewrite Ef in *. subst x.
    unfold Qlt, Qdiv, Qminus, Qplus, Qmult, Qopp, Qinv, inject_Z in E.
    simpl in E. Z.to_euclidean_division_equations; lia.
Qed.


(** The hours between two accepted clock times, from the minutes from the
    first to the second, counted round the clock. *)
Lemma compute_total_hours_minutes (s1 s2 : string) (t1 t2 : datetime) :
  strptime_HM s1 = Ok t1 ->
  strptime_HM s2 = Ok t2 ->
  compute_total_hours s1 s2
  = Ok (Qred ((10 * ((60 * dt_hour t2 + dt_minute t2
                      - (60 * dt_hour t1 + dt_minute t1)) mod 1440) + 3) / 6
              # 100)).
Proof.
  intros H1 H2.
  destruct (strptime_HM_range _ _ H1) as (D1 & Hh1 & Hm1).
  destruct (strptime_HM_range _ _ H2) as (D2 & Hh2 & Hm2).
  unfold compute_total_hours. rewrite H1, bind_Ok, H2, bind_Ok. cbv zeta.
  unfold mret, result_ret, round2. do 3 f_equal.
  rewrite <- round_minutes by (apply Z.mod_pos_bound; lia).
  match goal with |- round_half_even (inject_Z ?a / _ * _) = round_half_even (inject_Z ?b / _ * _) =>
    replace a with b; [reflexivity|] end.
  unfold dt_ltb, dt_sub_seconds, dt_seconds, dt_add_days.
  destruct (Z.ltb_spec (dt_day t2 * 86400 + dt_hour t2 * 3600 + dt_minute t2 * 60)
              (dt_day t1 * 86400 + dt_hour t1 * 3600 + dt_minute t1 * 60)) as [L|L];
    cbn [dt_day dt_hour dt_minute]; rewrite D1, D2 in *;
    Z.to_euclidean_division_equations; lia.
Qed.

(** C4.  For two clock times [strptime] accepts, [compute_total_hours] is
    the check-out time minus the check-in time in hours, with 24 hours
    added when the check-out is strictly earlier on the clock, rounded to
    two decimals: the result is a whole number of hundredths at most half
    a hundredth away from that difference.  09:00 to 17:00 and 22:00 to
    06:00 are both 8 hours; 09:00 to 17:05, 8 hours and a twelfth, is
    8.08, and 09:00 to 17:10, 8 hours and a sixth, is 8.17. *)
Theorem compute_total_hours_spec (s1 s2 : string) (t1 t2 : datetime) :
  strptime_HM s1 = Ok t1 ->
  strptime_HM s2 = Ok t2 ->
  let exact :=
    (clock_hours t2 + (if earlier t2 t1 then 24 else 0) - clock_hours t1)%Q in
  compute_total_hours s1 s2 = Ok (round2 exact)
  /\ (exists h, compute_total_hours s1 s2 = Ok h /\ rounded_to_hundredths exact h)
  /\ compute_total_hours "09:00" "17:00" = Ok 8%Q
  /\ compute_total_hours "22:00" "06:00" = Ok 8%Q
  /\ compute_total_hours "09:00" "17:05" = Ok (202 # 25)%Q
  /\ compute_total_hours "09:00" "17:10" = Ok (817 # 100)%Q.
Proof.
  intros H1 H2 exact. split; [by apply compute_total_hours_parsed|].
  split; [|repeat split; reflexivity].
  destruct (strptime_HM_range _ _ H1) as (D1 & Hh1 & Hm1).
  destruct (strptime_HM_range _ _ H2) as (D2 & Hh2 & Hm2).
  eexists. split; [by apply compute_total_hours_minutes|].
  set (k := (60 * dt_hour t2 + dt_minute t2 - (60 * dt_hour t1 + dt_minute t1))
            mod 1440).
  assert (Hk : k = 60 * dt_hour t2 + dt_minute t2 - (60 * dt_hour t1 + dt_minute t1)
                   + (if earlier t2 t1 then 1440 else 0)).
  { subst k. unfold earlier.
    destruct (Z.ltb_spec (dt_hour t2) (dt_hour t1));
      destruct (Z.eqb_spec (dt_hour t2) (dt_hour t1));
      destruct (Z.ltb_spec (dt_minute t2) (dt_minute t1)); cbn [orb andb];
      Z.to_euclidean_division_equations; lia. }
  unfold rounded_to_hundredths. split.
  - eexists. apply Qred_correct.
  - rewrite !Qred_correct. subst exact. unfold clock_hours.
    destruct (earlier t2 t1);
      unfold Qle, Qdiv, Qminus, Qplus, Qmult, Qopp, Qinv, inject_Z;
      cbn [Qnum Qden]; split; Z.to_euclidean_division_equations; lia.
Qed.

Lemma compute_total_hours_spec_witness :
  compute_total_hours "09:05" "17:40" = Ok (429 # 50)%Q
  /\ rounded_to_hundredths (103 # 12) (429 # 50).
Proof.
  destruct (compute_total_hours_spec "09:05" "17:40"
              {| dt_day := 0; dt_hour := 9; dt_minute := 5 |}
              {| dt_day := 0; dt_hour := 17; dt_minute := 40 |}
              eq_refl eq_refl) as (E & (h & Eh & [Hn Hb]) & _).
  split; [exact E|].
  assert (Ev : h = (429 # 50)%Q) by (rewrite E in Eh; by injection Eh as <-).
  subst h. split; [exact Hn|]. split; [apply (proj1 Hb)|apply (proj2 Hb)].
Defined.

(** ** Looking up the open entry *)

Lemma latest_None l : latest l = None <-> l = [].
Proof.
  destruct l as [|e r]; simpl; [done|].
  destruct (latest r) as [e'|]; [destruct (_ <? _)|]; done.
Qed.

Lemma latest_In l e : latest l = Some e -> In e l.
Proof.
  revert e. induction l as [|a r IH]; simpl; [done|].
  intros e. destruct (latest r) as [e'|].
  - destruct (_ <? _); intros [= <-]; auto.
  - intros [= <-]. auto.
Qed.

Lemma is_open_on_true day row :
  is_open_on (isoformat day) row = true <-> open_on day row.
Proof.
  unfold is_open_on, open_on. rewrite andb_true_iff, String.eqb_eq.
  destruct (Entry.check_out row); split; intros [? ?]; done.
Qed.

Lemma open_entry_None day d :
  open_entry_for_date day d = None <->
  ~ exists row, In row (work_entries d) /\ open_on day row.
Proof.
  unfold open_entry_for_date. rewrite latest_None. split.
  - intros E (row & Hin & Hop).
    assert (Hf : In row (List.filter (is_open_on (isoformat day)) (work_entries d)))
      by (apply filter_In; split; [done|by apply is_open_on_true]).
    rewrite E in Hf. destruct Hf.
  - intros Hno.
    destruct (List.filter _ _) as [|row l] eqn:E; [done|].
    exfalso. apply Hno. exists row.
    assert (Hf : In row (List.filter (is_open_on (isoformat day)) (work_entries d)))
      by (rewrite E; by left).
    apply filter_In in Hf as [? ?]. split; [done|by apply is_open_on_true].
Qed.

Lemma open_entry_Some day d row :
  open_entry_for_date day d = Some row ->
  In row (work_entries d) /\ open_on day row.
Proof.
  unfold open_entry_for_date. intros E. apply latest_In, filter_In in E as [? ?].
  split; [done|by apply is_open_on_true].
Qed.

Lemma open_entry_is_Some day d :
  is_Some (open_entry_for_date day d) <->
  exists row, In row (work_entries d) /\ open_on day row.
Proof.
  split.
  - intros [row E]. exists row. by apply open_entry_Some.
  - intros Hex. destruct (open_entry_for_date day d) eqn:E; [done|].
    apply open_entry_None in E. done.
Qed.

(** ** Rowids and updates in place *)

Lemma ids_increasing_lower lo l row :
  ids_increasing lo l = true -> In row l -> lo < Entry.id row.
Proof.
  revert lo. induction l as [|a l IH]; simpl; [done|].
  intros lo Hl. apply andb_true_iff in Hl as [Ha Hl]. apply Z.ltb_lt in Ha.
  intros [<-|Hin]; [done|]. specialize (IH _ Hl Hin). lia.
Qed.

Lemma ids_increasing_weaken lo lo' l :
  lo' <= lo -> ids_increasing lo l = true -> ids_increasing lo' l = true.
Proof.
  destruct l as [|a l]; simpl; [done|].
  intros Hle Hl. apply andb_true_iff in Hl as [Ha Hl]. apply Z.ltb_lt in Ha.
  apply andb_true_iff. split; [apply Z.ltb_lt; lia|done].
Qed.

(** Under the primary key, the rows carrying the id of [row] are [row]
    alone: an update by that id rewrites it where it stands. *)
Lemma update_in_place lo rows row :
  ids_increasing lo rows = true -> In row rows ->
  exists l1 l2,
    rows = (l1 ++ row :: l2)%list
    /\ (forall x, In x l1 \/ In x l2 -> Entry.id x <> Entry.id row)
    /\ forall set,
        List.map (fun e => if Entry.id e =? Entry.id row then set e else e) rows
        = (l1 ++ set row :: l2)%list.
Proof.
  revert lo. induction rows as [|a l IH]; simpl; [done|].
  intros lo Hl Hin. apply andb_true_iff in Hl as [Ha Hl].
  destruct Hin as [->|Hin].
  - exists [], l. split; [done|]. split.
    + intros x [[]|Hx]. pose proof (ids_increasing_lower _ _ _ Hl Hx). lia.
    + intros set. simpl. rewrite Z.eqb_refl. f_equal.
      rewrite <- (map_id l) at 2. apply map_ext_in. intros x Hx.
      pose proof (ids_increasing_lower _ _ _ Hl Hx).
      destruct (Z.eqb_spec (Entry.id x) (Entry.id row)); [lia|done].
  - destruct (IH _ Hl Hin) as (l1 & l2 & -> & Hne & Hmap).
    pose proof (ids_increasing_lower _ _ _ Hl Hin).
    exists (a :: l1), l2. split; [done|]. split.
    + intros x [[<-|Hx]|Hx]; [lia|apply Hne; auto..].
    + intros set. simpl. rewrite Hmap.
      destruct (Z.eqb_spec (Entry.id a) (Entry.id row)); [lia|done].
Qed.

Lemma select_by_id_None rid d :
  select_by_id rid d = None <->
  forall row, In row (work_entries d) -> Entry.id row <> rid.
Proof.
  unfold select_by_id. split.
  - intros E row Hin. apply (find_none _ _ E) in Hin. by apply Z.eqb_neq.
  - intros Hno. destruct (find _ _) as [row|] eqn:E; [|done].
    apply find_some in E as [Hin E]. apply Z.eqb_eq in E. by apply Hno in Hin.
Qed.

Lemma select_by_id_Some rid d row :
  select_by_id rid d = Some row -> In row (work_entries d) /\ Entry.id row = rid.
Proof.
  unfold select_by_id. intros E. apply find_some in E as [? E].
  by apply Z.eqb_eq in E.
Qed.

(** ** The primary key is kept *)

Lemma ids_increasing_snoc lo l e :
  ids_increasing lo l = true ->
  lo < Entry.id e ->
  (forall x, In x l -> Entry.id x < Entry.id e) ->
  ids_increasing lo (l ++ [e]) = true.
Proof.
  revert lo. induction l as [|a l IH]; simpl; intros lo Hl Hlo Hall.
  - apply andb_true_iff. split; [by apply Z.ltb_lt|done].
  - apply andb_true_iff in Hl as [Ha Hl]. apply andb_true_iff. split; [done|].
    apply IH; [done|apply Hall; by left|]. intros x Hx. apply Hall. by right.
Qed.

Lemma ids_increasing_map lo l (f : work_entry -> work_entry) :
  (forall x, Entry.id (f x) = Entry.id x) ->
  ids_increasing lo (List.map f l) = ids_increasing lo l.
Proof.
  intros Hf. revert lo. induction l as [|a l IH]; simpl; intros lo; [done|].
  by rewrite Hf, IH.
Qed.

Lemma ids_increasing_filter lo l (p : work_entry -> bool) :
  ids_increasing lo l = true -> ids_increasing lo (List.filter p l) = true.
Proof.
  revert lo. induction l as [|a l IH]; simpl; intros lo Hl; [done|].
  apply andb_true_iff in Hl as [Ha Hl]. destruct (p a); simpl.
  - apply andb_true_iff. split; [done|by apply IH].
  - apply IH. apply (ids_increasing_weaken (Entry.id a)); [|done].
    apply Z.ltb_lt in Ha. lia.
Qed.

Lemma wf_db_iff d :
  wf_db d = true
  <-> ids_increasing 0 (work_entries d) = true
      /\ (forall x, In x (work_entries d) -> Entry.id x <= sqlite_sequence d)
      /\ 0 <= sqlite_sequence d.
Proof.
  unfold wf_db. rewrite !andb_true_iff, forallb_forall, Z.leb_le.
  setoid_rewrite Z.leb_le. done.
Qed.

Lemma insert_entry_wf mk d :
  (forall rowid, Entry.id (mk rowid) = rowid) ->
  wf_db d = true -> wf_db (insert_entry mk d) = true.
Proof.
  intros Hmk. rewrite !wf_db_iff. intros (Hinc & Hle & Hseq). simpl.
  split; [|split; [|lia]].
  - apply ids_increasing_snoc; [done|rewrite Hmk; lia|].
    intros x Hx. rewrite Hmk. specialize (Hle x Hx). lia.
  - intros x. rewrite in_app_iff. intros [Hx|[<-|[]]].
    + specialize (Hle x Hx). lia.
    + rewrite Hmk. lia.
Qed.

Lemma update_entry_wf rid set d :
  (forall x, Entry.id (set x) = Entry.id x) ->
  wf_db d = true -> wf_db (update_entry rid set d) = true.
Proof.
  intros Hset. rewrite !wf_db_iff. intros (Hinc & Hle & Hseq). simpl.
  split; [|split; [|done]].
  - rewrite ids_increasing_map; [done|].
    intros x. by destruct (Entry.id x =? rid).
  - intros x Hx. apply in_map_iff in Hx as (x0 & <- & Hx0).
    specialize (Hle x0 Hx0). destruct (Entry.id x0 =? rid); [by rewrite Hset|done].
Qed.

Lemma delete_entry_wf rid d : wf_db d = true -> wf_db (delete_entry rid d) = true.
Proof.
  rewrite !wf_db_iff. intros (Hinc & Hle & Hseq). simpl.
  split; [by apply ids_increasing_filter|]. split; [|done].
  intros x Hx. apply filter_In in Hx as [Hx _]. by apply Hle.
Qed.

Lemma wf_db_fresh : wf_db (ensure_default_settings empty_db) = true.
Proof. reflexivity. Qed.

(** Every operation keeps the rowids increasing and below the sequence:
    the databases the application reaches are well formed. *)
Lemma run_wf `{FloatText} (op : operation) (d : db) :
  wf_db d = true -> wf_db (run op d).1 = true.
Proof.
  intros Hwf. destruct op as [form|e|e|e|e|form|rid form|rid]; simpl.
  - unfold update_default_rate. destruct (py_float _) as [q|[]]; simpl; done.
  - unfold check_in. destruct (open_entry_for_date _ d); [done|].
    destruct (default_rate d); simpl; [|done]. by apply insert_entry_wf.
  - unfold api_check_in. destruct (open_entry_for_date _ d); [done|].
    destruct (default_rate d); simpl; [|done]. by apply insert_entry_wf.
  - unfold check_out. destruct (open_entry_for_date _ d); [|done].
    destruct (hours_since _ _); simpl; [|done].
    destruct (py_float _); simpl; [|done]. by apply update_entry_wf.
  - unfold api_check_out. destruct (open_entry_for_date _ d); [|done].
    destruct (hours_since _ _); simpl; [|done].
    destruct (py_float _); simpl; [|done]. by apply update_entry_wf.
  - unfold add_record. destruct (form_rate form d); simpl; [|done].
    match goal with
    | |- context [(if ?c then ?a else ?b) ≫= _] =>
        destruct (if c then a else b) as [[th ds]|x]
    end; simpl; [|done].
    by apply insert_entry_wf.
  - unfold edit_record. destruct (select_by_id rid d); [|done].
    destruct (form_rate form d); simpl; [|done].
    match goal with
    | |- context [(if ?c then ?a else ?b) ≫= _] =>
        destruct (if c then a else b) as [[th ds]|x]
    end; simpl; [|done].
    by apply update_entry_wf.
  - by apply delete_entry_wf.
Qed.

(** ** Check-in *)

Section CheckIn.
Context `{FloatText}.

Lemma check_in_fresh e d r :
  open_entry_for_date (today e) d = None ->
  default_rate d = Ok r ->
  check_in e d
  = ({| settings := settings d;
        work_entries := (work_entries d ++ [checked_in_row (sqlite_sequence d + 1) e r])%list;
        sqlite_sequence := sqlite_sequence d + 1 |},
     Redirect "home" ("Checked in at " ++ strftime_HM (now e)) "success").
Proof. intros Ho Hr. unfold check_in. rewrite Ho, Hr. reflexivity. Qed.

Lemma api_check_in_fresh e d r :
  open_entry_for_date (today e) d = None ->
  default_rate d = Ok r ->
  api_check_in e d
  = ({| settings := settings d;
        work_entries := (work_entries d ++ [checked_in_row (sqlite_sequence d + 1) e r])%list;
        sqlite_sequence := sqlite_sequence d + 1 |},
     Json 200 (PCheckedIn (strftime_HM (now e)))).
Proof. intros Ho Hr. unfold api_check_in. rewrite Ho, Hr. reflexivity. Qed.

Lemma check_in_response e d :
  (check_in e d).2 = Redirect "home" "Already checked in today." "warning"
  <-> is_Some (open_entry_for_date (today e) d).
Proof.
  unfold check_in. destruct (open_entry_for_date _ d) as [row|]; simpl.
  - split; [by eauto|done].
  - split; [|by intros [? ?]].
    destruct (default_rate d); simpl; discriminate.
Qed.

Lemma api_check_in_response e d :
  (api_check_in e d).2 = Json 400 (PError "already_checked_in")
  <-> is_Some (open_entry_for_date (today e) d).
Proof.
  unfold api_check_in. destruct (open_entry_for_date _ d) as [row|]; simpl.
  - split; [by eauto|done].
  - split; [|by intros [? ?]].
    destruct (default_rate d); simpl; discriminate.
Qed.

End CheckIn.

(** C5.  A check-in is refused as already checked in, on both surfaces,
    exactly when the table holds an open entry for today's date, and then
    writes nothing.  Otherwise, with the default rate read from the
    settings, it appends one row carrying today's date, the current time
    as check-in and that rate, its check-out, hours and salary null; a
    second check-in on the same date is then refused. *)
Theorem check_in_spec `{FloatText} (e : env) (d : db) :
  let has_open := exists row, In row (work_entries d) /\ open_on (today e) row in
  ((check_in e d).2 = Redirect "home" "Already checked in today." "warning" <-> has_open)
  /\ ((api_check_in e d).2 = Json 400 (PError "already_checked_in") <-> has_open)
  /\ (has_open -> (check_in e d).1 = d /\ (api_check_in e d).1 = d)
  /\ (~ has_open -> forall r, default_rate d = Ok r ->
      let d' := {| settings := settings d;
                   work_entries :=
                     (work_entries d
                      ++ [checked_in_row (sqlite_sequence d + 1) e r])%list;
                   sqlite_sequence := sqlite_sequence d + 1 |} in
      check_in e d
      = (d', Redirect "home" ("Checked in at " ++ strftime_HM (now e)) "success")
      /\ api_check_in e d = (d', Json 200 (PCheckedIn (strftime_HM (now e))))
      /\ forall e', today e' = today e ->
          (check_in e' d').2 = Redirect "home" "Already checked in today." "warning"
          /\ (api_check_in e' d').2 = Json 400 (PError "already_checked_in")).
Proof.
  intros has_open. subst has_open.
  rewrite check_in_response, api_check_in_response, open_entry_is_Some.
  split; [done|]. split; [done|]. split.
  - intros Hop. apply open_entry_is_Some in Hop as [row E].
    unfold check_in, api_check_in. by rewrite E.
  - intros Hno r Hr. apply open_entry_None in Hno.
    split; [by apply check_in_fresh|]. split; [by apply api_check_in_fresh|].
    intros e' He'. rewrite check_in_response, api_check_in_response, He'.
    assert (Hs : is_Some (open_entry_for_date (today e)
                   {| settings := settings d;
                      work_entries :=
                        (work_entries d
                         ++ [checked_in_row (sqlite_sequence d + 1) e r])%list;
                      sqlite_sequence := sqlite_sequence d + 1 |})).
    { apply open_entry_is_Some. exists (checked_in_row (sqlite_sequence d + 1) e r).
      split; [|done]. simpl. apply in_app_iff. right. by left. }
    done.
Qed.

Lemma check_in_spec_witness :
  (check_in (H:=decimal_text) Sample.morning Sample.fresh).2
  = Redirect "home" "Checked in at 09:05" "success"
  /\ (check_in (H:=decimal_text) Sample.evening
        (check_in (H:=decimal_text) Sample.morning Sample.fresh).1).2
     = Redirect "home" "Already checked in today." "warning".
Proof.
  destruct (check_in_spec (H:=decimal_text) Sample.morning Sample.fresh)
    as (_ & _ & _ & Hfresh).
  assert (Hno : ~ exists row, In row (work_entries Sample.fresh)
                              /\ open_on (today Sample.morning) row)
    by (intros (row & [] & _)).
  destruct (Hfresh Hno 5%Q eq_refl) as (E & _ & Hsecond).
  rewrite E. split; [reflexivity|].
  exact (proj1 (Hsecond Sample.evening eq_refl)).
Defined.

(** ** Check-out without an open entry *)

(** C6.  When the table holds no open entry for today's date, a
    check-out is refused for lack of an open entry, on both surfaces, and
    the database is returned as it was. *)
Theorem check_out_no_open_entry `{FloatText} (e : env) (d : db) :
  (~ exists row, In row (work_entries d) /\ open_on (today e) row) ->
  check_out e d = (d, Redirect "home" "No open check-in for today." "warning")
  /\ api_check_out e d = (d, Json 400 (PError "no_open_entry")).
Proof.
  intros Hno. apply open_entry_None in Hno.
  unfold check_out, api_check_out. by rewrite Hno.
Qed.

Lemma check_out_no_open_entry_witness :
  check_out (H:=decimal_text) Sample.evening Sample.fresh
  = (Sample.fresh, Redirect "home" "No open check-in for today." "warning").
Proof.
  refine (proj1 (check_out_no_open_entry (H:=decimal_text) Sample.evening Sample.fresh _)).
  intros (row & [] & _).
Defined.

(** ** Check-out of an open entry *)

Section CheckOut.
Context `{FloatText}.

Lemma check_out_run e d row h r :
  open_entry_for_date (today e) d = Some row ->
  hours_since (Entry.check_in row) (strftime_HM (now e)) = Ok h ->
  check_out_rate row d = Ok r ->
  let d' := update_entry (Entry.id row)
              (set_checked_out (strftime_HM (now e)) h (round2 (h * r))) d in
  check_out e d
  = (d', Redirect "home" ("Checked out at " ++ strftime_HM (now e)) "success")
  /\ api_check_out e d
     = (d', Json 200 (PCheckedOut (strftime_HM (now e)) h (round2 (h * r)))).
Proof.
  unfold check_out_rate. intros Ho Hh Hr. unfold check_out, api_check_out.
  rewrite Ho, Hh. simpl. rewrite Hr. done.
Qed.

Lemma check_out_success_inv e d :
  is_success (check_out e d).2 = true \/ is_success (api_check_out e d).2 = true ->
  exists row h r,
    open_entry_for_date (today e) d = Some row
    /\ hours_since (Entry.check_in row) (strftime_HM (now e)) = Ok h
    /\ check_out_rate row d = Ok r.
Proof.
  unfold check_out_rate, check_out, api_check_out.
  destruct (open_entry_for_date _ d) as [row|] eqn:Ho; [|by intros [?|?]].
  destruct (hours_since _ _) as [h|x] eqn:Hh; [|by intros [?|?]]. simpl.
  destruct (py_float _) as [r|x] eqn:Hr; [|by intros [?|?]].
  intros _. by exists row, h, r.
Qed.

Lemma update_frame e d row h s :
  wf_db d = true ->
  open_entry_for_date (today e) d = Some row ->
  checked_out_frame e d
    (update_entry (Entry.id row) (set_checked_out (strftime_HM (now e)) h s) d).
Proof.
  intros Hwf Ho. apply andb_true_iff in Hwf as [Hinc _].
  destruct (open_entry_Some _ _ _ Ho) as [Hin _].
  destruct (update_in_place _ _ _ Hinc Hin) as (l1 & l2 & E & _ & Hmap).
  exists l1, row, l2, h, s. simpl. by rewrite Hmap.
Qed.

End CheckOut.

(** C10.  A check-out that succeeds, on either surface, rewrites only the
    check-out, hours and salary of the one open entry it targets: that
    row keeps its id, date, check-in and rate and its place in the table,
    every other row is unchanged, and so are the settings. *)
Theorem check_out_frame `{FloatText} (e : env) (d : db) :
  wf_db d = true ->
  (is_success (check_out e d).2 = true -> checked_out_frame e d (check_out e d).1)
  /\ (is_success (api_check_out e d).2 = true ->
      checked_out_frame e d (api_check_out e d).1).
Proof.
  intros Hwf. split; intros Hs.
  - destruct (check_out_success_inv e d (or_introl Hs)) as (row & h & r & Ho & Hh & Hr).
    destruct (check_out_run e d row h r Ho Hh Hr) as [-> _]. by apply update_frame.
  - destruct (check_out_success_inv e d (or_intror Hs)) as (row & h & r & Ho & Hh & Hr).
    destruct (check_out_run e d row h r Ho Hh Hr) as [_ ->]. by apply update_frame.
Qed.

Lemma check_out_frame_witness :
  checked_out_frame Sample.evening Sample.checked_in
    (check_out (H:=decimal_text) Sample.evening Sample.checked_in).1.
Proof.
  apply (proj1 (check_out_frame (H:=decimal_text) Sample.evening Sample.checked_in
                  eq_refl)).
  reflexivity.
Defined.

(** ** The rate of a check-out *)

Lemma check_out_rate_cases `{FloatText} row d :
  check_out_rate row d
  = match Entry.hourly_rate row with
    | Some r => if Qnum r =? 0 then default_rate d else Ok r
    | None => default_rate d
    end.
Proof.
  unfold check_out_rate, default_rate.
  destruct (Entry.hourly_rate row) as [r|]; simpl; [|done].
  unfold py_or at 1. simpl. by destruct (Qnum r =? 0).
Qed.

(** C2.  The day that starts with the default rate at zero: the open
    entry stores the rate 0, the default rate is 5 at check-out, and the
    check-out, on both surfaces, pays 8.5 hours at the default rate, 42.5,
    while the row still stores the rate 0, at which the pay is 0. *)
Theorem check_out_zero_rate_uses_default :
  work_entries Sample.zero_rate_morning
  = [ {| Entry.id := 1; Entry.work_date := "2024-03-01";
         Entry.check_in := Some "09:05"; Entry.check_out := None;
         Entry.total_hours := None; Entry.hourly_rate := Some 0%Q;
         Entry.daily_salary := None |} ]
  /\ check_out (H:=decimal_text) Sample.evening Sample.zero_rate_morning
     = ({| settings := settings Sample.zero_rate_morning;
           work_entries :=
             [ {| Entry.id := 1; Entry.work_date := "2024-03-01";
                  Entry.check_in := Some "09:05"; Entry.check_out := Some "17:35";
                  Entry.total_hours := Some (17 # 2)%Q;
                  Entry.hourly_rate := Some 0%Q;
                  Entry.daily_salary := Some (85 # 2)%Q |} ];
           sqlite_sequence := 1 |},
        Redirect "home" "Checked out at 17:35" "success")
  /\ (api_check_out (H:=decimal_text) Sample.evening Sample.zero_rate_morning).2
     = Json 200 (PCheckedOut "17:35" (17 # 2)%Q (85 # 2)%Q)
  /\ round2 ((17 # 2) * 0) = 0%Q.
Proof. repeat split; reflexivity. Qed.

(** ** A day of work *)

(** A check-in on a day without an open entry, followed by a check-out
    on the same day, leaves one more row: the hours are the time elapsed
    between the two readings of the clock, paid at the rate of the
    check-in. *)
Lemma check_out_after_check_in `{FloatText} (e e' : env) (d : db) (r : Q) :
  wf_db d = true ->
  open_entry_for_date (today e) d = None ->
  default_rate d = Ok r -> Qnum r <> 0 ->
  today e' = today e ->
  time_of_day (now e) -> time_of_day (now e') ->
  let h := round2 (clock_hours (now e')
                   + (if earlier (now e') (now e) then 24 else 0)
                   - clock_hours (now e)) in
  check_out e' (check_in e d).1
  = ({| settings := settings d;
        work_entries :=
          (work_entries d
           ++ [ {| Entry.id := sqlite_sequence d + 1;
                   Entry.work_date := isoformat (today e);
                   Entry.check_in := Some (strftime_HM (now e));
                   Entry.check_out := Some (strftime_HM (now e'));
                   Entry.total_hours := Some h;
                   Entry.hourly_rate := Some r;
                   Entry.daily_salary := Some (round2 (h * r)) |} ])%list;
        sqlite_sequence := sqlite_sequence d + 1 |},
     Redirect "home" ("Checked out at " ++ strftime_HM (now e')) "success").
Proof.
  intros Hwf Ho Hr Hnz Hday (D & Hh & Hm) (D' & Hh' & Hm') h.
  rewrite (check_in_fresh e d r Ho Hr). cbn [fst].
  set (new := checked_in_row (sqlite_sequence d + 1) e r).
  set (d1 := {| settings := settings d;
                work_entries := (work_entries d ++ [new])%list;
                sqlite_sequence := sqlite_sequence d + 1 |}).
  assert (Ho1 : open_entry_for_date (today e') d1 = Some new).
  { unfold open_entry_for_date in *. apply latest_None in Ho.
    rewrite Hday. cbn [work_entries d1]. rewrite List.filter_app, Ho.
    cbn [List.filter app new checked_in_row]. unfold is_open_on.
    cbn [Entry.work_date Entry.check_out]. by rewrite String.eqb_refl. }
  assert (Hhs : hours_since (Entry.check_in new) (strftime_HM (now e')) = Ok h).
  { cbn [hours_since new checked_in_row Entry.check_in].
    apply compute_total_hours_parsed; by apply strptime_strftime_HM. }
  assert (Hrate : check_out_rate new d1 = Ok r).
  { rewrite check_out_rate_cases. cbn [new checked_in_row Entry.hourly_rate].
    by destruct (Z.eqb_spec (Qnum r) 0). }
  destruct (check_out_run e' d1 new h r Ho1 Hhs Hrate) as [-> _].
  f_equal. unfold update_entry. cbn [settings work_entries sqlite_sequence d1].
  f_equal. rewrite List.map_app. f_equal.
  - apply wf_db_iff in Hwf as (_ & Hle & _).
    rewrite <- (map_id (work_entries d)) at 2. apply map_ext_in. intros x Hx.
    specialize (Hle x Hx). cbn [new checked_in_row Entry.id].
    destruct (Z.eqb_spec (Entry.id x) (sqlite_sequence d + 1)); [lia|done].
  - cbn [List.map new checked_in_row Entry.id]. by rewrite Z.eqb_refl.
Qed.

(** ** Hours and salary of the rows an operation writes *)

Section Derived.
Context `{FloatText}.

(** What the two record forms store for the times [ci], [co] and the
    rate [rate] is derived from them. *)
Lemma form_row_derived (ci co : string) (rate : Q) th ds rowid wd :
  (if str_truthy ci && str_truthy co
   then total_hours ← compute_total_hours ci co;
        mret (Some total_hours, Some (round2 (total_hours * rate)))
   else mret (None, None)) = Ok (th, ds) ->
  derived_from_own
    {| Entry.id := rowid; Entry.work_date := wd;
       Entry.check_in := or_None ci; Entry.check_out := or_None co;
       Entry.total_hours := th; Entry.hourly_rate := Some rate;
       Entry.daily_salary := ds |}.
Proof.
  intros E ci' co'. simpl. unfold or_None.
  destruct (str_truthy ci); [|done]. destruct (str_truthy co); [|done].
  intros [= <-] [= <-]. simpl in E.
  destruct (compute_total_hours ci co) as [h|x]; [|done].
  injection E as <- <-. by exists h, rate.
Qed.

Lemma checked_out_derived row now_time h r :
  hours_since (Entry.check_in row) now_time = Ok h ->
  Entry.hourly_rate row = Some r ->
  derived_from_own (set_checked_out now_time h (round2 (h * r)) row).
Proof.
  intros Hh Hr ci co. simpl. intros Hci [= <-].
  rewrite Hci in Hh. simpl in Hh. by exists h, r.
Qed.

Lemma in_updated {A} (rows l1 : list A) row l2 row' x :
  rows = (l1 ++ row :: l2)%list ->
  In x (l1 ++ row' :: l2) -> In x rows \/ x = row'.
Proof.
  intros ->. rewrite !in_app_iff. simpl. intuition.
Qed.

Lemma check_out_derived e d row :
  wf_db d = true -> open_rate_nonzero e d = true ->
  (In row (work_entries (check_out e d).1) ->
   In row (work_entries d) \/ derived_from_own row)
  /\ (In row (work_entries (api_check_out e d).1) ->
      In row (work_entries d) \/ derived_from_own row).
Proof.
  intros Hwf Hnz. unfold open_rate_nonzero in Hnz.
  destruct (open_entry_for_date (today e) d) as [row0|] eqn:Ho.
  2:{ unfold check_out, api_check_out. rewrite Ho. simpl. auto. }
  destruct (Entry.hourly_rate row0) as [r0|] eqn:Hr0; [|done].
  apply negb_true_iff, Z.eqb_neq in Hnz.
  destruct (hours_since (Entry.check_in row0) (strftime_HM (now e))) as [h|x] eqn:Hh.
  2:{ unfold check_out, api_check_out. rewrite Ho, Hh. simpl. auto. }
  assert (Hr : check_out_rate row0 d = Ok r0).
  { rewrite check_out_rate_cases, Hr0.
    destruct (Z.eqb_spec (Qnum r0) 0); [done|done]. }
  destruct (check_out_run e d row0 h r0 Ho Hh Hr) as [-> ->]. simpl.
  apply andb_true_iff in Hwf as [Hinc _].
  destruct (open_entry_Some _ _ _ Ho) as [Hin _].
  destruct (update_in_place _ _ _ Hinc Hin) as (l1 & l2 & E & _ & Hmap).
  rewrite Hmap.
  split; intros Hx; (destruct (in_updated _ _ _ _ _ _ E Hx) as [?| ->]; [by left|]);
    right; by apply checked_out_derived.
Qed.

Lemma add_record_derived form d row :
  In row (work_entries (add_record POST form d).1) ->
  In row (work_entries d) \/ derived_from_own row.
Proof.
  unfold add_record.
  destruct (form_rate form d) as [rate|x]; simpl; [|by auto].
  match goal with
  | |- context [(if ?c then ?a else ?b) ≫= _] =>
      destruct (if c then a else b) as [[th ds]|x] eqn:E
  end; simpl; [|by auto].
  rewrite in_app_iff. simpl. intros [?|[<-|[]]]; [by left|right].
  by eapply form_row_derived.
Qed.

Lemma edit_record_derived rid form d row :
  wf_db d = true ->
  In row (work_entries (edit_record rid POST form d).1) ->
  In row (work_entries d) \/ derived_from_own row.
Proof.
  intros Hwf. unfold edit_record.
  destruct (select_by_id rid d) as [row0|] eqn:Hs; simpl; [|by auto].
  destruct (form_rate form d) as [rate|x]; simpl; [|by auto].
  match goal with
  | |- context [(if ?c then ?a else ?b) ≫= _] =>
      destruct (if c then a else b) as [[th ds]|x] eqn:E
  end; simpl; [|by auto].
  apply andb_true_iff in Hwf as [Hinc _].
  destruct (select_by_id_Some _ _ _ Hs) as [Hin <-].
  destruct (update_in_place _ _ _ Hinc Hin) as (l1 & l2 & E' & _ & Hmap).
  rewrite Hmap. intros Hx.
  destruct (in_updated _ _ _ _ _ _ E' Hx) as [?| ->]; [by left|right].
  by eapply form_row_derived.
Qed.

Lemma check_in_derived e d row :
  (In row (work_entries (check_in e d).1) ->
   In row (work_entries d) \/ derived_from_own row)
  /\ (In row (work_entries (api_check_in e d).1) ->
      In row (work_entries d) \/ derived_from_own row).
Proof.
  unfold check_in, api_check_in.
  destruct (open_entry_for_date _ d); simpl; [by auto|].
  destruct (default_rate d) as [r|x]; simpl; [|by auto].
  split; (rewrite in_app_iff; simpl; intros [?|[<-|[]]]; [by left|right]);
    intros ci co; simpl; done.
Qed.

End Derived.

(** ** Finite and other rates *)

Section Finite.
Context `{FloatText}.

Lemma nonfinite_literal_not_finite s x :
  nonfinite_literal s = Some x -> forall q, x <> Finite q.
Proof.
  unfold nonfinite_literal.
  destruct (match strip s with
            | String "-" r => (true, r)
            | String "+" r => (false, r)
            | _ => (false, strip s)
            end) as [negative body].
  destruct (String.eqb (str_lower body) "nan"); [by intros [= <-]|].
  destruct (String.eqb (str_lower body) "inf" || String.eqb (str_lower body) "infinity");
    [by intros [= <-]|done].
Qed.

Lemma float_x_cases s :
  (exists x, float_x s = Ok x /\ forall q, x <> Finite q)
  \/ float_x s = (q ← py_float (PStr s); mret (Finite q)).
Proof.
  unfold float_x. destruct (nonfinite_literal s) as [x|] eqn:E; [left|by right].
  exists x. split; [done|]. by apply nonfinite_literal_not_finite with s.
Qed.

(** Where the rate of a form is a finite number, it is the rate the
    model reads. *)
Lemma form_rate_x_finite form d :
  finite_rate form d = true ->
  form_rate_x form d = (r ← form_rate form d; mret (Finite r)).
Proof.
  unfold finite_rate, form_rate_x, form_rate.
  destruct (float_x_cases (strip (form_get form "hourly_rate" "0")))
    as [(x & Ex & Hx)|Ex]; rewrite Ex.
  { cbn [Res.catch_ValueError]. destruct x as [q| |]; [by destruct (Hx q)|done..]. }
  cbn [py_float].
  destruct (float_of_string (strip (form_get form "hourly_rate" "0"))) as [q|];
    [done|].
  cbn [mbind result_bind Res.bind Res.catch_ValueError].
  unfold default_rate_x, default_rate.
  destruct (py_or (of_text (get_setting "default_hourly_rate" d)) (PInt 0))
    as [|z|q|s]; try done.
  destruct (float_x_cases s) as [(x & Es & Hx)|Es]; rewrite Es; [|done].
  destruct x as [q| |]; [by destruct (Hx q)|done..].
Qed.

(** A row that holds a form of finite rate has, in its three [REAL]
    columns, what the program stores for the form. *)
Lemma record_reals_finite form d rowid row :
  finite_rate form d = true ->
  holds_form form d rowid row ->
  record_reals form d = Ok (reals_of row).
Proof.
  intros Hfin (_ & _ & Hci & Hco & r & Hr & Hrate & Hrow).
  unfold record_reals. cbv zeta. rewrite (form_rate_x_finite _ _ Hfin), Hr, !bind_Ok.
  unfold or_None in Hci, Hco. unfold reals_of. rewrite Hrate.
  destruct (str_truthy (strip (form_get form "check_in" ""))) eqn:Eci;
    rewrite Hci in Hrow; cbn [andb].
  - destruct (str_truthy (strip (form_get form "check_out" ""))) eqn:Eco;
      rewrite Hco in Hrow.
    + destruct Hrow as (h & -> & -> & ->). by rewrite !bind_Ok.
    + destruct Hrow as [-> ->]. by rewrite !bind_Ok.
  - destruct Hrow as [-> ->]. by rewrite !bind_Ok.
Qed.

End Finite.

(** C1 as the code has it, for rates that are finite numbers.  Every row
    an operation leaves in the table is either a row that was there
    before, or has its hours and salary derived from its own check-in,
    check-out and rate whenever both times are set; for a check-out this
    is stated when the open entry stores a rate that is neither null nor
    zero.  Where a record form is posted with a rate that is a finite
    number, the three [REAL] values the program stores are those of the
    row of the model that holds the form. *)
Theorem written_rows_derived `{FloatText} (op : operation) (d : db) (row : work_entry) :
  wf_db d = true ->
  stored_rate_applies op d = true ->
  finite_rates op d = true ->
  (In row (work_entries (run op d).1) ->
   In row (work_entries d) \/ derived_from_own row)
  /\ (forall form rowid,
        op = OpAddRecord form \/ op = OpEditRecord rowid form ->
        holds_form form d rowid row ->
        record_reals form d = Ok (reals_of row)).
Proof.
  intros Hwf Hrate Hfin. split.
  - destruct op as [form|e|e|e|e|form|rid form|rid]; simpl in *.
    + unfold update_default_rate.
      destruct (py_float _) as [q|[]]; simpl; auto.
    + apply check_in_derived.
    + apply check_in_derived.
    + by apply check_out_derived.
    + by apply check_out_derived.
    + apply add_record_derived.
    + by apply edit_record_derived.
    + intros Hin. left. by apply filter_In in Hin as [? _].
  - intros form rowid [-> | ->] Hholds; by apply (record_reals_finite form d rowid).
Qed.

Lemma written_rows_derived_witness :
  let form := Sample.record_form "2024-03-01" "09:00" "17:05" "12.5" in
  let row := {| Entry.id := 1; Entry.work_date := "2024-03-01";
                Entry.check_in := Some "09:00"; Entry.check_out := Some "17:05";
                Entry.total_hours := Some (202 # 25)%Q;
                Entry.hourly_rate := Some (25 # 2)%Q;
                Entry.daily_salary := Some 101%Q |} in
  (In row (work_entries Sample.fresh) \/ derived_from_own row)
  /\ record_reals (H:=decimal_text) form Sample.fresh
     = Ok {| sr_total_hours := Some (202 # 25)%Q;
             sr_hourly_rate := Some (Finite (25 # 2));
             sr_daily_salary := Some (Finite 101) |}.
Proof.
  intros form row.
  destruct (written_rows_derived (H:=decimal_text) (OpAddRecord form) Sample.fresh row
              eq_refl eq_refl eq_refl) as [Hrows Hreals].
  split.
  - apply Hrows. left. reflexivity.
  - apply (Hreals form 1); [by left|].
    unfold holds_form. repeat split. exists (25 # 2)%Q. repeat split.
    exists (202 # 25)%Q. by repeat split.
Defined.

(** With a rate that is no number the program stores neither the rate
    nor the salary, whatever the times; with an infinite rate and no time
    elapsed it stores no salary. *)
Lemma nonfinite_rate_stored_null :
  record_reals (H:=decimal_text)
    (Sample.record_form "2024-03-01" "09:00" "17:00" "nan") Sample.fresh
  = Ok {| sr_total_hours := Some 8%Q; sr_hourly_rate := None;
          sr_daily_salary := None |}
  /\ record_reals (H:=decimal_text)
       (Sample.record_form "2024-03-01" "09:00" "09:00" "inf") Sample.fresh
     = Ok {| sr_total_hours := Some 0%Q;
             sr_hourly_rate := Some (Infinite false);
             sr_daily_salary := None |}.
Proof. split; reflexivity. Qed.

(** C1 as stated fails: a record added with a check-out and no check-in
    is a new row whose check-out is set and whose hours and salary are
    null. *)
Lemma add_record_check_out_only :
  let d' := (add_record (H:=decimal_text) POST
               (Sample.record_form "2024-03-03" "" "16:30" "7") Sample.fresh).1 in
  exists row,
    In row (work_entries d')
    /\ ~ In row (work_entries Sample.fresh)
    /\ Entry.check_out row = Some "16:30"
    /\ Entry.total_hours row = None
    /\ Entry.daily_salary row = None.
Proof.
  eexists. split; [left; reflexivity|]. split; [intros []|]. done.
Qed.

(** ** Deleting a record *)

Lemma filter_all_true {A} (p : A -> bool) (l : list A) :
  (forall x, In x l -> p x = true) -> List.filter p l = l.
Proof.
  induction l as [|a l IH]; simpl; [done|].
  intros Hall. rewrite (Hall a) by auto. f_equal. apply IH. auto.
Qed.

Lemma filter_idem {A} (p : A -> bool) (l : list A) :
  List.filter p (List.filter p l) = List.filter p l.
Proof.
  apply filter_all_true. intros x Hx. by apply filter_In in Hx as [_ ?].
Qed.

(** C8.  Deleting a record always answers with the success notice and
    removes exactly the rows carrying that id; when no row carries it the
    database is returned as it was, so deleting again changes nothing. *)
Theorem delete_record_spec (record_id : Z) (d : db) :
  (delete_record record_id d).2 = Redirect "report" "Record deleted" "success"
  /\ (forall row, In row (work_entries (delete_record record_id d).1)
                  <-> In row (work_entries d) /\ Entry.id row <> record_id)
  /\ ((forall row, In row (work_entries d) -> Entry.id row <> record_id) ->
      delete_record record_id d = (d, Redirect "report" "Record deleted" "success"))
  /\ delete_record record_id (delete_record record_id d).1 = delete_record record_id d.
Proof.
  unfold delete_record, delete_entry. simpl. split; [done|]. split; [|split].
  - intros row. rewrite filter_In, negb_true_iff, Z.eqb_neq. done.
  - intros Hno. f_equal. destruct d as [s rows q]. simpl in *. f_equal.
    apply filter_all_true. intros x Hx. apply negb_true_iff, Z.eqb_neq. auto.
  - f_equal. f_equal. apply filter_idem.
Qed.

Lemma delete_record_spec_witness :
  delete_record 7 Sample.fresh
  = (Sample.fresh, Redirect "report" "Record deleted" "success").
Proof.
  refine (proj1 (proj2 (proj2 (delete_record_spec 7 Sample.fresh))) _).
  intros row [].
Defined.

(** ** Editing a record *)

Section Edit.
Context `{FloatText}.


End Edit.



(** ** Input that does not parse *)

Lemma form_get_insert_ne (form : gmap string string) k k' v dflt :
  k <> k' -> form_get (<[k := v]> form) k' dflt = form_get form k' dflt.
Proof. intros Hne. unfold form_get. by rewrite lookup_insert_ne. Qed.

Lemma form_get_insert (form : gmap string string) k v dflt :
  form_get (<[k := v]> form) k dflt = v.
Proof. unfold form_get. by rewrite lookup_insert_eq. Qed.

Section Unparseable.
Context `{FloatText}.

Lemma form_rate_unparseable form d :
  float_of_string (strip (form_get form "hourly_rate" "0")) = None ->
  form_rate form d = default_rate d.
Proof. intros E. unfold form_rate. simpl. by rewrite E. Qed.

Lemma form_rate_parsed form d r :
  float_of_string (strip (form_get form "hourly_rate" "0")) = Some r ->
  form_rate form d = Ok r.
Proof. intros E. unfold form_rate. simpl. by rewrite E. Qed.

Lemma form_rate_substituted form d r s :
  float_of_string (strip (form_get form "hourly_rate" "0")) = None ->
  default_rate d = Ok r ->
  float_of_string (strip s) = Some r ->
  form_rate form d = form_rate (<["hourly_rate" := s]> form) d.
Proof.
  intros E Hd Hs. rewrite (form_rate_unparseable _ _ E), Hd.
  symmetry. apply form_rate_parsed. by rewrite form_get_insert.
Qed.

Lemma report_start_unparseable month tod :
  strptime_Ymd (month ++ "-01") = Raise ValueError ->
  report_start (Some month) tod = report_start None tod.
Proof.
  intros E. unfold report_start. rewrite E. simpl. by destruct (str_truthy month).
Qed.

End Unparseable.

(** C7 as the code has it.  A default rate that does not parse is
    refused with the notice [Invalid rate] and the database is returned
    as it was.  A record form whose rate does not parse is handled, by add
    and by edit, exactly as the same form carrying the default rate.  A
    report for a month that does not parse is the report for no month,
    that is the current month, on both surfaces. *)
Theorem unparseable_input_handling `{FloatText} (d : db) :
  (forall form,
     float_of_string (strip (form_get form "hourly_rate" "0")) = None ->
     update_default_rate form d = (d, Redirect "home" "Invalid rate" "error"))
  /\ (forall form r s,
        float_of_string (strip (form_get form "hourly_rate" "0")) = None ->
        default_rate d = Ok r ->
        float_of_string (strip s) = Some r ->
        (forall m, add_record m form d
                   = add_record m (<["hourly_rate" := s]> form) d)
        /\ (forall record_id m,
              edit_record record_id m form d
              = edit_record record_id m (<["hourly_rate" := s]> form) d))
  /\ (forall month e,
        strptime_Ymd (month ++ "-01") = Raise ValueError ->
        report (Some month) e d = report None e d
        /\ api_report (Some month) e d = api_report None e d).
Proof.
  split; [|split].
  - intros form E. unfold update_default_rate. simpl. by rewrite E.
  - intros form r s E Hd Hs.
    pose proof (form_rate_substituted form d r s E Hd Hs) as Hf.
    split.
    + intros [|]; [done|]. unfold add_record.
      rewrite !form_get_insert_ne by done. by rewrite Hf.
    + intros rid [|]; unfold edit_record; [done|].
      rewrite !form_get_insert_ne by done. by rewrite Hf.
  - intros month e E. unfold report, api_report, monthly.
    by rewrite (report_start_unparseable _ _ E).
Qed.

Lemma unparseable_input_handling_witness :
  update_default_rate (H:=decimal_text) (Sample.rate_form "abc") Sample.fresh
  = (Sample.fresh, Redirect "home" "Invalid rate" "error")
  /\ add_record (H:=decimal_text) POST
       (Sample.record_form "2024-03-02" "09:00" "16:30" "abc") Sample.fresh
     = add_record (H:=decimal_text) POST
         (<["hourly_rate" := "5.0"]>
            (Sample.record_form "2024-03-02" "09:00" "16:30" "abc")) Sample.fresh
  /\ report (Some "2024-13") Sample.morning Sample.fresh
     = report None Sample.morning Sample.fresh.
Proof.
  destruct (unparseable_input_handling (H:=decimal_text) Sample.fresh)
    as (Hrate & Hform & Hmonth).
  split; [by apply Hrate|]. split.
  - by apply (proj1 (Hform (Sample.record_form "2024-03-02" "09:00" "16:30" "abc")
                       5%Q "5.0" eq_refl eq_refl eq_refl)).
  - by apply (proj1 (Hmonth "2024-13" Sample.morning eq_refl)).
Defined.

(** C7 as stated fails: a record posted with the rate [abc] is added,
    paid at the default rate 5; a report asked for the month [2024-13] on
    2024-03-01 is the report of March 2024. *)
Lemma unparseable_input_proceeds :
  decimal_of_string "abc" = None
  /\ add_record (H:=decimal_text) POST
       (Sample.record_form "2024-03-02" "09:00" "16:30" "abc") Sample.fresh
     = ({| settings := settings Sample.fresh;
           work_entries :=
             [ {| Entry.id := 1; Entry.work_date := "2024-03-02";
                  Entry.check_in := Some "09:00"; Entry.check_out := Some "16:30";
                  Entry.total_hours := Some (15 # 2)%Q;
                  Entry.hourly_rate := Some 5%Q;
                  Entry.daily_salary := Some (75 # 2)%Q |} ];
           sqlite_sequence := 1 |},
        Redirect "report" "Record added" "success")
  /\ strptime_Ymd ("2024-13" ++ "-01") = Raise ValueError
  /\ report (Some "2024-13") Sample.morning Sample.fresh
     = (Sample.fresh,
        Template "monthly_report.html"
          (ReportView
             {| Report.rows := [];
                Report.start_date := {| year := 2024; month := 3; day := 1 |};
                Report.end_date := {| year := 2024; month := 3; day := 31 |};
                Report.total_hours := 0; Report.total_salary := 0 |})).
Proof. repeat split; reflexivity. Qed.

(** ** The month of a report *)

Lemma days_in_month_range y m : 28 <= days_in_month y m <= 31.
Proof.
  unfold days_in_month.
  destruct (m =? 2); [destruct (is_leap y); lia|].
  destruct (_ || _); lia.
Qed.

Lemma make_date_valid y m k :
  MINYEAR <= y <= MAXYEAR -> 1 <= m <= 12 -> 1 <= k <= days_in_month y m ->
  make_date y m k = Ok {| year := y; month := m; day := k |}.
Proof.
  intros Hy Hm Hk. unfold make_date, valid_date. simpl.
  unfold MINYEAR, MAXYEAR in *. by zbool.
Qed.

Lemma date_succ_same y m k :
  k < days_in_month y m ->
  date_succ {| year := y; month := m; day := k |}
  = {| year := y; month := m; day := k + 1 |}.
Proof. intros Hk. unfold date_succ. simpl. by zbool. Qed.

Lemma date_succ_last y m k :
  days_in_month y m <= k ->
  date_succ {| year := y; month := m; day := k |}
  = if m <? 12 then {| year := y; month := m + 1; day := 1 |}
    else {| year := y + 1; month := 1; day := 1 |}.
Proof. intros Hk. unfold date_succ. simpl. by zbool. Qed.

Lemma date_succ_in_next y m k :
  1 <= k <= 27 ->
  date_succ {| year := year (next_month_first y m);
               month := month (next_month_first y m); day := k |}
  = {| year := year (next_month_first y m);
       month := month (next_month_first y m); day := k + 1 |}.
Proof.
  intros Hk. apply date_succ_same.
  pose proof (days_in_month_range (year (next_month_first y m))
                (month (next_month_first y m))). lia.
Qed.

Lemma next_month_first_eta y m :
  next_month_first y m
  = {| year := year (next_month_first y m);
       month := month (next_month_first y m); day := 1 |}.
Proof. unfold next_month_first. by destruct (m <? 12). Qed.

Lemma iter_succ_within y m k0 i :
  k0 + Z.of_nat i <= days_in_month y m ->
  Nat.iter i date_succ {| year := y; month := m; day := k0 |}
  = {| year := y; month := m; day := k0 + Z.of_nat i |}.
Proof.
  induction i as [|i IH]; intros Hi; simpl Nat.iter.
  - f_equal. lia.
  - rewrite IH by lia. rewrite date_succ_same by lia. f_equal. lia.
Qed.

Lemma iter_succ_into_next y m k0 j :
  k0 <= days_in_month y m < k0 + Z.of_nat j ->
  k0 + Z.of_nat j <= days_in_month y m + 27 ->
  Nat.iter j date_succ {| year := y; month := m; day := k0 |}
  = {| year := year (next_month_first y m);
       month := month (next_month_first y m);
       day := k0 + Z.of_nat j - days_in_month y m |}.
Proof.
  induction j as [|j IH]; [lia|].
  intros Hlo Hhi. simpl Nat.iter.
  destruct (Z.eq_dec (k0 + Z.of_nat j) (days_in_month y m)) as [E|E].
  - rewrite iter_succ_within by lia. rewrite date_succ_last by lia.
    fold (next_month_first y m). rewrite next_month_first_eta at 1. f_equal. lia.
  - rewrite IH by lia. rewrite date_succ_in_next by lia. f_equal. lia.
Qed.

(** From day [k0] of a month, [n] days on, past the end of the month:
    the first days of the next one. *)
Lemma date_shift_into_next y m k0 n :
  k0 <= days_in_month y m < k0 + n ->
  k0 + n <= days_in_month y m + 27 ->
  date_shift {| year := y; month := m; day := k0 |} n
  = {| year := year (next_month_first y m);
       month := month (next_month_first y m);
       day := k0 + n - days_in_month y m |}.
Proof.
  intros Hlo Hhi. unfold date_shift. destruct (Z.leb_spec 0 n); [|lia].
  rewrite iter_succ_into_next by lia. f_equal. lia.
Qed.

Lemma date_pred_first y m :
  1 <= m <= 12 ->
  date_pred (next_month_first y m)
  = {| year := y; month := m; day := days_in_month y m |}.
Proof.
  intros Hm. unfold next_month_first, date_pred.
  destruct (Z.ltb_spec m 12); simpl.
  - destruct (Z.ltb_spec 1 (m + 1)); [|lia]. f_equal; [lia|f_equal; lia].
  - assert (m = 12) as -> by lia.
    replace (y + 1 - 1) with y by lia. reflexivity.
Qed.

Lemma next_month_first_valid y m :
  MINYEAR <= y <= MAXYEAR -> 1 <= m <= 12 -> y < MAXYEAR \/ m < 12 ->
  valid_date (next_month_first y m) = true.
Proof.
  unfold next_month_first, valid_date, MINYEAR, MAXYEAR. intros Hy Hm Hlast.
  destruct (Z.ltb_spec m 12); simpl.
  - pose proof (days_in_month_range y (m + 1)). by zbool.
  - pose proof (days_in_month_range (y + 1) 1). by zbool.
Qed.

Lemma date_shift_within y m k n :
  0 <= n -> k + n <= days_in_month y m ->
  date_shift {| year := y; month := m; day := k |} n
  = {| year := y; month := m; day := k + n |}.
Proof.
  intros Hn Hk. unfold date_shift. destruct (Z.leb_spec 0 n); [|lia].
  rewrite iter_succ_within by lia. f_equal. lia.
Qed.

Lemma date_add_days_Ok d n r :
  date_shift d n = r -> MINYEAR <= year r <= MAXYEAR ->
  date_add_days d n = Ok r.
Proof.
  intros <- Hy. unfold date_add_days.
  destruct (Z.leb_spec MINYEAR (year (date_shift d n))); [|lia].
  by destruct (Z.leb_spec (year (date_shift d n)) MAXYEAR); [|lia].
Qed.

Lemma next_month_first_year y m :
  MINYEAR <= y <= MAXYEAR -> y < MAXYEAR \/ m < 12 ->
  MINYEAR <= year (next_month_first y m) <= MAXYEAR.
Proof.
  unfold next_month_first, MINYEAR, MAXYEAR. intros Hy Hlast.
  destruct (Z.ltb_spec m 12); simpl; lia.
Qed.

Lemma replace_day_1_next y m k :
  MINYEAR <= y <= MAXYEAR -> 1 <= m <= 12 -> y < MAXYEAR \/ m < 12 ->
  date_replace_day {| year := year (next_month_first y m);
                      month := month (next_month_first y m); day := k |} 1
  = Ok (next_month_first y m).
Proof.
  intros Hy Hm Hlast. unfold date_replace_day, make_date. simpl.
  rewrite <- next_month_first_eta. by rewrite next_month_first_valid.
Qed.

Lemma minus_one_day_next y m :
  MINYEAR <= y <= MAXYEAR -> 1 <= m <= 12 ->
  date_add_days (next_month_first y m) (-1)
  = Ok {| year := y; month := m; day := days_in_month y m |}.
Proof.
  intros Hy Hm. apply date_add_days_Ok; [|done].
  unfold date_shift. simpl. by apply date_pred_first.
Qed.

Lemma date_replace_day_valid y m k0 k :
  MINYEAR <= y <= MAXYEAR -> 1 <= m <= 12 -> 1 <= k <= days_in_month y m ->
  date_replace_day {| year := y; month := m; day := k0 |} k
  = Ok {| year := y; month := m; day := k |}.
Proof. intros. unfold date_replace_day. by apply make_date_valid. Qed.

(** The code's end of month, and the rule as the specification words
    it, are both the last calendar day of the month, for every month that
    has a following one. *)
Lemma report_end_last_day y m :
  MINYEAR <= y <= MAXYEAR -> 1 <= m <= 12 -> y < MAXYEAR \/ m < 12 ->
  report_end {| year := y; month := m; day := 1 |}
  = Ok {| year := y; month := m; day := days_in_month y m |}
  /\ spec_last_day {| year := y; month := m; day := 1 |}
     = Ok {| year := y; month := m; day := days_in_month y m |}.
Proof.
  intros Hy Hm Hlast.
  pose proof (days_in_month_range y m) as Hd.
  pose proof (next_month_first_year y m Hy Hlast) as Hny.
  split.
  - unfold report_end.
    rewrite date_replace_day_valid, bind_Ok by (done || lia).
    rewrite (date_add_days_Ok _ _ _ (date_shift_into_next y m 28 4 ltac:(lia) ltac:(lia)))
      by done.
    rewrite bind_Ok, replace_day_1_next, bind_Ok by done.
    by apply minus_one_day_next.
  - unfold spec_last_day.
    destruct (Z.eq_dec (days_in_month y m) 28) as [E|E].
    + rewrite (date_add_days_Ok _ _ _
                 (date_shift_into_next y m 1 28 ltac:(lia) ltac:(lia))) by done.
      rewrite bind_Ok.
      pose proof (days_in_month_range (year (next_month_first y m))
                    (month (next_month_first y m))).
      rewrite (date_add_days_Ok _ _ _
                 (date_shift_within (year (next_month_first y m))
                    (month (next_month_first y m)) (1 + 28 - days_in_month y m) 4
                    ltac:(lia) ltac:(lia))) by done.
      rewrite bind_Ok, replace_day_1_next, bind_Ok by done.
      by apply minus_one_day_next.
    + rewrite (date_add_days_Ok _ _ _
                 (date_shift_within y m 1 28 ltac:(lia) ltac:(lia)))
        by (simpl; lia).
      rewrite bind_Ok.
      rewrite (date_add_days_Ok _ _ _
                 (date_shift_into_next y m (1 + 28) 4 ltac:(lia) ltac:(lia))) by done.
      rewrite bind_Ok, replace_day_1_next, bind_Ok by done.
      by apply minus_one_day_next.
Qed.

(** The last month of year 9999 has no following month in [date]: the
    addition overflows. *)
Lemma report_end_overflow :
  report_end {| year := 9999; month := 12; day := 1 |} = Raise OverflowError.
Proof. reflexivity. Qed.

(** ** What [strptime] reads of a requested month *)

(** [%m] reads one or two characters. *)
Lemma in_re_m_inv s m r :
  In (m, r) (re_m s) -> exists p c, s = p ++ String c r.
Proof.
  unfold re_m. rewrite !in_m_alt. intros [Hm|[Hm|Hm]].
  - apply in_m_digit2_inv in Hm as (c1 & c2 & _ & _ & -> & _).
    by exists (String c1 ""), c2.
  - apply in_m_digit2_inv in Hm as (c1 & c2 & _ & _ & -> & _).
    by exists (String c1 ""), c2.
  - apply in_m_digit_inv in Hm as (c & -> & _). by exists "", c.
Qed.

(** [%d] reads two digits, one digit, or a space and a digit. *)
Lemma in_re_d_inv s d r :
  In (d, r) (re_d s) ->
  (exists c1 c2 a b,
     s = String c1 (String c2 r) /\ d = 10 * a + b
     /\ digit_val c1 = Some a /\ digit_val c2 = Some b)
  \/ (exists c, s = String c r /\ digit_val c = Some d)
  \/ (exists c, s = String " " (String c r)).
Proof.
  unfold re_d. rewrite !in_m_alt. intros [Hd|[Hd|[Hd|[Hd|Hd]]]].
  - apply in_m_digit2_inv in Hd as (c1 & c2 & a & b & ? & ? & ? & ? & _).
    left. by exists c1, c2, a, b.
  - apply in_m_digit2_inv in Hd as (c1 & c2 & a & b & ? & ? & ? & ? & _).
    left. by exists c1, c2, a, b.
  - apply in_m_digit2_inv in Hd as (c1 & c2 & a & b & ? & ? & ? & ? & _).
    left. by exists c1, c2, a, b.
  - apply in_m_digit_inv in Hd as (c & ? & ? & _). right. left. by exists c.
  - apply in_m_bind in Hd as ([] & r1 & Hl & Hd).
    apply in_m_lit_inv in Hl as ->.
    apply in_m_digit_inv in Hd as (c & -> & _). right. right. by exists c.
Qed.

Lemma in_re_Y_inv s y r :
  In (y, r) (re_Y s) ->
  exists c1 c2 c3 c4, s = String c1 (String c2 (String c3 (String c4 r))).
Proof.
  unfold re_Y. rewrite in_m_bind. intros (hi & r1 & Hhi & Hlo).
  apply in_m_bind in Hlo as (lo & r2 & Hlo & Hr).
  apply in_m_digit2_inv in Hhi as (c1 & c2 & _ & _ & -> & _).
  apply in_m_digit2_inv in Hlo as (c3 & c4 & _ & _ & -> & _).
  destruct Hr as [[= _ <-]|[]]. by exists c1, c2, c3, c4.
Qed.

(** Whatever [strptime] makes of a requested month followed by [-01] is
    the first day of a month of the calendar. *)
Lemma strptime_Ymd_first_day month start :
  strptime_Ymd (month ++ "-01") = Ok start ->
  day start = 1 /\ valid_date start = true.
Proof.
  unfold strptime_Ymd.
  destruct (m_run _ _) as [[[y m] d]|] eqn:E; [|done]. rewrite bind_Ok.
  unfold make_date. destruct (valid_date _) eqn:V; [|done].
  intros [= <-]. split; [|done]. simpl.
  apply m_run_Ok in E.
  apply in_m_bind in E as (y' & r1 & Hy & E).
  apply in_m_bind in E as ([] & r2 & Hl1 & E).
  apply in_m_bind in E as (m' & r3 & Hm & E).
  apply in_m_bind in E as ([] & r4 & Hl2 & E).
  apply in_m_bind in E as (d' & r5 & Hd & E).
  destruct E as [[= _ _ <- ->]|[]].
  apply in_re_Y_inv in Hy as (c1 & c2 & c3 & c4 & Hs).
  apply in_m_lit_inv in Hl1 as ->.
  apply in_re_m_inv in Hm as (p & c & ->).
  apply in_m_lit_inv in Hl2 as ->.
  apply in_re_d_inv in Hd as [(d1 & d2 & a & b & -> & -> & Ha & Hb)|[(c' & -> & _)|(c' & ->)]].
  - assert (Hs' : month ++ "-01"
                  = String c1 (String c2 (String c3 (String c4 (String "-" (p ++ String c "")))))
                    ++ String "-" (String d1 (String d2 ""))).
    { rewrite Hs, !string_app_cons, string_app_assoc. reflexivity. }
    apply append_suffix_eq in Hs' as [_ [= <- <-]]; [|done].
    injection Ha as <-. injection Hb as <-. reflexivity.
  - assert (Hs' : month ++ "-01"
                  = String c1 (String c2 (String c3 (String c4 (String "-" p))))
                    ++ String c (String "-" (String c' ""))).
    { rewrite Hs, !string_app_cons. reflexivity. }
    apply append_suffix_eq in Hs' as [_ [= _ ?]]; done.
  - assert (Hs' : month ++ "-01"
                  = String c1 (String c2 (String c3 (String c4 (String "-" (p ++ String c "")))))
                    ++ String "-" (String " " (String c' ""))).
    { rewrite Hs, !string_app_cons, string_app_assoc. reflexivity. }
    apply append_suffix_eq in Hs' as [_ [= ? _]]; done.
Qed.

(** ** Months written YYYY-MM are read *)

Lemma re_Y_pad4 y r :
  0 <= y <= 9999 -> re_Y (pad4 y ++ r) = [(y, r)].
Proof.
  intros Hy. unfold pad4, pad2. rewrite !string_app_cons, string_app_nil.
  unfold re_Y, m_bind at 1.
  rewrite m_digit2_any by (apply digit_bounds || apply digit_bounds_0).
  cbn [map concat]. unfold m_bind at 1.
  rewrite m_digit2_any by (apply digit_bounds || apply digit_bounds_0).
  cbn [map concat app]. unfold m_ret. by rewrite four_digits.
Qed.

Lemma strptime_Ymd_canonical y m :
  1 <= y <= 9999 -> 1 <= m <= 12 ->
  strptime_Ymd ((pad4 y ++ "-" ++ pad2 m) ++ "-01")
  = Ok {| year := y; month := m; day := 1 |}.
Proof.
  intros Hy Hm. rewrite string_app_assoc. unfold strptime_Ymd, m_run.
  unfold m_bind at 1. rewrite re_Y_pad4 by lia.
  assert (Hc : m = 1 \/ m = 2 \/ m = 3 \/ m = 4 \/ m = 5 \/ m = 6 \/ m = 7
               \/ m = 8 \/ m = 9 \/ m = 10 \/ m = 11 \/ m = 12) by lia.
  pose proof (days_in_month_range y m).
  repeat (destruct Hc as [->|Hc]); try subst m;
    (cbn; apply make_date_valid; unfold MINYEAR, MAXYEAR; lia).
Qed.

(** ** Order of dates as text *)

Lemma ascii_compare_refl c : Ascii.compare c c = Eq.
Proof. unfold Ascii.compare. apply N.compare_refl. Qed.

Lemma string_compare_trans_le (s1 s2 s3 : string) :
  String.compare s1 s2 <> Gt -> String.compare s2 s3 <> Gt ->
  String.compare s1 s3 <> Gt.
Proof.
  revert s2 s3. induction s1 as [|c1 s1 IH]; intros [|c2 s2] [|c3 s3]; simpl; try done.
  unfold Ascii.compare.
  destruct (N.compare_spec (N_of_ascii c1) (N_of_ascii c2)) as [E12|L12|G12];
    destruct (N.compare_spec (N_of_ascii c2) (N_of_ascii c3)) as [E23|L23|G23];
    destruct (N.compare_spec (N_of_ascii c1) (N_of_ascii c3)) as [E13|L13|G13];
    try done; try lia.
  apply IH.
Qed.

Lemma string_leb_trans (s1 s2 s3 : string) :
  String.leb s1 s2 = true -> String.leb s2 s3 = true -> String.leb s1 s3 = true.
Proof.
  unfold String.leb. intros H12 H23.
  pose proof (string_compare_trans_le s1 s2 s3) as Ht.
  destruct (String.compare s1 s2); destruct (String.compare s2 s3);
    destruct (String.compare s1 s3); try done; exfalso; by apply Ht.
Qed.

#[global] Instance work_date_le_total : Total work_date_le.
Proof. intros a b. unfold work_date_le. apply String.leb_total. Qed.

#[global] Instance work_date_le_trans : Transitive work_date_le.
Proof. intros a b c. unfold work_date_le. apply string_leb_trans. Qed.

(** ** ISO dates compare as dates *)

Lemma ascii_compare_digit a b :
  0 <= a <= 9 -> 0 <= b <= 9 ->
  Ascii.compare (digit_chr a) (digit_chr b) = (a ?= b).
Proof.
  intros Ha Hb. unfold Ascii.compare.
  pose proof (ord_digit_chr a Ha) as Ea. pose proof (ord_digit_chr b Hb) as Eb.
  unfold ord in Ea, Eb.
  rewrite <- (N2Z.inj_compare), Ea, Eb. apply Z.add_compare_mono_l.
Qed.

Lemma string_compare_cons a b s t :
  String.compare (String a s) (String b t)
  = lex (Ascii.compare a b) (String.compare s t).
Proof. simpl. by destruct (Ascii.compare a b). Qed.

Lemma lex_two_digits n n' rest :
  0 <= n <= 99 -> 0 <= n' <= 99 ->
  lex (n / 10 mod 10 ?= n' / 10 mod 10) (lex (n mod 10 ?= n' mod 10) rest)
  = lex (n ?= n') rest.
Proof.
  intros Hn Hn'.
  destruct (Z.compare_spec (n / 10 mod 10) (n' / 10 mod 10));
    destruct (Z.compare_spec (n mod 10) (n' mod 10));
    destruct (Z.compare_spec n n'); simpl; try done;
    Z.to_euclidean_division_equations; lia.
Qed.

Lemma lex_four_digits n n' rest :
  0 <= n <= 9999 -> 0 <= n' <= 9999 ->
  lex (n / 1000 mod 10 ?= n' / 1000 mod 10)
    (lex (n / 100 mod 10 ?= n' / 100 mod 10)
       (lex (n / 10 mod 10 ?= n' / 10 mod 10) (lex (n mod 10 ?= n' mod 10) rest)))
  = lex (n ?= n') rest.
Proof.
  intros Hn Hn'.
  destruct (Z.compare_spec (n / 1000 mod 10) (n' / 1000 mod 10));
    destruct (Z.compare_spec (n / 100 mod 10) (n' / 100 mod 10));
    destruct (Z.compare_spec (n / 10 mod 10) (n' / 10 mod 10));
    destruct (Z.compare_spec (n mod 10) (n' mod 10));
    destruct (Z.compare_spec n n'); simpl; try done;
    Z.to_euclidean_division_equations; lia.
Qed.

(** For years of four digits and months and days of two, comparing ISO
    dates as text is comparing them as dates. *)
Lemma isoformat_compare (a b : date) :
  0 <= year a <= 9999 -> 0 <= year b <= 9999 ->
  0 <= month a <= 99 -> 0 <= month b <= 99 ->
  0 <= day a <= 99 -> 0 <= day b <= 99 ->
  String.compare (isoformat a) (isoformat b) = date_compare a b.
Proof.
  intros Hya Hyb Hma Hmb Hda Hdb.
  unfold isoformat, pad4, pad2. rewrite !string_app_cons, !string_app_nil.
  rewrite !string_compare_cons, !ascii_compare_refl.
  rewrite !ascii_compare_digit by (apply digit_bounds || apply digit_bounds_0).
  change (String.compare "" "") with Eq.
  rewrite lex_four_digits by done.
  rewrite !lex_two_digits by done.
  unfold date_compare. cbn [lex]. f_equal. f_equal.
  by destruct (day a ?= day b).
Qed.

Lemma string_leb_compare s t : String.leb s t = true <-> String.compare s t <> Gt.
Proof. unfold String.leb. by destruct (String.compare s t). Qed.

Lemma valid_date_bounds d :
  valid_date d = true ->
  1 <= year d <= 9999 /\ 1 <= month d <= 12
  /\ 1 <= day d <= days_in_month (year d) (month d).
Proof.
  unfold valid_date, MINYEAR, MAXYEAR. rewrite !andb_true_iff, !Z.leb_le. lia.
Qed.

(** The dates between the first and the last day of a month, as text,
    are the dates of that month. *)
Lemma between_month y m dd row :
  1 <= y <= 9999 -> 1 <= m <= 12 ->
  valid_date dd = true ->
  Entry.work_date row = isoformat dd ->
  between (isoformat {| year := y; month := m; day := 1 |})
    (isoformat {| year := y; month := m; day := days_in_month y m |}) row = true
  <-> year dd = y /\ month dd = m.
Proof.
  intros Hy Hm Hv Hw. apply valid_date_bounds in Hv as (Hyd & Hmd & Hdd).
  pose proof (days_in_month_range y m).
  pose proof (days_in_month_range (year dd) (month dd)).
  unfold between. rewrite Hw, andb_true_iff, !string_leb_compare.
  rewrite !isoformat_compare by (simpl; lia).
  unfold date_compare. cbn [lex year month day].
  destruct (Z.compare_spec y (year dd)) as [Ey|Ly|Gy];
    destruct (Z.compare_spec (year dd) y) as [Ey'|Ly'|Gy']; try lia; cbn [lex];
    try (split; [intros [? ?]; done|lia]).
  destruct (Z.compare_spec m (month dd)) as [Em|Lm|Gm];
    destruct (Z.compare_spec (month dd) m) as [Em'|Lm'|Gm']; try lia; cbn [lex];
    try (split; [intros [? ?]; done|lia]).
  subst y m.
  destruct (Z.compare_spec 1 (day dd));
    destruct (Z.compare_spec (day dd) (days_in_month (year dd) (month dd)));
    try lia; by split.
Qed.

(** ** Rows and totals of a report *)

Lemma select_between_perm lo hi d :
  select_between lo hi d ≡ₚ List.filter (between lo hi) (work_entries d).
Proof. unfold select_between. apply merge_sort_Permutation. Qed.

Lemma select_between_sorted lo hi d :
  StronglySorted work_date_le (select_between lo hi d).
Proof. unfold select_between. apply StronglySorted_merge_sort; apply _. Qed.

Lemma select_between_In lo hi d row :
  In row (select_between lo hi d)
  <-> In row (work_entries d)
      /\ String.leb lo (Entry.work_date row) = true
      /\ String.leb (Entry.work_date row) hi = true.
Proof.
  rewrite <- !list_elem_of_In, select_between_perm, list_elem_of_In.
  rewrite filter_In. unfold between. by rewrite andb_true_iff, list_elem_of_In.
Qed.

Lemma py_sum_fold_right (l : list Q) (a : Q) :
  (fold_left Qplus l a == a + fold_right Qplus 0 l)%Q.
Proof.
  revert a. induction l as [|x l IH]; intros a; simpl.
  - by rewrite Qplus_0_r.
  - rewrite IH. by rewrite Qplus_assoc.
Qed.

Lemma real_or_0_default (o : option Q) : (real_or_0 o == default 0%Q o)%Q.
Proof.
  destruct o as [q|]; [|done]. unfold real_or_0, py_or. simpl.
  destruct (Z.eqb_spec (Qnum q) 0) as [E|E]; simpl; [|done].
  unfold Qeq. simpl. lia.
Qed.

Lemma py_sum_sum_or_0 (col : work_entry -> option Q) (l : list work_entry) :
  (py_sum (List.map (fun r => real_or_0 (col r)) l) == sum_or_0 col l)%Q.
Proof.
  unfold py_sum. rewrite py_sum_fold_right, Qplus_0_l.
  induction l as [|x l IH]; simpl; [done|].
  by rewrite IH, real_or_0_default.
Qed.

Lemma sum_or_0_perm (col : work_entry -> option Q) (l l' : list work_entry) :
  l ≡ₚ l' -> (sum_or_0 col l == sum_or_0 col l')%Q.
Proof.
  induction 1 as [|x l l' _ IH|x y l|l l' l'' _ IH1 _ IH2]; simpl.
  - done.
  - by rewrite IH.
  - rewrite !Qplus_assoc. by rewrite (Qplus_comm (default 0%Q (col y))).
  - by rewrite IH1.
Qed.

(** The total of a column, as the report adds it over the sorted rows,
    is the rounded sum over the selected rows of the table. *)
Lemma report_total (col : work_entry -> option Q) lo hi d :
  round2 (py_sum (List.map (fun r => real_or_0 (col r)) (select_between lo hi d)))
  = round2 (sum_or_0 col (List.filter (between lo hi) (work_entries d))).
Proof.
  apply round2_proper. rewrite py_sum_sum_or_0.
  apply sum_or_0_perm, select_between_perm.
Qed.

(** ** The monthly report *)

Lemma report_start_parsed requested tod start :
  strptime_Ymd (requested ++ "-01") = Ok start ->
  report_start (Some requested) tod = Ok start.
Proof.
  intros E. unfold report_start.
  destruct requested as [|c s]; [discriminate E|]. simpl str_truthy. cbv iota.
  by rewrite E.
Qed.

(** C3 as the code has it.  For a requested month that [strptime] reads
    and that has a following month, the report, on both surfaces, covers
    the first to the last calendar day of that month, which is also what
    the rule of the specification gives; its rows are the rows of the
    table whose date lies in that range as text, each once, in ascending
    order of date; its totals are the sums over those rows of hours and
    salary, null counting as 0, rounded to two decimals.  A row dated by
    an ISO date is in the report exactly when that date is in the
    month. *)
Theorem monthly_report_spec (requested : string) (e : env) (d : db) (start : date) :
  strptime_Ymd (requested ++ "-01") = Ok start ->
  year start < MAXYEAR \/ month start < 12 ->
  let last := {| year := year start; month := month start;
                 day := days_in_month (year start) (month start) |} in
  let selected :=
    List.filter (between (isoformat start) (isoformat last)) (work_entries d) in
  exists r,
    report (Some requested) e d = (d, Template "monthly_report.html" (ReportView r))
    /\ api_report (Some requested) e d = (d, Json 200 (PReport r))
    /\ day start = 1
    /\ Report.start_date r = start
    /\ Report.end_date r = last
    /\ spec_last_day start = Ok last
    /\ Report.rows r ≡ₚ selected
    /\ (forall row,
          In row (Report.rows r)
          <-> In row (work_entries d)
              /\ String.leb (isoformat start) (Entry.work_date row) = true
              /\ String.leb (Entry.work_date row) (isoformat last) = true)
    /\ StronglySorted work_date_le (Report.rows r)
    /\ Report.total_hours r = round2 (sum_or_0 Entry.total_hours selected)
    /\ Report.total_salary r = round2 (sum_or_0 Entry.daily_salary selected)
    /\ (forall row dd,
          In row (work_entries d) ->
          Entry.work_date row = isoformat dd -> valid_date dd = true ->
          (In row (Report.rows r) <-> year dd = year start /\ month dd = month start)).
Proof.
  intros Hp Hlast last selected.
  destruct (strptime_Ymd_first_day _ _ Hp) as [Hday Hvalid].
  destruct (valid_date_bounds _ Hvalid) as (Hy & Hm & _).
  assert (Hstart : start = {| year := year start; month := month start; day := 1 |})
    by (destruct start; simpl in *; by subst).
  destruct (report_end_last_day (year start) (month start)) as [Hend Hspec];
    [done..|]. rewrite <- Hstart in Hend, Hspec.
  eexists. unfold report, api_report, monthly.
  rewrite (report_start_parsed _ _ _ Hp), bind_Ok, Hend, !bind_Ok.
  split; [reflexivity|]. split; [reflexivity|]. cbn [Report.start_date
    Report.end_date Report.rows Report.total_hours Report.total_salary].
  do 4 (split; [done|]).
  split; [apply select_between_perm|].
  split; [intros row; apply select_between_In|].
  split; [apply select_between_sorted|].
  split; [apply report_total|]. split; [apply report_total|].
  intros row dd Hin Hw Hv. rewrite select_between_In.
  rewrite <- (between_month (year start) (month start) dd row Hy Hm Hv Hw).
  unfold between. rewrite andb_true_iff, <- Hstart. fold last. tauto.
Qed.

Lemma monthly_report_spec_witness :
  exists r,
    report (Some "2024-03") Sample.morning Sample.march
    = (Sample.march, Template "monthly_report.html" (ReportView r))
    /\ List.map Entry.work_date (Report.rows r)
       = ["2024-03-01"; "2024-03-02"; "2024-03-03"]
    /\ Report.total_hours r = (47 # 2)%Q
    /\ Report.total_salary r = (235 # 2)%Q.
Proof.
  destruct (monthly_report_spec "2024-03" Sample.morning Sample.march
              {| year := 2024; month := 3; day := 1 |} eq_refl
              (or_introl eq_refl))
    as (r & Hr & _ & _ & _ & _ & _ & _ & _ & _ & Hh & Hs & _).
  exists r. split; [exact Hr|].
  split; [by injection Hr as <-|].
  rewrite Hh, Hs. split; reflexivity.
Defined.

(** C3 as stated fails: the month [9999-12] is read as a month, and its
    report raises on both surfaces; the month [0000-05] is not read, and
    its report on 2024-03-01 is that of March 2024. *)
Lemma report_month_not_resolved :
  strptime_Ymd ("9999-12" ++ "-01") = Ok {| year := 9999; month := 12; day := 1 |}
  /\ report (Some "9999-12") Sample.morning Sample.march
     = (Sample.march, Unhandled OverflowError)
  /\ api_report (Some "9999-12") Sample.morning Sample.march
     = (Sample.march, Unhandled OverflowError)
  /\ strptime_Ymd ("0000-05" ++ "-01") = Raise ValueError
  /\ exists r,
       report (Some "0000-05") Sample.morning Sample.march
       = (Sample.march, Template "monthly_report.html" (ReportView r))
       /\ Report.start_date r = {| year := 2024; month := 3; day := 1 |}
       /\ Report.end_date r = {| year := 2024; month := 3; day := 31 |}
       /\ length (Report.rows r) = 3%nat.
Proof.
  repeat split; try reflexivity.
  eexists. repeat split; reflexivity.
Qed.

(** * Properties of the rest of the application *)

(** ** The exports *)

Lemma py_sum_vals_agrees (col : work_entry -> option Q) rows v q :
  sum_agrees v q ->
  sum_agrees
    (fold_left py_add
       (List.map (fun r => py_or (of_real (col r)) (PInt 0)) rows) v)
    (fold_left Qplus (List.map (fun r => real_or_0 (col r)) rows) q).
Proof.
  revert v q. induction rows as [|r rows IH]; intros v q Hvq; [done|].
  cbn [List.map fold_left]. apply IH.
  unfold real_or_0. destruct (col r) as [x|]; cbn [of_real from_option].
  - unfold py_or. cbn [truthy]. destruct (Qnum x =? 0); cbn [negb].
    + destruct Hvq as [[Hv Hq]|Hv]; subst; [by left|by right].
    + destruct Hvq as [[Hv Hq]|Hv]; subst; by right.
  - unfold py_or. cbn [truthy].
    destruct Hvq as [[Hv Hq]|Hv]; subst; [by left|by right].
Qed.

Lemma export_total_cell (col : work_entry -> option Q) rows :
  cell_number
    (py_round2 (py_sum_vals
       (List.map (fun r => py_or (of_real (col r)) (PInt 0)) rows)))
  = Some (round2 (py_sum (List.map (fun r => real_or_0 (col r)) rows))).
Proof.
  unfold py_sum_vals, py_sum.
  destruct (py_sum_vals_agrees col rows (PInt 0) 0%Q) as [[Hv Hq]|Hv];
    [by left|rewrite Hv, Hq|rewrite Hv]; reflexivity.
Qed.

(** X1.  The two exports resolve the month as the report does: where the
    report raises they raise the same, and where it succeeds the
    spreadsheet and the document list the rows of the report in its
    order between the header and a totals line whose two numbers are the
    totals of the report; the spreadsheet has one empty line before the
    totals, the document none. *)
Theorem exports_follow_report (month : option string) (e : env) (d : db) :
  match monthly month e d with
  | Raise x => export_excel month e d = Raise x /\ export_pdf month e d = Raise x
  | Ok r =>
      exists th ts,
        let totals := [PStr "Totals"; PStr ""; PStr ""; th; PStr ""; ts] in
        cell_number th = Some (Report.total_hours r)
        /\ cell_number ts = Some (Report.total_salary r)
        /\ export_excel month e d
           = Ok {| ex_filename :=
                     "salary_report_" ++ strftime_Ym "_" (Report.start_date r) ++ ".xlsx";
                   ex_title := None;
                   ex_table :=
                     (export_header :: List.map export_line (Report.rows r)
                      ++ [[]; totals])%list |}
        /\ export_pdf month e d
           = Ok {| ex_filename :=
                     "salary_report_" ++ strftime_Ym "_" (Report.start_date r) ++ ".pdf";
                   ex_title :=
                     Some ("Monthly Report - " ++ strftime_Ym "-" (Report.start_date r));
                   ex_table :=
                     (export_header :: List.map export_line (Report.rows r)
                      ++ [totals])%list |}
  end.
Proof.
  unfold monthly, report_start, report_end, export_excel, export_pdf.
  match goal with
  | |- context [mbind _ ?m] =>
      match type of m with result date => destruct m as [start|x] end
  end; [|done].
  rewrite !bind_Ok.
  destruct (date_replace_day start 28) as [d28|x]; [|done]. rewrite !bind_Ok.
  destruct (date_add_days d28 4) as [d32|x]; [|done]. rewrite !bind_Ok.
  destruct (date_replace_day d32 1) as [next|x]; [|done]. rewrite !bind_Ok.
  destruct (date_add_days next (-1)) as [last|x]; [|done]. rewrite !bind_Ok.
  cbn [Report.rows Report.start_date Report.total_hours Report.total_salary].
  eexists _, _. cbn zeta.
  split; [apply export_total_cell|]. split; [apply export_total_cell|].
  split.
  - unfold mret, result_ret. do 2 f_equal. cbn [app].
    by rewrite <- !app_assoc.
  - unfold mret, result_ret. do 2 f_equal.
Qed.

(** ** The latest entry of a day *)

Lemma latest_max l e :
  latest l = Some e -> forall x, In x l -> Entry.id x <= Entry.id e.
Proof.
  revert e. induction l as [|a l IH]; [done|].
  intros e. cbn [latest]. destruct (latest l) as [e'|] eqn:El.
  - specialize (IH e' eq_refl).
    destruct (Z.ltb_spec (Entry.id a) (Entry.id e')); intros [= <-] x [<-|Hx];
      try lia; specialize (IH x Hx); lia.
  - apply latest_None in El as ->. intros [= <-] x [<-|[]]. lia.
Qed.

Lemma latest_snoc l x :
  (forall y, In y l -> Entry.id y < Entry.id x) -> latest (l ++ [x]) = Some x.
Proof.
  induction l as [|a l IH]; intros Hl; [done|].
  cbn [app latest]. rewrite IH by (intros y Hy; apply Hl; by right).
  specialize (Hl a (or_introl eq_refl)).
  by destruct (Z.ltb_spec (Entry.id a) (Entry.id x)); [|lia].
Qed.

(** X2.  The open entry of a day is, among the rows of that date with a
    null check-out, one of greatest id, and there is none exactly when no
    such row exists; the day's entry of the dashboard is likewise one of
    greatest id among all rows of that date. *)
Theorem lookups_take_greatest_id (day : date) (d : db) :
  (open_entry_for_date day d = None
   <-> forall row, In row (work_entries d) -> ~ open_on day row)
  /\ (forall row, open_entry_for_date day d = Some row ->
      In row (work_entries d) /\ open_on day row
      /\ forall other, In other (work_entries d) -> open_on day other ->
                       Entry.id other <= Entry.id row)
  /\ (get_today_entry day d = None
      <-> forall row, In row (work_entries d) -> Entry.work_date row <> isoformat day)
  /\ (forall row, get_today_entry day d = Some row ->
      In row (work_entries d) /\ Entry.work_date row = isoformat day
      /\ forall other, In other (work_entries d) ->
                       Entry.work_date other = isoformat day ->
                       Entry.id other <= Entry.id row).
Proof.
  split; [|split; [|split]].
  - rewrite open_entry_None. split.
    + intros Hno row Hin Hop. apply Hno. by exists row.
    + intros Hno (row & Hin & Hop). by apply (Hno row).
  - intros row E. destruct (open_entry_Some _ _ _ E) as [Hin Hop].
    split; [done|]. split; [done|]. intros other Ho Hoo.
    apply (latest_max _ _ E). apply filter_In. split; [done|].
    by apply is_open_on_true.
  - unfold get_today_entry. rewrite latest_None. split.
    + intros E row Hin Hw.
      assert (Hf : In row (List.filter
                    (fun e => String.eqb (Entry.work_date e) (isoformat day))
                    (work_entries d)))
        by (apply filter_In; split; [done|by apply String.eqb_eq]).
      rewrite E in Hf. destruct Hf.
    + intros Hno. destruct (List.filter _ _) as [|row l] eqn:E; [done|].
      assert (Hf : In row (List.filter
                    (fun e => String.eqb (Entry.work_date e) (isoformat day))
                    (work_entries d))) by (rewrite E; by left).
      apply filter_In in Hf as [Hin Hw]. apply String.eqb_eq in Hw.
      by destruct (Hno row Hin).
  - unfold get_today_entry. intros row E.
    pose proof (latest_In _ _ E) as Hf. apply filter_In in Hf as [Hin Hw].
    apply String.eqb_eq in Hw. split; [done|]. split; [done|].
    intros other Ho Hw'. apply (latest_max _ _ E). apply filter_In.
    split; [done|by apply String.eqb_eq].
Qed.

Lemma lookups_take_greatest_id_witness :
  In (checked_in_row 1 Sample.morning 5) (work_entries Sample.checked_in)
  /\ open_on Sample.march1 (checked_in_row 1 Sample.morning 5)
  /\ forall other, In other (work_entries Sample.checked_in) ->
                   open_on Sample.march1 other -> Entry.id other <= 1.
Proof.
  exact (proj1 (proj2 (lookups_take_greatest_id Sample.march1 Sample.checked_in))
           (checked_in_row 1 Sample.morning 5) eq_refl).
Defined.

(** ** Days *)

Lemma string_compare_refl (s : string) : String.compare s s = Eq.
Proof.
  induction s as [|c s IH]; [done|].
  rewrite string_compare_cons, ascii_compare_refl. exact IH.
Qed.

Lemma isoformat_inj (a b : date) :
  valid_date a = true -> valid_date b = true ->
  isoformat a = isoformat b -> a = b.
Proof.
  intros Ha Hb E.
  apply valid_date_bounds in Ha as (Hya & Hma & Hda).
  apply valid_date_bounds in Hb as (Hyb & Hmb & Hdb).
  pose proof (days_in_month_range (year a) (month a)).
  pose proof (days_in_month_range (year b) (month b)).
  assert (Hc : String.compare (isoformat a) (isoformat b) = Eq)
    by (rewrite E; apply string_compare_refl).
  rewrite isoformat_compare in Hc by lia. unfold date_compare, lex in Hc.
  destruct (Z.compare_spec (year a) (year b)); try done.
  destruct (Z.compare_spec (month a) (month b)); try done.
  apply Z.compare_eq in Hc. destruct a, b. simpl in *. by subst.
Qed.

Lemma date_succ_valid d :
  valid_date d = true ->
  year d < MAXYEAR \/ month d < 12 \/ day d < 31 ->
  valid_date (date_succ d) = true.
Proof.
  intros Hv Hlast. apply valid_date_bounds in Hv as (Hy & Hm & Hd).
  pose proof (days_in_month_range (year d) (month d)).
  unfold date_succ, valid_date, MINYEAR, MAXYEAR in *.
  destruct (Z.ltb_spec (day d) (days_in_month (year d) (month d))); cbn [year month day].
  - by zbool.
  - destruct (Z.ltb_spec (month d) 12); cbn [year month day].
    + pose proof (days_in_month_range (year d) (month d + 1)). by zbool.
    + pose proof (days_in_month_range (year d + 1) 1).
      assert (month d = 12) as E12 by lia.
      assert (days_in_month (year d) (month d) = 31)
        by (rewrite E12; reflexivity).
      by zbool.
Qed.

Lemma date_pred_succ d :
  valid_date d = true -> date_pred (date_succ d) = d.
Proof.
  intros Hv. apply valid_date_bounds in Hv as (Hy & Hm & Hd).
  destruct d as [y m k]. cbn [year month day] in *.
  unfold date_succ. cbn [year month day].
  destruct (Z.ltb_spec k (days_in_month y m)).
  - unfold date_pred. cbn [year month day].
    destruct (Z.ltb_spec 1 (k + 1)); [|lia]. f_equal. lia.
  - assert (k = days_in_month y m) as -> by lia.
    change (if m <? 12 then _ else _) with (next_month_first y m).
    by apply date_pred_first.
Qed.

(** The day before the day after [d] is [d]. *)
Lemma yesterday_of_tomorrow d :
  valid_date d = true -> date_add_days (date_succ d) (-1) = Ok d.
Proof.
  intros Hv. apply date_add_days_Ok.
  - unfold date_shift. cbn. by apply date_pred_succ.
  - apply valid_date_bounds in Hv. unfold MINYEAR, MAXYEAR. lia.
Qed.

(** ** A day of work, on both surfaces *)

Section Day.
Context `{FloatText}.

Lemma check_in_after e d r :
  open_entry_for_date (today e) d = None -> default_rate d = Ok r ->
  (check_in e d).1 = after_check_in e r d
  /\ (api_check_in e d).1 = after_check_in e r d.
Proof.
  intros Ho Hr.
  by rewrite (check_in_fresh e d r Ho Hr), (api_check_in_fresh e d r Ho Hr).
Qed.

Lemma filter_date_snoc (p : string -> work_entry -> bool) day l x :
  List.filter (p day) (l ++ [x])
  = (List.filter (p day) l ++ (if p day x then [x] else []))%list.
Proof. rewrite List.filter_app. cbn [List.filter]. by destruct (p day x). Qed.

Lemma open_after_check_in e r d :
  open_entry_for_date (today e) d = None ->
  open_entry_for_date (today e) (after_check_in e r d)
  = Some (checked_in_row (sqlite_sequence d + 1) e r).
Proof.
  unfold open_entry_for_date. intros Ho. apply latest_None in Ho.
  cbn [work_entries after_check_in]. rewrite List.filter_app, Ho.
  cbn [List.filter app checked_in_row]. unfold is_open_on.
  cbn [Entry.work_date Entry.check_out]. by rewrite String.eqb_refl.
Qed.

Lemma open_after_check_in_other_day e r d day :
  isoformat (today e) <> isoformat day ->
  open_entry_for_date day (after_check_in e r d) = open_entry_for_date day d.
Proof.
  intros Hne. unfold open_entry_for_date. cbn [work_entries after_check_in].
  rewrite List.filter_app. cbn [List.filter]. unfold is_open_on at 2.
  cbn [checked_in_row Entry.work_date].
  destruct (String.eqb_spec (isoformat (today e)) (isoformat day)); [done|].
  cbn [andb]. by rewrite app_nil_r.
Qed.

Lemma today_after_check_in e r d :
  wf_db d = true ->
  get_today_entry (today e) (after_check_in e r d)
  = Some (checked_in_row (sqlite_sequence d + 1) e r).
Proof.
  intros Hwf. apply wf_db_iff in Hwf as (_ & Hle & _).
  unfold get_today_entry. cbn [work_entries after_check_in].
  rewrite List.filter_app. cbn [List.filter checked_in_row Entry.work_date].
  rewrite String.eqb_refl. apply latest_snoc.
  intros y Hy. apply filter_In in Hy as [Hy _]. specialize (Hle y Hy).
  simpl. lia.
Qed.

Lemma check_out_closes e e' d r :
  wf_db d = true ->
  open_entry_for_date (today e) d = None ->
  Qnum r <> 0 ->
  today e' = today e ->
  time_of_day (now e) -> time_of_day (now e') ->
  check_out e' (after_check_in e r d)
  = (after_work e e' r d,
     Redirect "home" ("Checked out at " ++ strftime_HM (now e')) "success")
  /\ api_check_out e' (after_check_in e r d)
     = (after_work e e' r d,
        Json 200 (PCheckedOut (strftime_HM (now e')) (elapsed (now e) (now e'))
                    (round2 (elapsed (now e) (now e') * r)))).
Proof.
  intros Hwf Ho Hnz Hday (D & Hh & Hm) (D' & Hh' & Hm').
  set (new := checked_in_row (sqlite_sequence d + 1) e r).
  assert (Ho1 : open_entry_for_date (today e') (after_check_in e r d) = Some new)
    by (rewrite Hday; by apply open_after_check_in).
  assert (Hhs : hours_since (Entry.check_in new) (strftime_HM (now e'))
                = Ok (elapsed (now e) (now e'))).
  { cbn [hours_since new checked_in_row Entry.check_in].
    apply compute_total_hours_parsed; by apply strptime_strftime_HM. }
  assert (Hrate : check_out_rate new (after_check_in e r d) = Ok r).
  { rewrite check_out_rate_cases. cbn [new checked_in_row Entry.hourly_rate].
    by destruct (Z.eqb_spec (Qnum r) 0). }
  destruct (check_out_run e' _ new _ r Ho1 Hhs Hrate) as [-> ->].
  assert (Hd : update_entry (Entry.id new)
                 (set_checked_out (strftime_HM (now e')) (elapsed (now e) (now e'))
                    (round2 (elapsed (now e) (now e') * r)))
                 (after_check_in e r d)
               = after_work e e' r d).
  { unfold update_entry, after_work.
    cbn [settings work_entries sqlite_sequence after_check_in].
    f_equal. rewrite List.map_app. f_equal.
    - apply wf_db_iff in Hwf as (_ & Hle & _).
      rewrite <- (map_id (work_entries d)) at 2. apply map_ext_in. intros x Hx.
      specialize (Hle x Hx). cbn [new checked_in_row Entry.id].
      destruct (Z.eqb_spec (Entry.id x) (sqlite_sequence d + 1)); [lia|done].
    - cbn [List.map new checked_in_row Entry.id]. by rewrite Z.eqb_refl. }
  by rewrite Hd.
Qed.

Lemma no_open_after_work e e' r d :
  open_entry_for_date (today e) d = None ->
  open_entry_for_date (today e) (after_work e e' r d) = None.
Proof.
  unfold open_entry_for_date. rewrite !latest_None. intros Ho.
  cbn [work_entries after_work]. rewrite List.filter_app, Ho.
  cbn [List.filter app]. unfold is_open_on.
  cbn [worked_row Entry.check_out]. by rewrite andb_false_r.
Qed.

Lemma default_rate_settings d d' :
  settings d' = settings d -> default_rate d' = default_rate d.
Proof. intros E. unfold default_rate, get_setting. by rewrite E. Qed.

End Day.

(** X3.  A check-in on a day without an open entry, followed by a
    check-out on the same day, on either surface, leaves exactly one more
    row: it carries both readings of the clock as printed, the hours
    elapsed between them and the salary at the rate stored at check-in;
    every other row and the settings are as before. *)
Theorem day_of_work `{FloatText} (e e' : env) (d : db) (r : Q) :
  wf_db d = true ->
  open_entry_for_date (today e) d = None ->
  default_rate d = Ok r -> Qnum r <> 0 ->
  today e' = today e ->
  time_of_day (now e) -> time_of_day (now e') ->
  check_out e' (check_in e d).1
  = (after_work e e' r d,
     Redirect "home" ("Checked out at " ++ strftime_HM (now e')) "success")
  /\ api_check_out e' (api_check_in e d).1
     = (after_work e e' r d,
        Json 200 (PCheckedOut (strftime_HM (now e')) (elapsed (now e) (now e'))
                    (round2 (elapsed (now e) (now e') * r)))).
Proof.
  intros Hwf Ho Hr Hnz Hday Ht Ht'.
  destruct (check_in_after e d r Ho Hr) as [-> ->].
  by apply check_out_closes.
Qed.

Lemma day_of_work_witness :
  check_out (H:=decimal_text) Sample.evening
    (check_in (H:=decimal_text) Sample.morning Sample.fresh).1
  = ({| settings := settings Sample.fresh;
        work_entries :=
          [ {| Entry.id := 1; Entry.work_date := "2024-03-01";
               Entry.check_in := Some "09:05"; Entry.check_out := Some "17:35";
               Entry.total_hours := Some (17 # 2)%Q;
               Entry.hourly_rate := Some 5%Q;
               Entry.daily_salary := Some (85 # 2)%Q |} ];
        sqlite_sequence := 1 |},
     Redirect "home" "Checked out at 17:35" "success").
Proof.
  refine (eq_trans (proj1 (day_of_work (H:=decimal_text) Sample.morning Sample.evening
                             Sample.fresh 5 eq_refl eq_refl eq_refl _ eq_refl _ _)) _).
  - discriminate.
  - unfold time_of_day. simpl. lia.
  - unfold time_of_day. simpl. lia.
  - reflexivity.
Defined.

(** X4.  After that check-out no entry of the day is open: a further
    check-in on the same day is accepted and adds a second row for the
    date, under the next id. *)
Theorem second_session `{FloatText} (e e' e'' : env) (d : db) (r : Q) :
  wf_db d = true ->
  open_entry_for_date (today e) d = None ->
  default_rate d = Ok r -> Qnum r <> 0 ->
  today e' = today e -> today e'' = today e ->
  time_of_day (now e) -> time_of_day (now e') ->
  check_in e'' (check_out e' (check_in e d).1).1
  = ({| settings := settings d;
        work_entries :=
          (work_entries d
           ++ [worked_row (sqlite_sequence d + 1) e e' r;
               checked_in_row (sqlite_sequence d + 2) e'' r])%list;
        sqlite_sequence := sqlite_sequence d + 2 |},
     Redirect "home" ("Checked in at " ++ strftime_HM (now e'')) "success").
Proof.
  intros Hwf Ho Hr Hnz Hday Hday'' Ht Ht'.
  destruct (check_in_after e d r Ho Hr) as [-> _].
  destruct (check_out_closes e e' d r Hwf Ho Hnz Hday Ht Ht') as [-> _]. cbn [fst].
  rewrite (check_in_fresh e'' (after_work e e' r d) r).
  - cbn [settings work_entries sqlite_sequence after_work].
    rewrite <- app_assoc. cbn [app].
    by replace (sqlite_sequence d + 1 + 1) with (sqlite_sequence d + 2) by lia.
  - rewrite Hday''. by apply no_open_after_work.
  - by rewrite (default_rate_settings d (after_work e e' r d)).
Qed.

Lemma second_session_witness :
  (check_in (H:=decimal_text) Sample.evening
     (check_out (H:=decimal_text) Sample.evening
        (check_in (H:=decimal_text) Sample.morning Sample.fresh).1).1).2
  = Redirect "home" "Checked in at 17:35" "success".
Proof.
  rewrite (second_session (H:=decimal_text) Sample.morning Sample.evening Sample.evening
             Sample.fresh 5 eq_refl eq_refl eq_refl).
  - reflexivity.
  - discriminate.
  - reflexivity.
  - reflexivity.
  - unfold time_of_day. simpl. lia.
  - unfold time_of_day. simpl. lia.
Defined.

(** X5.  After a check-in, the day's status of the API shows the new
    entry as the entry of the day with the default rate, and so does the
    dashboard wherever it is rendered. *)
Theorem status_after_check_in `{FloatText} (e e' : env) (d : db) (r : Q) :
  wf_db d = true ->
  open_entry_for_date (today e) d = None ->
  default_rate d = Ok r ->
  today e' = today e ->
  let new := checked_in_row (sqlite_sequence d + 1) e r in
  api_today e' (api_check_in e d).1
  = Ok {| ts_today := isoformat (today e);
          ts_entry := Some new;
          ts_default_rate := r |}
  /\ forall page,
       home e' (check_in e d).1 = Ok page ->
       hp_today_entry page = Some new
       /\ hp_default_rate page = r
       /\ hp_today page = today e.
Proof.
  intros Hwf Ho Hr Hday new.
  destruct (check_in_after e d r Ho Hr) as [-> ->].
  assert (Hr' : default_rate (after_check_in e r d) = Ok r)
    by (by rewrite (default_rate_settings d)).
  split.
  - unfold api_today. rewrite Hr', bind_Ok, Hday.
    by rewrite (today_after_check_in e r d Hwf).
  - intros page. unfold home. rewrite Hr', bind_Ok, Hday.
    destruct (date_add_days (today e) (-1)) as [y|x]; [|done].
    rewrite bind_Ok. intros [= <-]. cbn [hp_today_entry hp_default_rate hp_today].
    by rewrite (today_after_check_in e r d Hwf).
Qed.

Lemma status_after_check_in_witness :
  api_today (H:=decimal_text) Sample.evening
    (api_check_in (H:=decimal_text) Sample.morning Sample.fresh).1
  = Ok {| ts_today := "2024-03-01";
          ts_entry := Some (checked_in_row 1 Sample.morning 5);
          ts_default_rate := 5 |}.
Proof.
  exact (proj1 (status_after_check_in (H:=decimal_text) Sample.morning Sample.evening
                  Sample.fresh 5 eq_refl eq_refl eq_refl eq_refl)).
Defined.

(** X6.  A check-out only looks at the entries of its own date: after a
    check-in on one day, a check-out on another day that has no open
    entry of its own is refused on both surfaces, and the entry stays
    open.  A shift that ends after midnight is not closed by the
    check-out of the next day. *)
Theorem check_out_only_same_day `{FloatText} (e e' : env) (d : db) (r : Q) :
  valid_date (today e) = true -> valid_date (today e') = true ->
  today e' <> today e ->
  open_entry_for_date (today e) d = None ->
  open_entry_for_date (today e') d = None ->
  default_rate d = Ok r ->
  let d1 := (check_in e d).1 in
  check_out e' d1 = (d1, Redirect "home" "No open check-in for today." "warning")
  /\ api_check_out e' d1 = (d1, Json 400 (PError "no_open_entry"))
  /\ open_entry_for_date (today e) d1
     = Some (checked_in_row (sqlite_sequence d + 1) e r).
Proof.
  intros Hv Hv' Hne Ho Ho' Hr d1. subst d1.
  destruct (check_in_after e d r Ho Hr) as [-> _].
  assert (Hiso : isoformat (today e) <> isoformat (today e')).
  { intros E. apply Hne. symmetry. by apply isoformat_inj. }
  pose proof (open_after_check_in_other_day e r d (today e') Hiso) as Hother.
  rewrite Ho' in Hother.
  unfold check_out, api_check_out. rewrite Hother.
  split; [done|]. split; [done|]. by apply open_after_check_in.
Qed.

Lemma check_out_only_same_day_witness :
  check_out (H:=decimal_text)
    {| today := {| year := 2024; month := 3; day := 2 |};
       now := {| dt_day := 0; dt_hour := 6; dt_minute := 0 |} |}
    Sample.checked_in
  = (Sample.checked_in, Redirect "home" "No open check-in for today." "warning").
Proof.
  refine (proj1 (check_out_only_same_day (H:=decimal_text) Sample.morning
                   {| today := {| year := 2024; month := 3; day := 2 |};
                      now := {| dt_day := 0; dt_hour := 6; dt_minute := 0 |} |}
                   Sample.fresh 5 eq_refl eq_refl _ eq_refl eq_refl eq_refl)).
  discriminate.
Defined.

(** X7.  An entry left open on a day is reported by the dashboard of the
    next day as a forgotten check-in, and does not stand in the way of
    the next day's check-in, which is accepted. *)
Theorem forgotten_check_in `{FloatText} (e e' : env) (d : db) (r : Q) :
  wf_db d = true ->
  valid_date (today e) = true ->
  year (today e) < MAXYEAR \/ month (today e) < 12 \/ day (today e) < 31 ->
  today e' = date_succ (today e) ->
  open_entry_for_date (today e) d = None ->
  open_entry_for_date (today e') d = None ->
  default_rate d = Ok r ->
  let d1 := (check_in e d).1 in
  let new := checked_in_row (sqlite_sequence d + 1) e r in
  home e' d1
  = Ok {| hp_default_rate := r;
          hp_today_entry := get_today_entry (today e') d;
          hp_forgotten_open := Some new;
          hp_today := today e' |}
  /\ check_in e' d1
     = (after_check_in e' r d1,
        Redirect "home" ("Checked in at " ++ strftime_HM (now e')) "success").
Proof.
  intros Hwf Hv Hlast Hday Ho Ho' Hr d1 new. subst d1 new.
  destruct (check_in_after e d r Ho Hr) as [-> _].
  assert (Hv' : valid_date (today e') = true)
    by (rewrite Hday; by apply date_succ_valid).
  assert (Hiso : isoformat (today e) <> isoformat (today e')).
  { intros E. apply isoformat_inj in E; [|done..].
    rewrite Hday in E. apply valid_date_bounds in Hv.
    destruct (today e) as [y m k]. unfold date_succ in E. cbn [year month day] in *.
    destruct (k <? days_in_month y m); [injection E; lia|].
    destruct (m <? 12); injection E; lia. }
  assert (Hr' : default_rate (after_check_in e r d) = Ok r)
    by (by rewrite (default_rate_settings d)).
  split.
  - unfold home. rewrite Hr', bind_Ok, Hday, (yesterday_of_tomorrow _ Hv), bind_Ok.
    rewrite <- Hday. rewrite (open_after_check_in e r d Ho).
    unfold mret, result_ret. do 2 f_equal.
    unfold get_today_entry. cbn [work_entries after_check_in].
    rewrite List.filter_app. cbn [List.filter checked_in_row Entry.work_date].
    destruct (String.eqb_spec (isoformat (today e)) (isoformat (today e'))); [done|].
    by rewrite app_nil_r.
  - apply check_in_fresh; [|done].
    rewrite (open_after_check_in_other_day e r d (today e') Hiso). exact Ho'.
Qed.

Lemma forgotten_check_in_witness :
  exists page,
    home (H:=decimal_text)
      {| today := {| year := 2024; month := 3; day := 2 |};
         now := {| dt_day := 0; dt_hour := 8; dt_minute := 0 |} |}
      Sample.checked_in = Ok page
    /\ hp_forgotten_open page = Some (checked_in_row 1 Sample.morning 5).
Proof.
  eexists. split.
  - exact (proj1 (forgotten_check_in (H:=decimal_text) Sample.morning
                    {| today := {| year := 2024; month := 3; day := 2 |};
                       now := {| dt_day := 0; dt_hour := 8; dt_minute := 0 |} |}
                    Sample.fresh 5 eq_refl eq_refl (or_introl eq_refl) eq_refl
                    eq_refl eq_refl eq_refl)).
  - reflexivity.
Defined.

(** ** Ids are not handed out twice *)

Section Retired.
Context `{FloatText}.

Lemma retired_insert rid mk d :
  (forall rowid, Entry.id (mk rowid) = rowid) ->
  retired rid d -> retired rid (insert_entry mk d).
Proof.
  intros Hmk [Hle Hno]. split; cbn [insert_entry sqlite_sequence work_entries]; [lia|].
  intros row Hin. apply in_app_iff in Hin as [Hin|[<-|[]]]; [by apply Hno|].
  rewrite Hmk. lia.
Qed.

Lemma retired_update rid rid' set d :
  (forall x, Entry.id (set x) = Entry.id x) ->
  retired rid d -> retired rid (update_entry rid' set d).
Proof.
  intros Hset [Hle Hno]. split; [done|].
  cbn [update_entry work_entries]. intros row Hin.
  apply in_map_iff in Hin as (x & <- & Hx). specialize (Hno x Hx).
  destruct (Entry.id x =? rid'); [by rewrite Hset|done].
Qed.

Lemma retired_delete rid rid' d : retired rid d -> retired rid (delete_entry rid' d).
Proof.
  intros [Hle Hno]. split; [done|]. cbn [delete_entry work_entries].
  intros row Hin. apply filter_In in Hin as [Hin _]. by apply Hno.
Qed.

Lemma retired_run rid op d : retired rid d -> retired rid (run op d).1.
Proof.
  intros Hret. destruct op as [form|e|e|e|e|form|rid' form|rid']; simpl.
  - unfold update_default_rate. destruct (py_float _) as [q|[]]; simpl; done.
  - unfold check_in. destruct (open_entry_for_date _ d); [done|].
    destruct (default_rate d); simpl; [|done]. by apply retired_insert.
  - unfold api_check_in. destruct (open_entry_for_date _ d); [done|].
    destruct (default_rate d); simpl; [|done]. by apply retired_insert.
  - unfold check_out. destruct (open_entry_for_date _ d); [|done].
    destruct (hours_since _ _); simpl; [|done].
    destruct (py_float _); simpl; [|done]. by apply retired_update.
  - unfold api_check_out. destruct (open_entry_for_date _ d); [|done].
    destruct (hours_since _ _); simpl; [|done].
    destruct (py_float _); simpl; [|done]. by apply retired_update.
  - unfold add_record. destruct (form_rate form d); simpl; [|done].
    match goal with
    | |- context [(if ?c then ?a else ?b) ≫= _] =>
        destruct (if c then a else b) as [[th ds]|x]
    end; simpl; [|done].
    by apply retired_insert.
  - unfold edit_record. destruct (select_by_id rid' d); [|done].
    destruct (form_rate form d); simpl; [|done].
    match goal with
    | |- context [(if ?c then ?a else ?b) ≫= _] =>
        destruct (if c then a else b) as [[th ds]|x]
    end; simpl; [|done].
    by apply retired_update.
  - by apply retired_delete.
Qed.

Lemma retired_run_all rid ops d : retired rid d -> retired rid (run_all ops d).
Proof.
  revert d. induction ops as [|op ops IH]; intros d Hret; [done|].
  cbn [run_all]. apply IH. by apply retired_run.
Qed.

End Retired.

(** X8.  Ids are not handed out twice: once the record of an id the
    table has handed out is deleted, no later operation, whatever it is,
    brings a row of that id back; editing that id answers 404 and writes
    nothing, for ever. *)
Theorem deleted_id_stays_gone `{FloatText}
    (record_id : Z) (d : db) (ops : list operation) :
  record_id <= sqlite_sequence d ->
  let d' := run_all ops (delete_record record_id d).1 in
  (forall row, In row (work_entries d') -> Entry.id row <> record_id)
  /\ forall m form, edit_record record_id m form d' = (d', Abort 404).
Proof.
  intros Hle d'.
  assert (Hret : retired record_id d').
  { apply retired_run_all. split; [done|].
    cbn [delete_record fst delete_entry work_entries]. intros row Hin.
    apply filter_In in Hin as [_ Hne]. by apply negb_true_iff, Z.eqb_neq in Hne. }
  destruct Hret as [_ Hno]. split; [done|].
  intros m form. apply select_by_id_None in Hno. unfold edit_record. by rewrite Hno.
Qed.

Lemma deleted_id_stays_gone_witness :
  edit_record (H:=decimal_text) 1 POST
    (Sample.record_form "2024-03-01" "09:00" "17:00" "5")
    (run_all (H:=decimal_text)
       [OpAddRecord (Sample.record_form "2024-03-04" "09:00" "17:00" "5");
        OpCheckIn Sample.morning]
       (delete_record 1 Sample.march).1)
  = (run_all (H:=decimal_text)
       [OpAddRecord (Sample.record_form "2024-03-04" "09:00" "17:00" "5");
        OpCheckIn Sample.morning]
       (delete_record 1 Sample.march).1,
     Abort 404).
Proof.
  refine (proj2 (deleted_id_stays_gone (H:=decimal_text) 1 Sample.march _ _) _ _).
  vm_compute. discriminate.
Defined.

(** ** The primary key along a run *)

Lemma ids_increasing_NoDup lo l :
  ids_increasing lo l = true -> NoDup (List.map Entry.id l).
Proof.
  revert lo. induction l as [|a l IH]; intros lo Hl; cbn [List.map].
  - constructor.
  - cbn [ids_increasing] in Hl. apply andb_true_iff in Hl as [_ Hl].
    constructor; [|by eapply IH].
    rewrite list_elem_of_In. intros Hin. apply in_map_iff in Hin as (x & E & Hx).
    pose proof (ids_increasing_lower _ _ _ Hl Hx). lia.
Qed.

Lemma run_sequence `{FloatText} op d :
  sqlite_sequence d <= sqlite_sequence (run op d).1.
Proof.
  destruct op as [form|e|e|e|e|form|rid' form|rid']; simpl.
  - unfold update_default_rate. destruct (py_float _) as [q|[]]; simpl; lia.
  - unfold check_in. destruct (open_entry_for_date _ d); [simpl; lia|].
    destruct (default_rate d); simpl; lia.
  - unfold api_check_in. destruct (open_entry_for_date _ d); [simpl; lia|].
    destruct (default_rate d); simpl; lia.
  - unfold check_out. destruct (open_entry_for_date _ d); [|simpl; lia].
    destruct (hours_since _ _); simpl; [|lia].
    destruct (py_float _); simpl; lia.
  - unfold api_check_out. destruct (open_entry_for_date _ d); [|simpl; lia].
    destruct (hours_since _ _); simpl; [|lia].
    destruct (py_float _); simpl; lia.
  - unfold add_record. destruct (form_rate form d); simpl; [|lia].
    match goal with
    | |- context [(if ?c then ?a else ?b) ≫= _] =>
        destruct (if c then a else b) as [[th ds]|x]
    end; simpl; lia.
  - unfold edit_record. destruct (select_by_id rid' d); [|simpl; lia].
    destruct (form_rate form d); simpl; [|lia].
    match goal with
    | |- context [(if ?c then ?a else ?b) ≫= _] =>
        destruct (if c then a else b) as [[th ds]|x]
    end; simpl; lia.
  - lia.
Qed.

(** X9.  Whatever operations are run on a well-formed database, the
    result is well formed: no two rows share an id, every id lies between
    1 and the sequence, and the sequence never goes down.  The database
    of a fresh start is well formed. *)
Theorem primary_key_kept `{FloatText} (ops : list operation) (d : db) :
  wf_db d = true ->
  let d' := run_all ops d in
  wf_db d' = true
  /\ NoDup (List.map Entry.id (work_entries d'))
  /\ (forall row, In row (work_entries d') -> 1 <= Entry.id row <= sqlite_sequence d')
  /\ sqlite_sequence d <= sqlite_sequence d'
  /\ wf_db (ensure_default_settings empty_db) = true.
Proof.
  intros Hwf d'. subst d'.
  assert (Hall : wf_db (run_all ops d) = true
                 /\ sqlite_sequence d <= sqlite_sequence (run_all ops d)).
  { revert d Hwf. induction ops as [|op ops IH]; intros d Hwf; cbn [run_all].
    - split; [done|lia].
    - destruct (IH _ (run_wf op d Hwf)) as [Hw Hs]. split; [done|].
      pose proof (run_sequence op d). lia. }
  destruct Hall as [Hw Hs]. split; [done|].
  apply wf_db_iff in Hw as (Hinc & Hle & _).
  split; [by eapply ids_increasing_NoDup|]. split; [|split; [done|reflexivity]].
  intros row Hin. pose proof (ids_increasing_lower _ _ _ Hinc Hin).
  specialize (Hle row Hin). lia.
Qed.

Lemma primary_key_kept_witness :
  NoDup (List.map Entry.id
    (work_entries
       (run_all (H:=decimal_text)
          [OpCheckIn Sample.morning; OpCheckOut Sample.evening;
           OpDeleteRecord 2;
           OpAddRecord (Sample.record_form "2024-03-04" "09:00" "17:00" "5")]
          Sample.march))).
Proof.
  exact (proj1 (proj2 (primary_key_kept (H:=decimal_text)
    [OpCheckIn Sample.morning; OpCheckOut Sample.evening;
     OpDeleteRecord 2;
     OpAddRecord (Sample.record_form "2024-03-04" "09:00" "17:00" "5")]
    Sample.march eq_refl))).
Defined.

(** ** Records are never merged *)

(** X10.  Adding a record checks no other record: a form that was added
    once is added again when posted again, as a second row that differs
    from the first in its id only, and the rows that were there are
    untouched. *)
Theorem add_record_permits_duplicates `{FloatText}
    (form : gmap string string) (d d1 : db) :
  add_record POST form d = (d1, Redirect "report" "Record added" "success") ->
  exists row,
    work_entries d1 = (work_entries d ++ [row])%list
    /\ Entry.id row = sqlite_sequence d + 1
    /\ add_record POST form d1
       = ({| settings := settings d;
             work_entries :=
               (work_entries d
                ++ [row;
                    {| Entry.id := sqlite_sequence d + 2;
                       Entry.work_date := Entry.work_date row;
                       Entry.check_in := Entry.check_in row;
                       Entry.check_out := Entry.check_out row;
                       Entry.total_hours := Entry.total_hours row;
                       Entry.hourly_rate := Entry.hourly_rate row;
                       Entry.daily_salary := Entry.daily_salary row |}])%list;
             sqlite_sequence := sqlite_sequence d + 2 |},
          Redirect "report" "Record added" "success").
Proof.
  unfold add_record.
  destruct (form_rate form d) as [rate|x] eqn:Hr; rewrite ?bind_Ok; [|done].
  match goal with
  | |- context [(if ?c then ?a else ?b) ≫= _] =>
      destruct (if c then a else b) as [[th ds]|x] eqn:Ec
  end; [|done].
  rewrite bind_Ok. cbn [respond]. unfold mret, result_ret. intros [= <-].
  eexists. split; [reflexivity|]. split; [reflexivity|].
  assert (Hr1 : forall mk, form_rate form (insert_entry mk d) = Ok rate)
    by (intros mk; exact Hr).
  rewrite Hr1, bind_Ok. cbv beta. unfold mret, result_ret in Ec.
  rewrite Ec, bind_Ok. cbn [respond]. f_equal.
  unfold insert_entry. cbn [settings work_entries sqlite_sequence Entry.work_date
    Entry.check_in Entry.check_out Entry.total_hours Entry.hourly_rate
    Entry.daily_salary].
  rewrite <- app_assoc. cbn [app].
  by replace (sqlite_sequence d + 1 + 1) with (sqlite_sequence d + 2) by lia.
Qed.

Lemma add_record_permits_duplicates_witness :
  exists row,
    work_entries
      (add_record (H:=decimal_text) POST
         (Sample.record_form "2024-03-01" "09:00" "17:00" "5.0") Sample.fresh).1
    = (work_entries Sample.fresh ++ [row])%list
    /\ List.length
         (work_entries
            (add_record (H:=decimal_text) POST
               (Sample.record_form "2024-03-01" "09:00" "17:00" "5.0")
               (add_record (H:=decimal_text) POST
                  (Sample.record_form "2024-03-01" "09:00" "17:00" "5.0")
                  Sample.fresh).1).1)
       = 2%nat.
Proof.
  destruct (add_record_permits_duplicates (H:=decimal_text)
              (Sample.record_form "2024-03-01" "09:00" "17:00" "5.0") Sample.fresh
              (add_record (H:=decimal_text) POST
                 (Sample.record_form "2024-03-01" "09:00" "17:00" "5.0")
                 Sample.fresh).1 eq_refl) as (row & Hrows & _ & Htwice).
  exists row. split; [exact Hrows|]. rewrite Htwice. reflexivity.
Defined.

(** ** The range of the hours *)

Lemma strptime_HM_Raise s x : strptime_HM s = Raise x -> x = ValueError.
Proof.
  unfold strptime_HM.
  destruct (m_run _ s) as [[h m]|y] eqn:E; [done|].
  unfold m_run in E. intros [= <-].
  destruct (m_bind _ _ s) as [|[[h m] [|? ?]] l]; congruence.
Qed.

(** X11.  [compute_total_hours] raises nothing but [ValueError], and only
    when [strptime] refuses one of the two strings.  Otherwise the hours
    are at least 0 and below 24, and they are 0 exactly when the two
    clock times are the same: a check-out at the minute of the check-in
    counts as no time at all, never as a full day. *)
Theorem compute_total_hours_range (s1 s2 : string) :
  match compute_total_hours s1 s2 with
  | Ok h =>
      exists t1 t2,
        strptime_HM s1 = Ok t1 /\ strptime_HM s2 = Ok t2
        /\ (0 <= h)%Q /\ (h < 24)%Q
        /\ ((h == 0)%Q <-> dt_hour t1 = dt_hour t2 /\ dt_minute t1 = dt_minute t2)
  | Raise x =>
      x = ValueError
      /\ (strptime_HM s1 = Raise ValueError \/ strptime_HM s2 = Raise ValueError)
  end.
Proof.
  destruct (strptime_HM s1) as [t1|x1] eqn:H1.
  - destruct (strptime_HM s2) as [t2|x2] eqn:H2.
    + rewrite (compute_total_hours_minutes _ _ _ _ H1 H2).
      destruct (strptime_HM_range _ _ H1) as (D1 & Hh1 & Hm1).
      destruct (strptime_HM_range _ _ H2) as (D2 & Hh2 & Hm2).
      exists t1, t2. split; [done|]. split; [done|].
      rewrite !Qred_correct. unfold Qle, Qlt, Qeq. cbn [Qnum Qden].
      repeat split; Z.to_euclidean_division_equations; lia.
    + apply strptime_HM_Raise in H2 as E. subst x2.
      unfold compute_total_hours. rewrite H1, bind_Ok, H2. split; [done|by right].
  - apply strptime_HM_Raise in H1 as E. subst x1.
    unfold compute_total_hours. rewrite H1. split; [done|by left].
Qed.

(** X12.  Between two different clock times the hours in one direction
    and the hours in the other add up to 24, rounding included. *)
Theorem compute_total_hours_complement (s1 s2 : string) (t1 t2 : datetime) :
  strptime_HM s1 = Ok t1 ->
  strptime_HM s2 = Ok t2 ->
  t1 <> t2 ->
  exists h h',
    compute_total_hours s1 s2 = Ok h
    /\ compute_total_hours s2 s1 = Ok h'
    /\ (h + h' == 24)%Q.
Proof.
  intros H1 H2 Hne.
  destruct (strptime_HM_range _ _ H1) as (D1 & Hh1 & Hm1).
  destruct (strptime_HM_range _ _ H2) as (D2 & Hh2 & Hm2).
  assert (Hd : dt_hour t1 <> dt_hour t2 \/ dt_minute t1 <> dt_minute t2).
  { destruct t1 as [d1 h1 m1], t2 as [d2 h2 m2]. cbn in *.
    destruct (decide (h1 = h2)) as [->|]; [|by left].
    destruct (decide (m1 = m2)) as [->|]; [|by right].
    congruence. }
  eexists _, _. split; [by apply compute_total_hours_minutes|].
  split; [by apply compute_total_hours_minutes|].
  rewrite !Qred_correct. unfold Qeq, Qplus. cbn [Qnum Qden].
  Z.to_euclidean_division_equations; lia.
Qed.

Lemma compute_total_hours_complement_witness :
  exists h h',
    compute_total_hours "09:00" "17:05" = Ok h
    /\ compute_total_hours "17:05" "09:00" = Ok h'
    /\ (h + h' == 24)%Q.
Proof.
  apply (compute_total_hours_complement "09:00" "17:05"
           {| dt_day := 0; dt_hour := 9; dt_minute := 0 |}
           {| dt_day := 0; dt_hour := 17; dt_minute := 5 |});
    [reflexivity|reflexivity|discriminate].
Defined.

(** ** Changing the default rate *)

(** X13.  A rate the form parses to, and which [str] prints as a
    non-empty text that [float] reads back, becomes the default rate: the
    rows and the id sequence are untouched, the next check-in on either
    surface stores the new rate, and an entry that was open before the
    change with a non-zero rate of its own is checked out exactly as it
    would have been without the change. *)
Theorem rate_change_applies_to_new_entries `{FloatText}
    (form : gmap string string) (d : db) (q : Q) :
  float_of_string (strip (form_get form "hourly_rate" "0")) = Some q ->
  float_of_string (str_of_float q) = Some q ->
  str_of_float q <> "" ->
  let d' := (update_default_rate form d).1 in
  (update_default_rate form d).2
  = Redirect "home" "Default hourly rate updated" "success"
  /\ default_rate d' = Ok q
  /\ work_entries d' = work_entries d
  /\ sqlite_sequence d' = sqlite_sequence d
  /\ (forall e, open_entry_for_date (today e) d = None ->
        (check_in e d').1 = after_check_in e q d'
        /\ (api_check_in e d').1 = after_check_in e q d')
  /\ (forall e row r,
        open_entry_for_date (today e) d = Some row ->
        Entry.hourly_rate row = Some r -> Qnum r <> 0 ->
        work_entries (check_out e d').1 = work_entries (check_out e d).1
        /\ (check_out e d').2 = (check_out e d).2
        /\ work_entries (api_check_out e d').1 = work_entries (api_check_out e d).1
        /\ (api_check_out e d').2 = (api_check_out e d).2).
Proof.
  intros Hp Hrt Hne d'.
  assert (Ed : update_default_rate form d
               = (set_setting "default_hourly_rate" (str_of_float q) d,
                  Redirect "home" "Default hourly rate updated" "success")).
  { unfold update_default_rate. cbn [py_float]. by rewrite Hp. }
  subst d'. rewrite Ed. cbn [fst snd].
  assert (Hr : default_rate (set_setting "default_hourly_rate" (str_of_float q) d)
               = Ok q).
  { unfold default_rate, get_setting, set_setting. cbn [settings].
    rewrite lookup_insert_eq. cbn [of_text from_option]. unfold py_or.
    cbn [truthy]. destruct (str_of_float q) as [|c s] eqn:Es; [done|].
    cbn [str_truthy py_float]. by rewrite Hrt. }
  split; [done|]. split; [done|]. split; [done|]. split; [done|]. split.
  - intros e Ho.
    assert (Ho' : open_entry_for_date (today e)
                    (set_setting "default_hourly_rate" (str_of_float q) d) = None)
      by exact Ho.
    by rewrite (check_in_fresh e _ q Ho' Hr), (api_check_in_fresh e _ q Ho' Hr).
  - intros e row r Ho Hrow Hnz.
    assert (Ho' : open_entry_for_date (today e)
                    (set_setting "default_hourly_rate" (str_of_float q) d) = Some row)
      by exact Ho.
    assert (Hrate : forall d0, check_out_rate row d0 = Ok r).
    { intros d0. rewrite check_out_rate_cases, Hrow.
      by destruct (Z.eqb_spec (Qnum r) 0). }
    destruct (hours_since (Entry.check_in row) (strftime_HM (now e))) as [h|x] eqn:Hh.
    + destruct (check_out_run e d row h r Ho Hh (Hrate d)) as [-> ->].
      by destruct (check_out_run e _ row h r Ho' Hh (Hrate _)) as [-> ->].
    + unfold check_out, api_check_out. by rewrite Ho', Ho, Hh.
Qed.

Lemma rate_change_applies_to_new_entries_witness :
  default_rate (H:=decimal_text)
    (update_default_rate (H:=decimal_text) (Sample.rate_form " 7.5 ") Sample.fresh).1
  = Ok (15 # 2)%Q
  /\ (check_in (H:=decimal_text) Sample.morning
        (update_default_rate (H:=decimal_text) (Sample.rate_form " 7.5 ")
           Sample.fresh).1).1
     = after_check_in Sample.morning (15 # 2)
         (update_default_rate (H:=decimal_text) (Sample.rate_form " 7.5 ")
            Sample.fresh).1.
Proof.
  destruct (rate_change_applies_to_new_entries (H:=decimal_text)
              (Sample.rate_form " 7.5 ") Sample.fresh (15 # 2)%Q
              eq_refl eq_refl ltac:(discriminate))
    as (_ & Hr & _ & _ & Hin & _).
  split; [exact Hr|]. exact (proj1 (Hin Sample.morning eq_refl)).
Defined.

(** ** Stripping and replacing *)

Lemma rstrip_idem s : rstrip (rstrip s) = rstrip s.
Proof.
  induction s as [|c r IH]; [done|]. cbn [rstrip].
  destruct (rstrip r) as [|c' r'] eqn:E.
  - destruct (is_space c) eqn:Ec; [done|]. cbn [rstrip]. by rewrite Ec.
  - change (rstrip (String c (String c' r'))) with
      (match rstrip (String c' r') with
       | EmptyString => if is_space c then EmptyString else String c EmptyString
       | r0 => String c r0
       end).
    by rewrite IH.
Qed.

Lemma lstrip_head s :
  lstrip s = EmptyString
  \/ exists c r, lstrip s = String c r /\ is_space c = false.
Proof.
  induction s as [|c r IH]; [by left|]. cbn [lstrip].
  destruct (is_space c) eqn:Ec; [done|]. right. by exists c, r.
Qed.

Lemma rstrip_head c r :
  is_space c = false -> exists r', rstrip (String c r) = String c r'.
Proof.
  intros Ec. cbn [rstrip]. destruct (rstrip r) as [|c' r'].
  - rewrite Ec. by eexists.
  - by eexists.
Qed.

Lemma strip_idem s : strip (strip s) = strip s.
Proof.
  unfold strip. destruct (lstrip_head s) as [->|(c & r & -> & Ec)]; [done|].
  destruct (rstrip_head c r Ec) as [r' E]. rewrite E at 1.
  cbn [lstrip]. rewrite Ec, <- E. apply rstrip_idem.
Qed.

Lemma strip_clean s :
  all_chars (fun c => negb (is_space c)) s = true -> strip s = s.
Proof.
  intros Hs. unfold strip.
  assert (El : lstrip s = s).
  { destruct s as [|c r]; [done|]. cbn [all_chars] in Hs. cbn [lstrip].
    apply andb_true_iff in Hs as [Hc _]. by apply negb_true_iff in Hc as ->. }
  rewrite El. clear El. induction s as [|c r IH]; [done|].
  cbn [all_chars] in Hs. apply andb_true_iff in Hs as [Hc Hr].
  apply negb_true_iff in Hc. cbn [rstrip]. rewrite (IH Hr), Hc. by destruct r.
Qed.

Lemma prefix_all_chars (p : ascii -> bool) old s :
  String.prefix old s = true -> all_chars p s = true -> all_chars p old = true.
Proof.
  revert s. induction old as [|a old IH]; intros s; [done|].
  destruct s as [|b s]; [done|]. cbn [String.prefix all_chars].
  destruct (ascii_dec a b) as [->|]; [|done].
  intros Hp Hs. apply andb_true_iff in Hs as [Hb Hs]. rewrite Hb. cbn [andb].
  by apply (IH s).
Qed.

(** Where no blank occurs there is no [Bearer ] to take out. *)
Lemma replace_clean s :
  all_chars (fun c => negb (Ascii.eqb c " ")) s = true ->
  str_replace s "Bearer " "" = s.
Proof.
  unfold str_replace. induction s as [|c r IH]; [done|]. intros Hs.
  cbn [replace_from].
  destruct (String.prefix "Bearer " (String c r)) eqn:Ep.
  - by pose proof (prefix_all_chars _ _ _ Ep Hs).
  - cbn [all_chars] in Hs. apply andb_true_iff in Hs as [_ Hr]. by rewrite (IH Hr).
Qed.

Lemma prefix_app old s : String.prefix old (old ++ s) = true.
Proof.
  induction old as [|a old IH]; [by destruct s|]. rewrite string_app_cons.
  cbn [String.prefix]. by destruct (ascii_dec a a) as [_|Hne]; [|destruct Hne].
Qed.

Lemma replace_from_skip old new p s :
  replace_from old new (String.length p) (p ++ s) = replace_from old new 0 s.
Proof.
  induction p as [|c p IH]; [by rewrite string_app_nil|].
  rewrite string_app_cons. cbn [String.length replace_from]. apply IH.
Qed.

(** An occurrence at the head is replaced, and the search goes on
    behind it. *)
Lemma replace_occurrence a old new s :
  str_replace (String a old ++ s) (String a old) new
  = new ++ str_replace s (String a old) new.
Proof.
  unfold str_replace. pose proof (prefix_app (String a old) s) as Hp.
  rewrite string_app_cons in *. cbn [replace_from]. rewrite Hp.
  f_equal. apply replace_from_skip.
Qed.

Lemma replace_Bearer s :
  str_replace ("Bearer " ++ s) "Bearer " "" = str_replace s "Bearer " "".
Proof. rewrite replace_occurrence. apply string_app_nil. Qed.

Lemma hex_chr_clean n :
  0 <= n < 16 ->
  negb (is_space (hex_chr n)) && negb (Ascii.eqb (hex_chr n) " ") = true.
Proof.
  intros Hn. replace n with (Z.of_nat (Z.to_nat n)) by lia.
  assert (Hk : (Z.to_nat n < 16)%nat) by lia.
  revert Hk. generalize (Z.to_nat n). intros k Hk.
  do 16 (destruct k as [|k]; [reflexivity|]). lia.
Qed.

Lemma hexlify_clean bs :
  all_chars (fun c => negb (is_space c)) (hexlify bs) = true
  /\ all_chars (fun c => negb (Ascii.eqb c " ")) (hexlify bs) = true.
Proof.
  induction bs as [|b r [IH1 IH2]]; [done|]. cbn [hexlify all_chars].
  pose proof (hex_chr_clean (b / 16 mod 16) ltac:(apply Z.mod_pos_bound; lia)) as H1.
  pose proof (hex_chr_clean (b mod 16) ltac:(apply Z.mod_pos_bound; lia)) as H2.
  apply andb_true_iff in H1 as [-> ->]. apply andb_true_iff in H2 as [-> ->].
  by rewrite IH1, IH2.
Qed.

(** The token of a login is read back from the header with the scheme
    and from the header without it. *)
Lemma bearer_token_hex bs :
  bearer_token (Some ("Bearer " ++ hexlify bs)) = hexlify bs
  /\ bearer_token (Some (hexlify bs)) = hexlify bs.
Proof.
  destruct (hexlify_clean bs) as [Hs Hb]. unfold bearer_token, default.
  cbn [from_option id].
  rewrite replace_Bearer, (replace_clean _ Hb). by rewrite (strip_clean _ Hs).
Qed.

(** ** The life of a token *)

Lemma require_token_iff authorization (TOKENS : gset string) :
  require_token authorization TOKENS = true
  <-> bearer_token authorization <> "" /\ bearer_token authorization ∈ TOKENS.
Proof.
  unfold require_token. cbv zeta.
  destruct (bearer_token authorization) as [|c s] eqn:E; cbn [str_truthy negb orb].
  - split; [done|]. by intros [? _].
  - destruct (bool_decide_reflect (String c s ∈ TOKENS)) as [Hin|Hin]; cbn [negb].
    + done.
    + split; [done|]. by intros [_ ?].
Qed.

Lemma token_required_cases {A : Type} (view : db -> db * A) authorization
    (TOKENS : gset string) d :
  token_required view authorization TOKENS d
  = if require_token authorization TOKENS then ((view d).1, Served (view d).2)
    else (d, Unauthorized).
Proof.
  unfold token_required. destruct (require_token _ _); cbn [negb]; [|done].
  by destruct (view d).
Qed.

(** X14.  The token a login issues opens the guarded endpoints of the
    API, sent with the scheme [Bearer] or bare, and the tokens issued
    before stay good; [api_me] then names the user of the session cookie,
    or the initial one.  A logout with that token closes the endpoints
    again for it, with or without the scheme, writes nothing, and leaves
    every other token as it was. *)
Theorem token_lifecycle `{Bcrypt} (data : gmap string string) (entropy : list Z)
    (a : accounts) (TOKENS TOKENS1 : gset string) (token username : string) :
  entropy <> [] ->
  api_login data entropy a TOKENS = (TOKENS1, TokenIssued token username) ->
  let header := Some ("Bearer " ++ token) in
  require_token header TOKENS1 = true
  /\ require_token (Some token) TOKENS1 = true
  /\ (forall h, require_token h TOKENS = true -> require_token h TOKENS1 = true)
  /\ (forall (A : Type) (view : db -> db * A) d,
        token_required view header TOKENS1 d = ((view d).1, Served (view d).2))
  /\ let TOKENS2 := (api_logout header TOKENS1).1 in
     require_token header TOKENS2 = false
     /\ require_token (Some token) TOKENS2 = false
     /\ (forall (A : Type) (view : db -> db * A) d,
           token_required view header TOKENS2 d = (d, Unauthorized))
     /\ (forall h, bearer_token h <> token ->
           require_token h TOKENS2 = require_token h TOKENS1)
     /\ (forall c s,
           api_me c header TOKENS1 s
           = Served (default (PStr (DEFAULT_USERNAME c)) (s !! "username"))
           /\ api_me c header TOKENS2 s = Unauthorized).
Proof.
  intros Hne Hlogin header.
  assert (E : token = hexlify entropy /\ TOKENS1 = {[ token ]} ∪ TOKENS).
  { unfold api_login in Hlogin. cbv zeta in Hlogin.
    destruct (user_by_name _ a) as [row|]; [|done].
    destruct (bcrypt_verify _ _); [|done]. by injection Hlogin as <- <- _. }
  destruct E as [Et E1].
  destruct (bearer_token_hex entropy) as [Eb Eb']. rewrite <- Et in Eb, Eb'.
  assert (Hnz : token <> "") by (rewrite Et; by destruct entropy).
  assert (Hyes : require_token header TOKENS1 = true).
  { apply require_token_iff. subst header. rewrite Eb. split; [done|].
    rewrite E1. by apply elem_of_union_l, elem_of_singleton_2. }
  split; [done|]. split.
  { apply require_token_iff. rewrite Eb'. split; [done|]. rewrite E1.
    by apply elem_of_union_l, elem_of_singleton_2. }
  split.
  { intros h Hh. apply require_token_iff in Hh as [Hh1 Hh2].
    apply require_token_iff. split; [done|]. rewrite E1. by apply elem_of_union_r. }
  split.
  { intros A view d. by rewrite token_required_cases, Hyes. }
  assert (E2 : (api_logout header TOKENS1).1 = TOKENS1 ∖ {[ token ]}).
  { unfold api_logout. cbv zeta. cbn [fst]. subst header. rewrite Eb.
    rewrite bool_decide_eq_true_2; [done|]. rewrite E1.
    by apply elem_of_union_l, elem_of_singleton_2. }
  cbv zeta. rewrite E2.
  assert (Hno : require_token header (TOKENS1 ∖ {[ token ]}) = false).
  { apply not_true_is_false. intros Hh. apply require_token_iff in Hh as [_ Hh].
    subst header. rewrite Eb in Hh. apply elem_of_difference in Hh as [_ Hh].
    by apply Hh, elem_of_singleton_2. }
  split; [done|]. split.
  { apply not_true_is_false. intros Hh. apply require_token_iff in Hh as [_ Hh].
    rewrite Eb' in Hh. apply elem_of_difference in Hh as [_ Hh].
    by apply Hh, elem_of_singleton_2. }
  split.
  { intros A view d. by rewrite token_required_cases, Hno. }
  split.
  { intros h Hh.
    destruct (require_token h TOKENS1) eqn:E.
    - apply require_token_iff in E as [Hh1 Hh2]. apply require_token_iff.
      split; [done|]. apply elem_of_difference. split; [done|].
      by rewrite elem_of_singleton.
    - apply not_true_is_false. intros Hh'.
      apply require_token_iff in Hh' as [Hh1 Hh2].
      assert (require_token h TOKENS1 = true); [|congruence].
      apply require_token_iff. split; [done|].
      by apply elem_of_difference in Hh2 as [? _]. }
  intros c s. unfold api_me. by rewrite Hyes, Hno.
Qed.

Lemma token_lifecycle_witness :
  require_token (Some "Bearer 00112233445566778899aabbccddeeff")
    (api_login (H:=plain_bcrypt) (Start.credentials " Mohammad " "408809937")
       Start.entropy (Start.first Start.defaults) ∅).1 = true
  /\ require_token (Some "00112233445566778899aabbccddeeff")
       (api_logout (Some "Bearer 00112233445566778899aabbccddeeff")
          (api_login (H:=plain_bcrypt) (Start.credentials " Mohammad " "408809937")
             Start.entropy (Start.first Start.defaults) ∅).1).1 = false.
Proof.
  destruct (token_lifecycle (H:=plain_bcrypt)
              (Start.credentials " Mohammad " "408809937") Start.entropy
              (Start.first Start.defaults) ∅
              (api_login (H:=plain_bcrypt) (Start.credentials " Mohammad " "408809937")
                 Start.entropy (Start.first Start.defaults) ∅).1
              "00112233445566778899aabbccddeeff" "Mohammad"
              ltac:(discriminate) eq_refl)
    as (Hyes & _ & _ & _ & _ & Hno & _).
  split; [exact Hyes|exact Hno].
Defined.

(** ** Signing in *)

Section SignIn.
Context `{Bcrypt}.

(** After the first start the table holds the initial account, and a
    name finds it exactly when it is the initial name. *)
Lemma first_user_by_name c salt username :
  user_by_name username (ensure_default_user c salt no_accounts)
  = if String.eqb (DEFAULT_USERNAME c) username then
      Some {| User.id := 1;
              User.username := DEFAULT_USERNAME c;
              User.password_hash := bcrypt_hash (DEFAULT_PASSWORD c) salt |}
    else None.
Proof.
  unfold user_by_name, ensure_default_user.
  cbn [users no_accounts List.length Z.of_nat Z.eqb app user_sequence List.find
       User.username Z.add].
  reflexivity.
Qed.

Lemma login_required_cases {A : Type} (view : db -> db * A) path s d :
  login_required view path s d
  = if is_logged_in s then ((view d).1, Served (view d).2) else (d, ToLogin path).
Proof.
  unfold login_required. destruct (is_logged_in s); cbn [negb]; [|done].
  by destruct (view d).
Qed.

End SignIn.

(** X15.  After the first start the initial account signs in, on the
    web and on the API, with the initial password and the initial name,
    blanks around the name not counting, provided [bcrypt] verifies the
    hash it made.  The session is then logged in under that name and the
    guarded views are served; after a logout they redirect to the login
    page with the path asked for and write nothing. *)
Theorem default_account_signs_in `{Bcrypt} (c : config) (salt : string)
    (form data : gmap string string) (next : option string) (s : session)
    (entropy : list Z) (TOKENS : gset string) :
  bcrypt_verify (DEFAULT_PASSWORD c) (bcrypt_hash (DEFAULT_PASSWORD c) salt) = true ->
  strip (form_get form "username" "") = DEFAULT_USERNAME c ->
  form_get form "password" "" = DEFAULT_PASSWORD c ->
  strip (default "" (data !! "username")) = DEFAULT_USERNAME c ->
  default "" (data !! "password") = DEFAULT_PASSWORD c ->
  let a := ensure_default_user c salt no_accounts in
  let s1 := (login POST form next a s).1 in
  (login POST form next a s).2 = LoginRedirect (default "/" (next ≫= or_None))
  /\ is_logged_in s1 = true
  /\ session_get s1 "username" = PStr (DEFAULT_USERNAME c)
  /\ (forall (A : Type) (view : db -> db * A) path d,
        login_required view path s1 d = ((view d).1, Served (view d).2))
  /\ (forall (A : Type) (view : db -> db * A) path d,
        login_required view path (logout s1).1 d = (d, ToLogin path))
  /\ api_login data entropy a TOKENS
     = ({[ hexlify entropy ]} ∪ TOKENS,
        TokenIssued (hexlify entropy) (DEFAULT_USERNAME c)).
Proof.
  intros Hv Hu Hp Hu' Hp' a s1.
  assert (El : login POST form next a s
               = (<["username" := PStr (DEFAULT_USERNAME c)]>
                    (<["user_id" := PInt 1]> s),
                  LoginRedirect (default "/" (next ≫= or_None)))).
  { unfold login. cbv zeta. subst a.
    rewrite Hu, Hp, first_user_by_name, String.eqb_refl.
    cbn [User.password_hash User.id User.username]. rewrite Hv. f_equal. f_equal.
    destruct next as [[|ch n]|]; reflexivity. }
  subst s1. rewrite El. cbn [fst snd].
  assert (Hin : is_logged_in (<["username" := PStr (DEFAULT_USERNAME c)]>
                                (<["user_id" := PInt 1]> s)) = true).
  { unfold is_logged_in, session_get, session in *.
    rewrite lookup_insert_ne by done. by rewrite lookup_insert_eq. }
  split; [done|]. split; [done|]. split.
  { unfold session_get, session in *. by rewrite lookup_insert_eq. }
  split.
  { intros A view path d. by rewrite login_required_cases, Hin. }
  split.
  { intros A view path d. rewrite login_required_cases. reflexivity. }
  unfold api_login. cbv zeta. subst a.
  rewrite Hu', Hp', first_user_by_name, String.eqb_refl.
  cbn [User.password_hash]. by rewrite Hv.
Qed.

Lemma default_account_signs_in_witness :
  is_logged_in
    (login (H:=plain_bcrypt) POST (Start.credentials " Mohammad " "408809937")
       (Some "/report") (Start.first Start.defaults) ∅).1 = true
  /\ (login (H:=plain_bcrypt) POST (Start.credentials " Mohammad " "408809937")
        (Some "/report") (Start.first Start.defaults) ∅).2 = LoginRedirect "/report".
Proof.
  destruct (default_account_signs_in (H:=plain_bcrypt) Start.defaults "salt"
              (Start.credentials " Mohammad " "408809937")
              (Start.credentials " Mohammad " "408809937")
              (Some "/report") ∅ Start.entropy ∅
              eq_refl eq_refl eq_refl eq_refl eq_refl)
    as (Hr & Hin & _).
  split; [exact Hin|exact Hr].
Defined.

(** X16.  The name a login looks up is stripped, the initial name is
    stored as it is: an initial name with a blank at either end is never
    found, and no login succeeds after the first start, on the web or on
    the API, whatever is sent. *)
Theorem padded_username_locked_out `{Bcrypt} (c : config) (salt : string) :
  strip (DEFAULT_USERNAME c) <> DEFAULT_USERNAME c ->
  let a := ensure_default_user c salt no_accounts in
  (forall form next s,
     login POST form next a s
     = (s, LoginPage (Some ("Invalid credentials", "error"))))
  /\ (forall data entropy TOKENS,
        api_login data entropy a TOKENS = (TOKENS, InvalidCredentials)).
Proof.
  intros Hpad a. subst a.
  assert (Hno : forall u, String.eqb (DEFAULT_USERNAME c) (strip u) = false).
  { intros u. apply String.eqb_neq. intros E. apply Hpad.
    by rewrite E, strip_idem. }
  split.
  - intros form next s. unfold login. cbv zeta.
    by rewrite first_user_by_name, Hno.
  - intros data entropy TOKENS. unfold api_login. cbv zeta.
    by rewrite first_user_by_name, Hno.
Qed.

Lemma padded_username_locked_out_witness :
  login (H:=plain_bcrypt) POST (Start.credentials " admin" "secret") None
    (Start.first Start.padded) ∅
  = (∅, LoginPage (Some ("Invalid credentials", "error")))
  /\ api_login (H:=plain_bcrypt) (Start.credentials " admin" "secret") Start.entropy
       (Start.first Start.padded) ∅
     = (∅, InvalidCredentials).
Proof.
  destruct (padded_username_locked_out (H:=plain_bcrypt) Start.padded "salt"
              ltac:(discriminate)) as [Hweb Hapi].
  split; [apply Hweb|apply Hapi].
Defined.

(** ** Starting again *)

(** The only setting an operation writes is the default rate. *)
Lemma run_settings `{FloatText} op d :
  settings (run op d).1 = settings d
  \/ exists v, settings (run op d).1 = <["default_hourly_rate" := v]> (settings d).
Proof.
  destruct op as [form|e|e|e|e|form|rid' form|rid']; simpl.
  - unfold update_default_rate. destruct (py_float _) as [q|[]]; simpl; eauto.
  - unfold check_in. destruct (open_entry_for_date _ d); [by left|].
    destruct (default_rate d); simpl; by left.
  - unfold api_check_in. destruct (open_entry_for_date _ d); [by left|].
    destruct (default_rate d); simpl; by left.
  - unfold check_out. destruct (open_entry_for_date _ d); [|by left].
    destruct (hours_since _ _); simpl; [|by left].
    destruct (py_float _); simpl; by left.
  - unfold api_check_out. destruct (open_entry_for_date _ d); [|by left].
    destruct (hours_since _ _); simpl; [|by left].
    destruct (py_float _); simpl; by left.
  - unfold add_record. destruct (form_rate form d); simpl; [|by left].
    match goal with
    | |- context [(if ?c then ?a else ?b) ≫= _] =>
        destruct (if c then a else b) as [[th ds]|x]
    end; simpl; by left.
  - unfold edit_record. destruct (select_by_id rid' d); [|by left].
    destruct (form_rate form d); simpl; [|by left].
    match goal with
    | |- context [(if ?c then ?a else ?b) ≫= _] =>
        destruct (if c then a else b) as [[th ds]|x]
    end; simpl; by left.
  - by left.
Qed.

Lemma run_all_setting_kept `{FloatText} ops d key :
  is_Some (get_setting key d) -> is_Some (get_setting key (run_all ops d)).
Proof.
  revert d. induction ops as [|op ops IH]; intros d Hk; [done|].
  cbn [run_all]. apply IH. unfold get_setting in *.
  destruct (run_settings op d) as [->|[v ->]]; [done|].
  destruct (decide ("default_hourly_rate" = key)) as [<-|Hne].
  - by rewrite lookup_insert_eq.
  - by rewrite lookup_insert_ne.
Qed.

Lemma ensure_default_user_twice `{Bcrypt} c c' salt salt' a :
  ensure_default_user c' salt' (ensure_default_user c salt a)
  = ensure_default_user c salt a
  /\ users (ensure_default_user c salt a) <> [].
Proof.
  unfold ensure_default_user.
  destruct (users a) as [|u l] eqn:E.
  - cbn [users app List.length Z.of_nat Z.eqb]. done.
  - assert (Hz : (Z.of_nat (List.length (u :: l)) =? 0) = false).
    { cbn [List.length]. rewrite Nat2Z.inj_succ. apply Z.eqb_neq. lia. }
    by rewrite Hz, E, Hz.
Qed.

(** X17.  Once the application has started, starting it again changes
    nothing, whatever was done in between and whatever initial name and
    password the environment then gives: the account and its password
    stay, and the default rate is the one last saved, not 5.0 again. *)
Theorem restart_keeps_state `{FloatText} `{Bcrypt} (c c' : config) (salt salt' : string)
    (a : accounts) (d : db) (ops : list operation) :
  let st := create_app c salt (a, d) in
  let d' := run_all ops st.2 in
  create_app c' salt' (st.1, d') = (st.1, d')
  /\ users st.1 <> []
  /\ is_Some (get_setting "default_hourly_rate" d')
  /\ (is_Some (get_setting "default_hourly_rate" d) -> st.2 = d)
  /\ (users a <> [] -> st.1 = a).
Proof.
  intros st d'. subst st d'. unfold create_app. cbn [fst snd].
  destruct (ensure_default_user_twice c c' salt salt' a) as [Eu Hu].
  assert (Hk : is_Some (get_setting "default_hourly_rate"
                          (run_all ops (ensure_default_settings d)))).
  { apply run_all_setting_kept. unfold ensure_default_settings.
    destruct (get_setting "default_hourly_rate" d) as [v|] eqn:E.
    - by rewrite E.
    - unfold get_setting, set_setting. cbn [settings]. by rewrite lookup_insert_eq. }
  split; [|split; [done|split; [done|split]]].
  - rewrite Eu. f_equal. unfold ensure_default_settings at 1.
    by destruct Hk as [v ->].
  - intros [v E]. unfold ensure_default_settings. by rewrite E.
  - intros Hne. unfold ensure_default_user.
    destruct (users a) as [|u l]; [done|].
    assert (Hz : (Z.of_nat (List.length (u :: l)) =? 0) = false).
    { cbn [List.length]. rewrite Nat2Z.inj_succ. apply Z.eqb_neq. lia. }
    by rewrite Hz.
Qed.

(** ** From the clock to the report *)

(** X18.  A day of work shows in the report of its month: after the
    check-in and the check-out the report of the current month lists the
    rows it listed before and the new one, and its two totals are the
    hours and the salary of the day added to the sums of the rows listed
    before, rounded. *)
Theorem work_shows_in_report `{FloatText} (e e' : env) (d : db) (r : Q) :
  wf_db d = true ->
  valid_date (today e) = true ->
  year (today e) < MAXYEAR \/ month (today e) < 12 ->
  open_entry_for_date (today e) d = None ->
  default_rate d = Ok r -> Qnum r <> 0 ->
  today e' = today e ->
  time_of_day (now e) -> time_of_day (now e') ->
  let new := worked_row (sqlite_sequence d + 1) e e' r in
  exists before after,
    monthly None e' d = Ok before
    /\ monthly None e' (check_out e' (check_in e d).1).1 = Ok after
    /\ Report.rows after ≡ₚ new :: Report.rows before
    /\ Report.total_hours after
       = round2 (elapsed (now e) (now e')
                 + sum_or_0 Entry.total_hours (Report.rows before))
    /\ Report.total_salary after
       = round2 (round2 (elapsed (now e) (now e') * r)
                 + sum_or_0 Entry.daily_salary (Report.rows before)).
Proof.
  intros Hwf Hv Hlast Ho Hr Hnz Hday Ht Ht' new.
  destruct (check_in_after e d r Ho Hr) as [-> _].
  destruct (check_out_closes e e' d r Hwf Ho Hnz Hday Ht Ht') as [-> _]. cbn [fst].
  pose proof (valid_date_bounds _ Hv) as (Hy & Hm & Hk).
  pose proof (days_in_month_range (year (today e)) (month (today e))) as Hdim.
  set (first := {| year := year (today e); month := month (today e); day := 1 |}).
  set (last := {| year := year (today e); month := month (today e);
                  day := days_in_month (year (today e)) (month (today e)) |}).
  assert (Es : report_start None (today e') = Ok first).
  { unfold report_start. rewrite Hday. destruct (today e) as [y m k].
    apply date_replace_day_valid; cbn [year month] in *; unfold MINYEAR, MAXYEAR; lia. }
  assert (Ee : report_end first = Ok last).
  { apply report_end_last_day; unfold MINYEAR, MAXYEAR in *; lia. }
  assert (Hnew : between (isoformat first) (isoformat last) new = true).
  { apply (between_month _ _ (today e)); done. }
  assert (Hperm : select_between (isoformat first) (isoformat last) (after_work e e' r d)
                  ≡ₚ new :: select_between (isoformat first) (isoformat last) d).
  { rewrite !select_between_perm. cbn [work_entries after_work].
    rewrite List.filter_app. cbn [List.filter]. fold new. rewrite Hnew.
    by rewrite <- Permutation_cons_append. }
  unfold monthly. rewrite Es, !bind_Ok, Ee, !bind_Ok.
  eexists _, _. split; [reflexivity|]. split; [reflexivity|].
  cbn [Report.rows Report.total_hours Report.total_salary].
  split; [exact Hperm|].
  split; apply round2_proper; rewrite py_sum_sum_or_0, (sum_or_0_perm _ _ _ Hperm);
    reflexivity.
Qed.

Lemma work_shows_in_report_witness :
  exists before after,
    monthly None Sample.evening Sample.fresh = Ok before
    /\ monthly None Sample.evening
         (check_out (H:=decimal_text) Sample.evening
            (check_in (H:=decimal_text) Sample.morning Sample.fresh).1).1 = Ok after
    /\ Report.rows after
       ≡ₚ worked_row 1 Sample.morning Sample.evening 5 :: Report.rows before.
Proof.
  destruct (work_shows_in_report (H:=decimal_text) Sample.morning Sample.evening
              Sample.fresh 5 eq_refl eq_refl ltac:(left; reflexivity) eq_refl eq_refl
              ltac:(discriminate) eq_refl
              ltac:(repeat split; discriminate) ltac:(repeat split; discriminate))
    as (before & after & Hb & Ha & Hrows & _).
  exists before, after. split; [exact Hb|]. split; [exact Ha|exact Hrows].
Defined.
